(** * emdash: workflow lifecycle and review orchestration

    A shallow embedding of the renderer-side stores of emdash and of the
    components that drive them:

    - [KanbanStore]  : renderer/lib/kanbanStore.ts (status map, pending flags)
    - [ReviewRunner] : renderer/lib/reviewRunner.ts (single-flight review)
    - [ProviderTabs] : renderer/lib/workspaceProviderTabs.ts (tab registry)
    - [ReviewAgent]  : renderer/hooks/useReviewAgent.ts (canStartReview)
    - [KanbanBoard]  : renderer/components/kanban/KanbanBoard.tsx
                       (markDone, handleDrop, the idle-timer effect)

    Module-level [let]/[const] bindings of the TypeScript modules become
    fields of explicit state records that every function threads through.
    Wall-clock reads ([Date.now()]) are arguments named [now].  Calls to
    collaborators behind [window.electronAPI] are recorded in call logs and
    their answers arrive as events.  A [string] holds the UTF-8 bytes of the
    JavaScript string it stands for. *)

From Stdlib Require Import ZArith String Ascii List Bool Lia.
From stdpp Require Import gmap strings list fin_maps pretty.

Open Scope Z_scope.

Set Warnings "-register-all".

(** ** JSON values, as produced by [JSON.parse] *)

Module Json.

Inductive json : Type :=
| JNull
| JBool (b : bool)
| JNum (z : Z)
| JInf                               (* a number outside the finite range *)
| JStr (s : string)
| JArr (items : list json)
| JObj (fields : list (string * json)).

(** A JavaScript value that may be [undefined] is an [option json]. *)
Definition value := option json.

Fixpoint assoc (k : string) (fields : list (string * json)) : value :=
  match fields with
  | [] => None
  | (k', v) :: rest => if String.eqb k k' then Some v else assoc k rest
  end.

(** [v?.k]: property read with optional chaining.  Only objects carry the
    properties read by this code; every other value answers [undefined].
    A parsed object holds one binding per key. *)
Definition get (k : string) (v : value) : value :=
  match v with
  | Some (JObj fields) => assoc k fields
  | _ => None
  end.

(** JavaScript truthiness. *)
Definition truthy (v : value) : bool :=
  match v with
  | None => false
  | Some JNull => false
  | Some (JBool b) => b
  | Some (JNum z) => negb (z =? 0)
  | Some JInf => true
  | Some (JStr s) => negb (String.eqb s "")
  | Some (JArr _) => true
  | Some (JObj _) => true
  end.

(** [typeof v === 'object'] for a truthy [v]. *)
Definition isObject (v : value) : bool :=
  match v with
  | Some (JArr _) | Some (JObj _) => true
  | _ => false
  end.

End Json.

(** ** The browser's [localStorage]

    Entries are held as they read back through [JSON.parse].  The two
    kanban keys hold values of the shapes kanbanStore.ts declares for them;
    the per-workspace provider-tab keys hold arbitrary JSON because two
    modules read them with their own validation. *)

Inductive KanbanStatus : Type := Todo | InProgress | Done.

Global Instance KanbanStatus_eq_dec : EqDecision KanbanStatus.
Proof. solve_decision. Defined.

(** The status maps are plain objects, and reading [map[key]] looks the key
    up on [Object.prototype] when the object has no such property of its
    own.  These are the names of the members of [Object.prototype]; each is
    a function or an object, hence truthy and not a status. *)
Definition objectPrototypeKeys : list string :=
  ["constructor"; "__defineGetter__"; "__defineSetter__"; "hasOwnProperty";
   "__lookupGetter__"; "__lookupSetter__"; "isPrototypeOf";
   "propertyIsEnumerable"; "toString"; "valueOf"; "__proto__";
   "toLocaleString"].

(** What [map[key] || 'todo'] evaluates to: a status, or the inherited
    member of that name. *)
Inductive StatusValue : Type :=
| Status (status : KanbanStatus)
| Inherited (key : string).

Coercion Status : KanbanStatus >-> StatusValue.

Global Instance StatusValue_eq_dec : EqDecision StatusValue.
Proof. solve_decision. Defined.

(** [map[key] || 'todo'] on a status map: own properties are copied by the
    spread and written by the computed key [[key]: status], so [__proto__]
    too is an own property once it has been set. *)
Definition lookupOrTodo (map : gmap string KanbanStatus) (key : string) : StatusValue :=
  match map !! key with
  | Some status => Status status
  | None => if bool_decide (key ∈ objectPrototypeKeys) then Inherited key else Status Todo
  end.

(** What [JSON.parse(raw)] gives for a stored entry: a usable object, or
    nothing usable (the parse throws, or yields a falsy / non-object value). *)
Inductive parsed (A : Type) : Type :=
| Corrupt
| Usable (a : A).
Arguments Corrupt {A}.
Arguments Usable {A} a.

(** The keys this code writes. *)
Inductive StorageKey : Type :=
| STORAGE_KEY                         (* 'emdash:kanban:statusByWorkspace' *)
| REVIEW_PENDING_KEY                  (* 'emdash:kanban:reviewPending' *)
| TABS_KEY (workspaceId : string).    (* 'emdash:providerTabs:v1:<id>' *)

Global Instance StorageKey_eq_dec : EqDecision StorageKey.
Proof. solve_decision. Defined.

Record LocalStorage : Type := mkLocalStorage {
  ls_throws : bool;                   (* every access throws *)
  ls_status : option (parsed (gmap string KanbanStatus));
  ls_pending : option (parsed (gmap string bool));
  ls_tabs : gmap string (option Json.json);   (* [Some None]: unparsable *)
  ls_writes : list StorageKey         (* log of completed setItem calls *)
}.

Definition emptyStorage : LocalStorage :=
  mkLocalStorage false None None ∅ [].

(** ** renderer/lib/kanbanStore.ts *)

Module KanbanStore.

Record Store : Type := mkStore {
  cache : option (gmap string KanbanStatus);
  reviewPendingCache : option (gmap string bool);
  storage : LocalStorage
}.

Definition initial (ls : LocalStorage) : Store := mkStore None None ls.

(** [read()]: the cache, hydrated from storage on first use. *)
Definition read (s : Store) : gmap string KanbanStatus * Store :=
  match cache s with
  | Some m => (m, s)
  | None =>
      let ls := storage s in
      let hydrated :=
        if ls_throws ls then ∅
        else match ls_status ls with
             | Some (Usable m) => m
             | _ => ∅
             end in
      (hydrated, mkStore (Some hydrated) (reviewPendingCache s) ls)
  end.

(** [write(next)]: replace the cache, then best-effort [setItem]. *)
Definition write (next : gmap string KanbanStatus) (s : Store) : Store :=
  let ls := storage s in
  let ls' :=
    if ls_throws ls then ls
    else mkLocalStorage (ls_throws ls) (Some (Usable next)) (ls_pending ls)
                        (ls_tabs ls) (ls_writes ls ++ [STORAGE_KEY]) in
  mkStore (Some next) (reviewPendingCache s) ls'.

Definition getStatus (workspaceId : string) (s : Store) : StatusValue * Store :=
  let '(m, s1) := read s in
  (lookupOrTodo m workspaceId, s1).

Definition setStatus (workspaceId : string) (status : KanbanStatus) (s : Store) : Store :=
  let '(m, s1) := read s in
  write (<[workspaceId := status]> m) s1.

Definition getAll (s : Store) : gmap string KanbanStatus * Store := read s.

Definition clearAll (s : Store) : Store := write ∅ s.

Definition readReviewPending (s : Store) : gmap string bool * Store :=
  match reviewPendingCache s with
  | Some m => (m, s)
  | None =>
      let ls := storage s in
      let hydrated :=
        if ls_throws ls then ∅
        else match ls_pending ls with
             | Some (Usable m) => m
             | _ => ∅
             end in
      (hydrated, mkStore (cache s) (Some hydrated) ls)
  end.

Definition writeReviewPending (next : gmap string bool) (s : Store) : Store :=
  let ls := storage s in
  let ls' :=
    if ls_throws ls then ls
    else mkLocalStorage (ls_throws ls) (ls_status ls) (Some (Usable next))
                        (ls_tabs ls) (ls_writes ls ++ [REVIEW_PENDING_KEY]) in
  mkStore (cache s) (Some next) ls'.

Definition setReviewPending (workspaceId : string) (pending : bool) (s : Store) : Store :=
  let '(m, s1) := readReviewPending s in
  let map := <[workspaceId := pending]> m in
  let map := if pending then map else delete workspaceId map in
  writeReviewPending map s1.

Definition isReviewPending (workspaceId : string) (s : Store) : bool * Store :=
  let '(m, s1) := readReviewPending s in
  (bool_decide (m !! workspaceId = Some true), s1).

Definition clearReviewPending (workspaceId : string) (s : Store) : Store :=
  setReviewPending workspaceId false s.

(** Number of completed writes of the status map to durable storage. *)
Definition statusWrites (s : Store) : nat :=
  length (filter (fun k => k = STORAGE_KEY) (ls_writes (storage s))).

End KanbanStore.

(** ** renderer/lib/reviewRunner.ts *)

Module ReviewRunner.

Inductive ReviewStatus : Type := idle | running | success | error.

Global Instance ReviewStatus_eq_dec : EqDecision ReviewStatus.
Proof. solve_decision. Defined.

Inductive LineType : Type := context | add | del.

Record DiffLine : Type := mkDiffLine {
  dl_left : option string;
  dl_right : option string;
  dl_type : LineType
}.

Record Diff : Type := mkDiff { lines : list DiffLine }.

Record ReviewFile : Type := mkReviewFile {
  rf_path : string;
  rf_status : string;
  rf_additions : Z;
  rf_deletions : Z;
  rf_diff : option Diff
}.

Record ReviewState : Type := mkReviewState {
  rs_status : ReviewStatus;
  rs_summary : string;
  rs_files : list ReviewFile;
  rs_startedAt : Z;
  rs_finishedAt : option Z;
  rs_error : option string
}.

Definition INITIAL_STATE : ReviewState :=
  mkReviewState idle "No review started yet." [] 0 None None.

(** *** Collaborators behind [window.electronAPI] *)

(** One entry of [getGitStatus(...).changes]; line counts are integers. *)
Record GitChange : Type := mkGitChange {
  gc_path : string;
  gc_status : string;
  gc_additions : Z;
  gc_deletions : Z
}.

Record GitStatusResponse : Type := mkGitStatusResponse {
  gs_success : bool;
  gs_error : option string;
  gs_changes : option (list GitChange)      (* [None]: not an array *)
}.

Record FileDiffResponse : Type := mkFileDiffResponse {
  fd_success : bool;
  fd_diff : option Diff
}.

(** A thrown value: an [Error] with its message, or any other value with
    the text [String(value)] gives for it. *)
Inductive Thrown : Type :=
| ThrownError (message : string)
| ThrownValue (text : string).

(** How an awaited promise settles. *)
Inductive Settled (A : Type) : Type :=
| Fulfilled (a : A)
| Rejected (e : Thrown).
Arguments Fulfilled {A} a.
Arguments Rejected {A} e.

(** What the call expression [electronAPI?.getGitStatus?.(path)] does
    before the [await]. *)
Inductive CallOutcome : Type :=
| ApiMissing                    (* optional chain short-circuits, no call *)
| CallThrows (e : Thrown)       (* the call throws synchronously *)
| CallReturns.                  (* a value or promise comes back *)

(** What [collectFileDiff] observes for one file. *)
Inductive DiffOutcome : Type :=
| DiffCallThrew
| DiffSettled (r : Settled (option FileDiffResponse)).

(** The [try]/[catch] of [collectFileDiff]. *)
Definition collectFileDiff (o : DiffOutcome) : option Diff :=
  match o with
  | DiffSettled (Fulfilled (Some res)) =>
      if fd_success res then fd_diff res else None
  | _ => None
  end.

(** *** The store *)

(** The body of the [work] closure between two suspension points. *)
Inductive Phase : Type :=
| AwaitStatus
| AwaitDiff (files : list ReviewFile) (change : GitChange) (rest : list GitChange)
| Finished (result : ReviewState).

Record Task : Type := mkTask {
  t_workspaceId : string;
  t_workspacePath : string;
  t_startedAt : Z;
  t_phase : Phase
}.

(** A promise created by [work] is named by the index of its task. *)
Record Store : Type := mkStore {
  states : gmap string ReviewState;
  inflight : gmap string nat;
  tasks : list Task;
  gitStatusCalls : list string;               (* workspacePath per call *)
  fileDiffCalls : list (string * string);     (* (workspacePath, filePath) *)
  emitted : list (string * ReviewState)       (* what [emit] hands to listeners *)
}.

Definition initial : Store := mkStore ∅ ∅ [] [] [] [].

Definition getReviewState (workspaceId : string) (s : Store) : ReviewState :=
  default INITIAL_STATE (states s !! workspaceId).

(** [states.set(workspaceId, st); emit(workspaceId)] *)
Definition setAndEmit (workspaceId : string) (st : ReviewState) (s : Store) : Store :=
  mkStore (<[workspaceId := st]> (states s)) (inflight s) (tasks s)
          (gitStatusCalls s) (fileDiffCalls s) (emitted s ++ [(workspaceId, st)]).

(** [err?.message || String(err)] *)
Definition errorMsg (e : Thrown) : string :=
  match e with
  | ThrownError message => if String.eqb message "" then "Error" else message
  | ThrownValue text => text
  end.

(** [res?.error || 'Unable to collect git status for review'] *)
Definition statusFailureMessage (res : option GitStatusResponse) : string :=
  match res with
  | Some r =>
      match gs_error r with
      | Some m => if String.eqb m "" then "Unable to collect git status for review" else m
      | None => "Unable to collect git status for review"
      end
  | None => "Unable to collect git status for review"
  end.

(** The filter on internal bookkeeping paths. *)
Definition keepChange (c : GitChange) : bool :=
  negb (String.prefix ".emdash/" (gc_path c))
  && negb (String.eqb (gc_path c) "PLANNING.md").

(** The largest integer below which every integer is a double. *)
Definition MAX_SAFE_INTEGER : Z := 2 ^ 53 - 1.

(** The double nearest to an integer (IEEE 754 binary64, ties to even),
    below the overflow threshold: the result of a [+] of two
    integer-valued doubles whose exact sum is [z]. *)
Definition roundDouble (z : Z) : Z :=
  let a := Z.abs z in
  if a <? 2 ^ 53 then z
  else
    let e := Z.log2 a - 52 in
    let q := Z.shiftr a e in
    let r := a - Z.shiftl q e in
    let half := Z.shiftl 1 (e - 1) in
    let q' := if r <? half then q
              else if half <? r then q + 1
              else if Z.even q then q else q + 1 in
    Z.sgn z * Z.shiftl q' e.

(** [files.reduce((sum, f) => sum + f.additions, 0)] *)
Definition totalOf (f : ReviewFile -> Z) (files : list ReviewFile) : Z :=
  fold_left (fun sum x => roundDouble (sum + f x)) files 0.

(** The template literal; [pretty] is [String(n)] for an integer [n]
    below 10^21. *)
Definition summaryOf (files : list ReviewFile) : string :=
  match files with
  | [] => "No local changes to review."
  | _ =>
      pretty (length files) +:+ " file"
      +:+ (if Nat.eqb (length files) 1 then "" else "s")
      +:+ " changed (+" +:+ pretty (totalOf rf_additions files)
      +:+ " / -" +:+ pretty (totalOf rf_deletions files) +:+ ")"
  end.

Definition replacePhase (p : nat) (ph : Phase) (ts : list Task) : list Task :=
  match ts !! p with
  | Some t => <[p := mkTask (t_workspaceId t) (t_workspacePath t) (t_startedAt t) ph]> ts
  | None => ts
  end.

(** The tail shared by the success path, the [catch] and the [finally]:
    record the terminal state, emit it, drop the in-flight entry. *)
Definition finish (p : nat) (t : Task) (final : ReviewState) (s : Store) : Store :=
  let s1 := setAndEmit (t_workspaceId t) final s in
  mkStore (states s1) (delete (t_workspaceId t) (inflight s1))
          (replacePhase p (Finished final) (tasks s1))
          (gitStatusCalls s1) (fileDiffCalls s1) (emitted s1).

Definition failureState (startedAt now : Z) (msg : string) : ReviewState :=
  mkReviewState error "" [] startedAt (Some now) (Some msg).

Definition successState (startedAt now : Z) (files : list ReviewFile) : ReviewState :=
  mkReviewState success (summaryOf files) files startedAt (Some now) None.

(** Entering one iteration of the [for] loop: [collectFileDiff] calls
    [getFileDiff] and the closure suspends on it. *)
Definition enterDiff (p : nat) (t : Task) (files : list ReviewFile)
    (c : GitChange) (rest : list GitChange) (s : Store) : Store :=
  mkStore (states s) (inflight s)
          (replacePhase p (AwaitDiff files c rest) (tasks s))
          (gitStatusCalls s)
          (fileDiffCalls s ++ [(t_workspacePath t, gc_path c)]) (emitted s).

(** The loop from its head, with [files] collected so far. *)
Definition continueLoop (now : Z) (p : nat) (t : Task) (files : list ReviewFile)
    (remaining : list GitChange) (s : Store) : Store :=
  match remaining with
  | c :: rest => enterDiff p t files c rest s
  | [] => finish p t (successState (t_startedAt t) now files) s
  end.

Inductive Returned : Type :=
| RetPromise (p : nat)            (* resolves to whatever task [p] resolves to *)
| RetState (st : ReviewState).    (* resolves to this state *)

(** The part of [startReview] below the early returns: publish the running
    state, create [work], register it. *)
Definition launch (now : Z) (call : CallOutcome)
    (workspaceId workspacePath : string) (s : Store) : Store * Returned :=
  let startedAt := now in
  let runningSt :=
    mkReviewState running "Starting code review…" [] startedAt None None in
  let s1 := setAndEmit workspaceId runningSt s in
  let p := length (tasks s1) in
  let t := mkTask workspaceId workspacePath startedAt AwaitStatus in
  (* the closure runs up to its first [await] *)
  let s2 :=
    match call with
    | ApiMissing =>
        mkStore (states s1) (inflight s1) (tasks s1 ++ [t])
                (gitStatusCalls s1) (fileDiffCalls s1) (emitted s1)
    | CallReturns =>
        mkStore (states s1) (inflight s1) (tasks s1 ++ [t])
                (gitStatusCalls s1 ++ [workspacePath])
                (fileDiffCalls s1) (emitted s1)
    | CallThrows e =>
        (* [catch] and [finally] run before [work] is returned *)
        finish p t (failureState startedAt now (errorMsg e))
          (mkStore (states s1) (inflight s1) (tasks s1 ++ [t])
                   (gitStatusCalls s1 ++ [workspacePath])
                   (fileDiffCalls s1) (emitted s1))
    end in
  (mkStore (states s2) (<[workspaceId := p]> (inflight s2)) (tasks s2)
           (gitStatusCalls s2) (fileDiffCalls s2) (emitted s2),
   RetPromise p).

Definition startReview (now : Z) (call : CallOutcome)
    (workspaceId workspacePath : string) (s : Store) : Store * Returned :=
  match inflight s !! workspaceId with
  | Some pending => (s, RetPromise pending)
  | None =>
      match states s !! workspaceId with
      | Some existing =>
          match rs_status existing with
          | success => (s, RetState existing)
          | running =>
              (s, match inflight s !! workspaceId with
                  | Some inFlightExisting => RetPromise inFlightExisting
                  | None => RetState existing
                  end)
          | _ => launch now call workspaceId workspacePath s
          end
      | None => launch now call workspaceId workspacePath s
      end
  end.

(** The closure resumes after [await getGitStatus(...)]. *)
Definition resumeStatus (now : Z) (p : nat)
    (r : Settled (option GitStatusResponse)) (s : Store) : Store :=
  match tasks s !! p with
  | Some t =>
      match t_phase t with
      | AwaitStatus =>
          match r with
          | Rejected e => finish p t (failureState (t_startedAt t) now (errorMsg e)) s
          | Fulfilled res =>
              if default false (gs_success <$> res) then
                let changes := default [] (res ≫= gs_changes) in
                let filtered := List.filter keepChange changes in
                continueLoop now p t [] filtered s
              else
                finish p t (failureState (t_startedAt t) now
                              (errorMsg (ThrownError (statusFailureMessage res)))) s
          end
      | _ => s
      end
  | None => s
  end.

(** The closure resumes after [await collectFileDiff(...)]. *)
Definition resumeDiff (now : Z) (p : nat) (o : DiffOutcome) (s : Store) : Store :=
  match tasks s !! p with
  | Some t =>
      match t_phase t with
      | AwaitDiff files c rest =>
          let file := mkReviewFile (gc_path c) (gc_status c) (gc_additions c)
                                   (gc_deletions c) (collectFileDiff o) in
          continueLoop now p t (files ++ [file]) rest s
      | _ => s
      end
  | None => s
  end.

(** [resetReviewState()]; closures already started keep running. *)
Definition resetReviewState (s : Store) : Store :=
  mkStore ∅ ∅ (tasks s) (gitStatusCalls s) (fileDiffCalls s) (emitted s).

(** What the promise of task [p] has resolved to, if it has. *)
Definition resolved (p : nat) (s : Store) : option ReviewState :=
  match t_phase <$> tasks s !! p with
  | Some (Finished st) => Some st
  | _ => None
  end.

(** What a caller of [startReview] ends up holding. *)
Definition outcome (r : Returned) (s : Store) : option ReviewState :=
  match r with
  | RetPromise p => resolved p s
  | RetState st => Some st
  end.

(** *** Runs of the store *)

Inductive Event : Type :=
| EvStart (now : Z) (call : CallOutcome) (workspaceId workspacePath : string)
| EvStatus (now : Z) (p : nat) (r : Settled (option GitStatusResponse))
| EvDiff (now : Z) (p : nat) (o : DiffOutcome)
| EvReset.

Definition step (s : Store) (e : Event) : Store :=
  match e with
  | EvStart now call w path => fst (startReview now call w path s)
  | EvStatus now p r => resumeStatus now p r s
  | EvDiff now p o => resumeDiff now p o s
  | EvReset => resetReviewState s
  end.

Definition run (evs : list Event) (s : Store) : Store := fold_left step evs s.

Definition isReset (e : Event) : bool :=
  match e with EvReset => true | _ => false end.

(** Answer the pending diff requests of task [p] one after the other,
    each at its own time. *)
Definition resumeDiffs (p : nat) (os : list (Z * DiffOutcome)) (s : Store) : Store :=
  fold_left (fun acc o => resumeDiff (fst o) p (snd o) acc) os s.

(** *** Invariants of the store *)

Definition unfinished (t : Task) : bool :=
  match t_phase t with
  | Finished _ => false
  | _ => true
  end.

(** Every computation still running is the in-flight entry of its
    workspace. *)
Definition tracked (s : Store) : Prop :=
  forall p t, tasks s !! p = Some t -> unfinished t = true ->
              inflight s !! t_workspaceId t = Some p.

(** A workspace whose recorded state is [success] has no in-flight entry. *)
Definition successSettled (s : Store) : Prop :=
  forall w st, states s !! w = Some st -> rs_status st = success ->
               inflight s !! w = None.

(** [startReview] for [w] gets past its early returns. *)
Definition startsFresh (w : string) (s : Store) : Prop :=
  inflight s !! w = None
  /\ forall st, states s !! w = Some st ->
                rs_status st <> success /\ rs_status st <> running.

Definition resetFree (evs : list Event) : bool :=
  forallb (fun e => negb (isReset e)) evs.

(** The ways the VCS-status collaborator fails: the call throws [e], its
    promise rejects with [e], or it answers [{success: false, error: m}]. *)
Inductive VcsFailure : Type :=
| Throws (e : Thrown)
| Rejects (e : Thrown)
| Reports (m : string) (changes : option (list GitChange)).

(** The message a failure carries: the [message] of a thrown [Error], the
    text of any other thrown value, the reported [error]. *)
Definition thrownText (e : Thrown) : string :=
  match e with
  | ThrownError message => message
  | ThrownValue text => text
  end.

Definition failureMessage (f : VcsFailure) : string :=
  match f with
  | Throws e | Rejects e => thrownText e
  | Reports m _ => m
  end.

(** One [startReview] call against a collaborator failing as [f]: the call
    at [now], the answer (if the call did not throw) at [now']. *)
Definition startReviewFailing (now now' : Z) (f : VcsFailure)
    (workspaceId workspacePath : string) (s : Store) : Store * Returned :=
  match f with
  | Throws e => startReview now (CallThrows e) workspaceId workspacePath s
  | Rejects e =>
      let r := startReview now CallReturns workspaceId workspacePath s in
      (resumeStatus now' (length (tasks s)) (Rejected e) (fst r), snd r)
  | Reports m changes =>
      let r := startReview now CallReturns workspaceId workspacePath s in
      (resumeStatus now' (length (tasks s))
         (Fulfilled (Some (mkGitStatusResponse false (Some m) changes))) (fst r),
       snd r)
  end.

(** The entry of [files] built from one change and the answer to its diff
    request. *)
Definition fileOf (c : GitChange) (o : Z * DiffOutcome) : ReviewFile :=
  mkReviewFile (gc_path c) (gc_status c) (gc_additions c) (gc_deletions c)
               (collectFileDiff (snd o)).

(** A task keeps its place and its workspace for good. *)
Definition sameWorkspaces (ts ts' : list Task) : Prop :=
  forall p t, ts !! p = Some t ->
              exists t', ts' !! p = Some t' /\ t_workspaceId t' = t_workspaceId t.

(** Aggregate line counts of a change set. *)
Definition sumOf (f : GitChange -> Z) (changes : list GitChange) : Z :=
  foldr (fun c acc => f c + acc) 0 changes.

(** [needle] occurs in [hay] ([String.prototype.includes]). *)
Fixpoint contains (needle hay : string) : bool :=
  String.prefix needle hay
  || match hay with
     | EmptyString => false
     | String _ rest => contains needle rest
     end.

End ReviewRunner.

(** ** renderer/lib/workspaceProviderTabs.ts *)

Module ProviderTabs.
Import Json.

Record ProviderTab : Type := mkTab {
  id : string;
  provider : string;
  createdAt : Z;
  isReview : option bool
}.

Record WorkspaceProviderTabsState : Type := mkState {
  tabs : list ProviderTab;
  activeId : option string
}.

Definition EMPTY_STATE : WorkspaceProviderTabsState := mkState [] None.

(** [tab.isReview] used as a condition. *)
Definition reviewFlag (tab : ProviderTab) : bool :=
  match isReview tab with
  | Some true => true
  | _ => false
  end.

(** The composite key of the two dedupe passes. *)
Definition tabKey (tab : ProviderTab) : string :=
  provider tab +:+ ":" +:+ (if reviewFlag tab then "review" else "normal").

(** [String.prototype.trim] strips the code points of WhiteSpace and
    LineTerminator: U+0009..U+000D and U+0020 in one byte, U+00A0 in two,
    U+1680, U+2000..U+200A, U+2028, U+2029, U+202F, U+205F, U+3000 and
    U+FEFF in three. *)
Definition isSpace (c : ascii) : bool :=
  match nat_of_ascii c with
  | 9 | 10 | 11 | 12 | 13 | 32 => true
  | _ => false
  end%nat.

Definition isSpace2 (c1 c2 : ascii) : bool :=
  (Nat.eqb (nat_of_ascii c1) 194 && Nat.eqb (nat_of_ascii c2) 160)%nat.

Definition isSpace3 (c1 c2 c3 : ascii) : bool :=
  let n1 := nat_of_ascii c1 in
  let n2 := nat_of_ascii c2 in
  let n3 := nat_of_ascii c3 in
  (Nat.eqb n1 225 && Nat.eqb n2 154 && Nat.eqb n3 128
   || Nat.eqb n1 226 && Nat.eqb n2 128
      && (Nat.leb 128 n3 && Nat.leb n3 138
          || Nat.eqb n3 168 || Nat.eqb n3 169 || Nat.eqb n3 175)
   || Nat.eqb n1 226 && Nat.eqb n2 129 && Nat.eqb n3 159
   || Nat.eqb n1 227 && Nat.eqb n2 128 && Nat.eqb n3 128
   || Nat.eqb n1 239 && Nat.eqb n2 187 && Nat.eqb n3 191)%nat.

(** Strip white space from the front; with [back], from the front of a
    reversed string, where the bytes of a code point come last first. *)
Fixpoint stripFront (back : bool) (s : string) : string :=
  match s with
  | String c1 r1 =>
      if isSpace c1 then stripFront back r1
      else
        match r1 with
        | String c2 r2 =>
            if (if back then isSpace2 c2 c1 else isSpace2 c1 c2)
            then stripFront back r2
            else
              match r2 with
              | String c3 r3 =>
                  if (if back then isSpace3 c3 c2 c1 else isSpace3 c1 c2 c3)
                  then stripFront back r3
                  else s
              | EmptyString => s
              end
        | EmptyString => s
        end
  | EmptyString => EmptyString
  end.

Definition trimStart (s : string) : string := stripFront false s.

Definition trim (s : string) : string :=
  String.rev (stripFront true (String.rev (trimStart s))).

(** The filter callback of both dedupe passes, with its [seen] set. *)
Fixpoint uniqueTabs (valid : ProviderTab -> bool) (seen : gset string)
    (l : list ProviderTab) : list ProviderTab :=
  match l with
  | [] => []
  | tab :: rest =>
      if negb (valid tab) then uniqueTabs valid seen rest
      else if bool_decide (tabKey tab ∈ seen) then uniqueTabs valid seen rest
      else tab :: uniqueTabs valid ({[tabKey tab]} ∪ seen) rest
  end.

Definition encodeTab (tab : ProviderTab) : json :=
  JObj ([("id", JStr (id tab)); ("provider", JStr (provider tab));
         ("createdAt", JNum (createdAt tab))]
        ++ match isReview tab with
           | Some b => [("isReview", JBool b)]
           | None => []
           end).

(** [JSON.stringify(state)] as it reads back. *)
Definition encodeState (st : WorkspaceProviderTabsState) : json :=
  JObj [("tabs", JArr (encodeTab <$> tabs st));
        ("activeId", match activeId st with
                     | Some a => JStr a
                     | None => JNull
                     end)].

Record Store : Type := mkStore {
  storageAvailable : bool;
  workspaceStates : gmap string WorkspaceProviderTabsState;
  storage : LocalStorage;
  emitted : list string                  (* one entry per [emit(workspaceId)] *)
}.

Definition initial (available : bool) (ls : LocalStorage) : Store :=
  mkStore available ∅ ls [].

Section WithRegistry.

(** The ids of @shared/providers/registry. *)
Variable registry : list string.

(** Modelled from the spec: [isValidProviderId] of @shared/providers/registry,
    which is not among the sources; a provider kind "must be one of a known
    registry of ids".  It accepts exactly the strings of [registry]. *)
Definition isValidProviderId (v : value) : bool :=
  match v with
  | Some (JStr s) => bool_decide (s ∈ registry)
  | _ => false
  end.

Definition normalizeProvider (prov : value) (fallback : string) : string :=
  match prov with
  | Some (JStr s) =>
      if isValidProviderId prov then s
      else if isValidProviderId (Some (JStr fallback)) then fallback
      else "codex"
  | _ => if isValidProviderId (Some (JStr fallback)) then fallback else "codex"
  end.

Definition cloneState (st : WorkspaceProviderTabsState) : WorkspaceProviderTabsState :=
  mkState ((fun tab => mkTab (id tab) (provider tab) (createdAt tab) (isReview tab))
             <$> tabs st)
          (activeId st).

(** The [.map] callback of [loadFromStorage]. *)
Definition loadItem (now : Z) (item : json) : option ProviderTab :=
  let prov := normalizeProvider (get "provider" (Some item)) "codex" in
  let tabId :=
    match get "id" (Some item) with
    | Some (JStr s) => if String.eqb (trim s) "" then prov else trim s
    | _ => prov
    end in
  if negb (isValidProviderId (Some (JStr prov))) then None
  else Some (mkTab tabId prov
               (match get "createdAt" (Some item) with
                | Some (JNum z) => z
                | _ => now
                end)
               None).

Definition loadFromStorage (now : Z) (workspaceId : string) (s : Store)
    : option WorkspaceProviderTabsState :=
  if negb (storageAvailable s) then None
  else if ls_throws (storage s) then None
  else
    match ls_tabs (storage s) !! workspaceId with
    | None => None                                   (* no entry *)
    | Some None => None                              (* JSON.parse throws *)
    | Some (Some parsed) =>
        if negb (truthy (Some parsed) && isObject (Some parsed)) then None
        else
          let loaded :=
            match get "tabs" (Some parsed) with
            | Some (JArr items) => omap (loadItem now) items
            | _ => []
            end in
          let unique := uniqueTabs (fun _ => true) ∅ loaded in
          match unique with
          | [] => None
          | first :: _ =>
              let active :=
                match get "activeId" (Some parsed) with
                | Some (JStr a) =>
                    if existsb (fun tab => String.eqb (id tab) a) unique
                    then a else id first
                | _ => id first
                end in
              Some (mkState unique (Some active))
          end
    end.

Definition saveToStorage (workspaceId : string) (st : WorkspaceProviderTabsState)
    (s : Store) : Store :=
  if negb (storageAvailable s) then s
  else if ls_throws (storage s) then s
  else
    let ls := storage s in
    mkStore (storageAvailable s) (workspaceStates s)
            (mkLocalStorage (ls_throws ls) (ls_status ls) (ls_pending ls)
               (<[workspaceId := Some (encodeState st)]> (ls_tabs ls))
               (ls_writes ls ++ [TABS_KEY workspaceId]))
            (emitted s).

Definition setState (workspaceId : string) (st : WorkspaceProviderTabsState)
    (s : Store) : Store :=
  mkStore (storageAvailable s) (<[workspaceId := st]> (workspaceStates s))
          (storage s) (emitted s).

Definition emit (workspaceId : string) (s : Store) : Store :=
  mkStore (storageAvailable s) (workspaceStates s) (storage s)
          (emitted s ++ [workspaceId]).

Definition createDefaultState (now : Z) (workspaceId fallbackProvider : string)
    (s : Store) : WorkspaceProviderTabsState * Store :=
  let prov := normalizeProvider (Some (JStr fallbackProvider)) "codex" in
  let tab := mkTab prov prov now None in
  let st := mkState [tab] (Some (id tab)) in
  (st, saveToStorage workspaceId st (setState workspaceId st s)).

Definition ensureWorkspaceState (now : Z) (workspaceId fallbackProvider : string)
    (s : Store) : WorkspaceProviderTabsState * Store :=
  match workspaceStates s !! workspaceId with
  | Some st => (st, s)
  | None =>
      match loadFromStorage now workspaceId s with
      | Some st => (st, setState workspaceId st s)
      | None =>
          let '(st, s1) := createDefaultState now workspaceId fallbackProvider s in
          (st, setState workspaceId st s1)
      end
  end.

Definition updateWorkspaceState (now : Z) (workspaceId fallbackProvider : string)
    (mutate : WorkspaceProviderTabsState -> WorkspaceProviderTabsState)
    (s : Store) : Store :=
  let '(current, s1) := ensureWorkspaceState now workspaceId fallbackProvider s in
  let draft := mutate (cloneState current) in
  let normalized :=
    (fun tab => mkTab (id tab)
                  (normalizeProvider (Some (JStr (provider tab))) fallbackProvider)
                  (createdAt tab) (isReview tab)) <$> tabs draft in
  let deduped :=
    uniqueTabs (fun tab => isValidProviderId (Some (JStr (provider tab)))) ∅ normalized in
  match deduped with
  | [] =>
      let '(_, s2) := createDefaultState now workspaceId fallbackProvider s1 in
      emit workspaceId s2
  | first :: _ =>
      let active :=
        match activeId draft with
        | Some a =>
            if String.eqb a "" then id first
            else if existsb (fun tab => String.eqb (id tab) a) deduped then a
            else id first
        | None => id first
        end in
      let draft' := mkState deduped (Some active) in
      emit workspaceId (saveToStorage workspaceId draft' (setState workspaceId draft' s1))
  end.

Definition addTab (now : Z) (workspaceId prov fallbackProvider : string)
    (s : Store) : Store :=
  if negb (isValidProviderId (Some (JStr prov))) then s
  else
    updateWorkspaceState now workspaceId fallbackProvider
      (fun draft =>
         let isIt tab := String.eqb (provider tab) prov && negb (reviewFlag tab) in
         if existsb isIt (tabs draft) then
           match List.find isIt (tabs draft) with
           | Some existing => mkState (tabs draft) (Some (id existing))
           | None => draft
           end
         else
           let tab := mkTab prov prov now None in
           mkState (tabs draft ++ [tab]) (Some (id tab)))
      s.

Definition addReviewTab (now : Z) (workspaceId prov fallbackProvider : string)
    (s : Store) : string * Store :=
  if negb (isValidProviderId (Some (JStr prov))) then ("", s)
  else
    let reviewTabId := prov +:+ "-review" in
    (reviewTabId,
     updateWorkspaceState now workspaceId fallbackProvider
       (fun draft =>
          let isIt tab := reviewFlag tab && String.eqb (provider tab) prov in
          if existsb isIt (tabs draft) then
            match List.find isIt (tabs draft) with
            | Some existing => mkState (tabs draft) (Some (id existing))
            | None => draft
            end
          else
            let tab := mkTab reviewTabId prov now (Some true) in
            mkState (tabs draft ++ [tab]) (Some (id tab)))
       s).

Definition getReviewTab (now : Z) (workspaceId fallbackProvider : string)
    (s : Store) : option ProviderTab * Store :=
  let '(st, s1) := ensureWorkspaceState now workspaceId fallbackProvider s in
  (List.find reviewFlag (tabs st), s1).

(** [findIndex]: [None] stands for -1. *)
Fixpoint findIndex {A} (f : A -> bool) (l : list A) : option nat :=
  match l with
  | [] => None
  | x :: rest => if f x then Some 0%nat else S <$> findIndex f rest
  end.

Definition closeTab (now : Z) (workspaceId tabId fallbackProvider : string)
    (s : Store) : Store :=
  let '(st, s1) := ensureWorkspaceState now workspaceId fallbackProvider s in
  if (length (tabs st) <=? 1)%nat then s1
  else
    match findIndex (fun tab => String.eqb (id tab) tabId) (tabs st) with
    | None => s1
    | Some idx =>
        updateWorkspaceState now workspaceId fallbackProvider
          (fun draft =>
             let kept := List.filter (fun tab => negb (String.eqb (id tab) tabId))
                                     (tabs draft) in
             if bool_decide (activeId draft = Some tabId) then
               let fallback :=
                 match kept !! idx with
                 | Some tab => Some tab
                 | None =>
                     match (match idx with
                            | O => None
                            | S i => kept !! i
                            end) with
                     | Some tab => Some tab
                     | None => kept !! 0%nat
                     end
                 end in
               mkState kept (id <$> fallback)
             else mkState kept (activeId draft))
          s1
    end.

Definition closeReviewTab (now : Z) (workspaceId fallbackProvider : string)
    (s : Store) : Store :=
  let '(st, s1) := ensureWorkspaceState now workspaceId fallbackProvider s in
  match List.find reviewFlag (tabs st) with
  | None => s1
  | Some reviewTab => closeTab now workspaceId (id reviewTab) fallbackProvider s1
  end.

Definition setActive (now : Z) (workspaceId tabId fallbackProvider : string)
    (s : Store) : Store :=
  updateWorkspaceState now workspaceId fallbackProvider
    (fun draft =>
       if existsb (fun tab => String.eqb (id tab) tabId) (tabs draft)
       then mkState (tabs draft) (Some tabId)
       else draft)
    s.

(** [getSnapshot]; [!workspaceId] holds for the empty id (and for [null],
    which the callers in this code base never pass). *)
Definition getSnapshot (now : Z) (workspaceId fallbackProvider : string)
    (s : Store) : WorkspaceProviderTabsState * Store :=
  if String.eqb workspaceId "" then (EMPTY_STATE, s)
  else ensureWorkspaceState now workspaceId fallbackProvider s.

(** [activeTab] of [useWorkspaceProviderTabs]: the first tab whose id is
    [activeId], else the first tab, else null. *)
Definition activeTab (snapshot : WorkspaceProviderTabsState) : option ProviderTab :=
  match List.find (fun tab => bool_decide (Some (id tab) = activeId snapshot))
                  (tabs snapshot) with
  | Some tab => Some tab
  | None => head (tabs snapshot)
  end.

(** *** Sequences of registry calls *)

Inductive Action : Type :=
| openProviderTab (prov : string)          (* addTab *)
| openReviewTab (prov : string)            (* addReviewTab *)
| setActiveTab (tabId : string)            (* setActive *)
| closeTabAction (tabId : string)          (* closeTab *)
| closeReviewTabAction.                    (* closeReviewTab *)

(** One call on the registry: the workspace, when it happens, the fallback
    provider of the caller, and the action. *)
Record Call : Type := mkCall {
  c_workspaceId : string;
  c_now : Z;
  c_fallback : string;
  c_action : Action
}.

Definition perform (s : Store) (c : Call) : Store :=
  let w := c_workspaceId c in
  match c_action c with
  | openProviderTab prov => addTab (c_now c) w prov (c_fallback c) s
  | openReviewTab prov => snd (addReviewTab (c_now c) w prov (c_fallback c) s)
  | setActiveTab tabId => setActive (c_now c) w tabId (c_fallback c) s
  | closeTabAction tabId => closeTab (c_now c) w tabId (c_fallback c) s
  | closeReviewTabAction => closeReviewTab (c_now c) w (c_fallback c) s
  end.

Definition performAll (calls : list Call) (s : Store) : Store :=
  fold_left perform calls s.

End WithRegistry.

(** The Tab Registry invariant on one workspace's collection. *)
Definition tabPair (tab : ProviderTab) : string * bool :=
  (provider tab, reviewFlag tab).

Definition wellFormed (st : WorkspaceProviderTabsState) : Prop :=
  tabs st ≠ []
  ∧ NoDup (tabPair <$> tabs st)
  ∧ ∃ tab, tab ∈ tabs st ∧ activeId st = Some (id tab).

(** A tab without the review flag. *)
Definition ordinary (tab : ProviderTab) : Prop := isReview tab = None.

(** What the [.map] callback of [loadFromStorage] keeps of a tab: its id,
    provider and creation time. *)
Definition withoutFlag (tab : ProviderTab) : ProviderTab :=
  mkTab (id tab) (provider tab) (createdAt tab) None.

(** Every collection held in memory is well formed. *)
Definition storeOk (s : Store) : Prop :=
  forall w st, workspaceStates s !! w = Some st -> wellFormed st.

End ProviderTabs.

(** ** renderer/hooks/useReviewAgent.ts *)

Module ReviewAgent.
Import Json.

Definition isNull (v : json) : bool :=
  match v with JNull => true | _ => false end.

(** [canStartReview()], for a project whose [reviewAgentConfig.enabled === true]
    is [reviewEnabled].  Every throw inside the [try] lands in the [catch]
    and answers [true]: a failing [getItem], a failing [JSON.parse], and the
    property read [t.isReview] on a [null] element. *)
Definition canStartReview (reviewEnabled : bool) (workspaceId : string)
    (ls : LocalStorage) : bool :=
  if negb reviewEnabled then false
  else if ls_throws ls then true
  else
    match ls_tabs ls !! workspaceId with
    | None => true                                   (* no tabs means single tab *)
    | Some None => true
    | Some (Some parsed) =>
        let tabs :=
          match get "tabs" (Some parsed) with
          | Some (JArr items) => items
          | _ => []
          end in
        if existsb isNull tabs then true
        else
          let nonReviewTabs :=
            List.filter (fun t => negb (truthy (get "isReview" (Some t)))) tabs in
          (length nonReviewTabs <=? 1)%nat
    end.

(** The condition of the auto-start effect:
    [isReviewPending(workspaceId) && reviewEnabled && canStartReview()]. *)
Definition autoStartCondition (reviewEnabled : bool) (workspaceId : string)
    (s : KanbanStore.Store) : bool * KanbanStore.Store :=
  let '(pending, s1) := KanbanStore.isReviewPending workspaceId s in
  (pending && reviewEnabled
   && canStartReview reviewEnabled workspaceId (KanbanStore.storage s1), s1).

(** The gate as the specification words it:
    [reviewEnabled AND (isPendingReview OR countNonReviewSurfaces <= 1)]. *)
Definition canStartReview_spec (reviewEnabled pending : bool) (nonReviewSurfaces : nat) : bool :=
  reviewEnabled && (pending || (nonReviewSurfaces <=? 1)%nat).

End ReviewAgent.

(** ** renderer/lib/reviewAutoStart.ts and
       renderer/components/kanban/KanbanBoard.tsx *)

Module KanbanBoard.

(** The fields of [Workspace] this component reads. *)
Record Workspace : Type := mkWorkspace {
  ws_id : string;
  ws_path : string
}.

(** [autoStartReviewIfDone(workspace, targetStatus)]: the arguments its
    [starter] (reviewRunner's [startReview]) is called with, if it is. *)
Definition autoStartReviewIfDone (workspace : Workspace) (targetStatus : KanbanStatus)
    : option (string * string) :=
  match targetStatus with
  | Done =>
      if String.eqb (ws_id workspace) "" || String.eqb (ws_path workspace) "" then None
      else Some (ws_id workspace, ws_path workspace)
  | _ => None
  end.

(** The three updater functions this component passes to [setStatusMap]. *)
Inductive Update : Type :=
| MarkDoneUpdate (workspaceId : string)                        (* in [markDone] *)
| PromoteUpdate (workspaceId : string)                         (* in the derived-status callback *)
| DropUpdate (workspaceId : string) (target : KanbanStatus).   (* in [handleDrop] *)

(** The component's state, the store behind it, and the timers it has set.

    React runs an updater given to [setStatusMap] inside that call only when
    the component has no update pending; otherwise the updater is queued
    and runs during the next render.  [statusMap] is the state the next
    render starts from and [pending] the updaters queued for it ([None]: no
    render is scheduled).  [onTheSpot] tells, for the calls of
    [setStatusMap] to come, whether React runs the updater inside the call
    when nothing is pending; it may not, since it decides on the lanes of
    the fiber, which an earlier render can leave set.

    [idleTimers] is the [Map] of the current run of the effect, in the
    order the timers fire: all have the same delay, so that is the order
    they were set in.  [staleTimers] are the timers set by earlier runs of
    the effect: each of those runs had a [Map] of its own, which no callback
    that is still subscribed can reach. *)
Record Board : Type := mkBoard {
  statusMap : gmap string KanbanStatus;
  pending : option (list Update);
  store : KanbanStore.Store;
  idleTimers : list (Workspace * Z);               (* workspace, deadline in ms *)
  staleTimers : list (Workspace * Z);
  clock : Z;
  reviewStarts : list (string * string);           (* calls of the review starter *)
  onTheSpot : list bool
}.

Definition GRACE_MS : Z := 10000.

Definition withStore (st : KanbanStore.Store) (b : Board) : Board :=
  mkBoard (statusMap b) (pending b) st (idleTimers b) (staleTimers b) (clock b)
          (reviewStarts b) (onTheSpot b).

Definition withIdleTimers (timers : list (Workspace * Z)) (b : Board) : Board :=
  mkBoard (statusMap b) (pending b) (store b) timers (staleTimers b) (clock b)
          (reviewStarts b) (onTheSpot b).

Definition withReviewStart (args : string * string) (b : Board) : Board :=
  mkBoard (statusMap b) (pending b) (store b) (idleTimers b) (staleTimers b) (clock b)
          (reviewStarts b ++ [args]) (onTheSpot b).

(** One updater applied to [prev]: whether it returns a new object rather
    than [prev] itself, the state it returns, and the store after the write
    it makes itself.  [prev[id] === 'in-progress'] holds for an own property
    only, no inherited member being a string. *)
Definition runUpdate (u : Update) (prev : gmap string KanbanStatus)
    (st : KanbanStore.Store) : bool * gmap string KanbanStatus * KanbanStore.Store :=
  match u with
  | MarkDoneUpdate workspaceId =>
      let cur := lookupOrTodo prev workspaceId in
      if bool_decide (cur = Status Done) then (false, prev, st)
      else (true, <[workspaceId := Done]> prev, st)
  | PromoteUpdate workspaceId =>
      if bool_decide (prev !! workspaceId = Some InProgress) then (false, prev, st)
      else (true, <[workspaceId := InProgress]> prev,
            KanbanStore.setStatus workspaceId InProgress st)
  | DropUpdate workspaceId target => (true, <[workspaceId := target]> prev, st)
  end.

(** [setStatusMap(updater)].  The answer tells whether the updater has run
    inside the call and returned a new object; a returned [prev] schedules
    no render. *)
Definition setStatusMap (u : Update) (b : Board) : bool * Board :=
  let inside :=
    hd false (onTheSpot b)
    && match pending b with None => true | Some _ => false end in
  if inside then
    let '(changed, next, st) := runUpdate u (statusMap b) (store b) in
    (changed,
     mkBoard next (if changed then Some [] else None) st (idleTimers b)
             (staleTimers b) (clock b) (reviewStarts b) (tl (onTheSpot b)))
  else
    (false,
     mkBoard (statusMap b) (Some (default [] (pending b) ++ [u])) (store b)
             (idleTimers b) (staleTimers b) (clock b) (reviewStarts b)
             (tl (onTheSpot b))).

(** A queued updater runs on the state and the store its predecessors
    have left. *)
Definition runQueued (acc : gmap string KanbanStatus * KanbanStore.Store) (u : Update)
    : gmap string KanbanStatus * KanbanStore.Store :=
  let '(_, next, st) := runUpdate u (fst acc) (snd acc) in
  (next, st).

(** A render: the queued updaters run in order. *)
Definition render (b : Board) : Board :=
  match pending b with
  | None => b
  | Some queue =>
      let '(next, st) := fold_left runQueued queue (statusMap b, store b) in
      mkBoard next None st (idleTimers b) (staleTimers b) (clock b) (reviewStarts b)
              (onTheSpot b)
  end.

(** [markDone(ws)]: [changed] is set by the updater, so it is still false
    after [setStatusMap] when the updater has been queued. *)
Definition markDone (ws : Workspace) (b : Board) : Board :=
  if String.eqb (ws_id ws) "" || String.eqb (ws_path ws) "" then b
  else
    let '(changed, b1) := setStatusMap (MarkDoneUpdate (ws_id ws)) b in
    let b2 := withStore (KanbanStore.setStatus (ws_id ws) Done (store b1)) b1 in
    if changed then
      match autoStartReviewIfDone ws Done with
      | Some args => withReviewStart args b2
      | None => b2
      end
    else b2.

(** The [subscribeDerivedStatus] callback. *)
Definition onDerivedStatus (ws : Workspace) (busy : bool) (b : Board) : Board :=
  if negb busy then b
  else snd (setStatusMap (PromoteUpdate (ws_id ws)) b).

Definition clearTimer (workspaceId : string) (timers : list (Workspace * Z))
    : list (Workspace * Z) :=
  List.filter (fun t => negb (String.eqb (ws_id (fst t)) workspaceId)) timers.

(** The [activityStore.subscribe] callback of the idle-timer effect; it
    reaches the [Map] of its own run of the effect. *)
Definition onActivity (ws : Workspace) (isBusy : bool) (b : Board) : Board :=
  if isBusy then withIdleTimers (clearTimer (ws_id ws) (idleTimers b)) b
  else
    withIdleTimers (clearTimer (ws_id ws) (idleTimers b) ++ [(ws, clock b + GRACE_MS)]) b.

(** [const cur = getStatus(ws.id); if (cur === 'in-progress') markDone(ws)],
    as the timer callback and the exit callback have it. *)
Definition settle (ws : Workspace) (b : Board) : Board :=
  let '(cur, st1) := KanbanStore.getStatus (ws_id ws) (store b) in
  let b1 := withStore st1 b in
  if bool_decide (cur = Status InProgress) then markDone ws b1 else b1.

(** The [setTimeout] callback of a timer of the current run. *)
Definition onIdleTimer (ws : Workspace) (b : Board) : Board :=
  let b2 := settle ws b in
  withIdleTimers (clearTimer (ws_id ws) (idleTimers b2)) b2.

(** The effect runs again because a dependency changed, or the component
    unmounts: the cleanup unsubscribes the callbacks and clears no timer.
    The run that follows starts with an empty [Map]. *)
Definition rerunEffect (b : Board) : Board :=
  mkBoard (statusMap b) (pending b) (store b) [] (staleTimers b ++ idleTimers b)
          (clock b) (reviewStarts b) (onTheSpot b).

(** [dt] milliseconds pass: the timers that have come due fire in order,
    those of earlier runs of the effect first; the [delete] of such a timer
    acts on the [Map] of its own run. *)
Definition advance (dt : Z) (b : Board) : Board :=
  let now := clock b + dt in
  let due (t : Workspace * Z) := snd t <=? now in
  let b0 :=
    mkBoard (statusMap b) (pending b) (store b) (idleTimers b)
            (List.filter (fun t => negb (due t)) (staleTimers b)) now
            (reviewStarts b) (onTheSpot b) in
  let b1 :=
    fold_left (fun acc t => settle (fst t) acc) (List.filter due (staleTimers b)) b0 in
  fold_left (fun acc t => onIdleTimer (fst t) acc) (List.filter due (idleTimers b)) b1.

(** The [onPtyExit] callback; [currentlyBusy] is what the activity store
    reports at that moment. *)
Definition onPtyExit (ws : Workspace) (currentlyBusy : bool) (b : Board) : Board :=
  if currentlyBusy then b else settle ws b.

(** The tail of the three polling loops, once a poll has produced
    [evidence] (local changes, an open pull request, commits ahead). *)
Definition onPollResult (ws : Workspace) (evidence cancelled currentlyBusy : bool)
    (b : Board) : Board :=
  if evidence && negb cancelled then
    if currentlyBusy then b else markDone ws b
  else b.

(** [handleDrop(target, workspaceId)] over [project.workspaces]. *)
Definition handleDrop (workspaces : list Workspace) (target : KanbanStatus)
    (workspaceId : string) (b : Board) : Board :=
  match target, List.find (fun w => String.eqb (ws_id w) workspaceId) workspaces with
  | Done, Some ws => markDone ws b
  | _, _ =>
      snd (setStatusMap (DropUpdate workspaceId target)
             (withStore (KanbanStore.setStatus workspaceId target (store b)) b))
  end.

(** Every way this component moves a workspace into ready-for-review. *)
Inductive Transition : Type :=
| IdleSettle                                    (* the grace timer fires *)
| ExitSettle                                    (* the terminal exits, not busy *)
| ExternalEvidence                              (* a poll finds evidence, not busy *)
| Drag (workspaces : list Workspace).           (* a card is dropped on the column *)

Definition transition (how : Transition) (ws : Workspace) (b : Board) : Board :=
  match how with
  | IdleSettle => onIdleTimer ws b
  | ExitSettle => onPtyExit ws false b
  | ExternalEvidence => onPollResult ws true false false b
  | Drag workspaces => handleDrop workspaces Done (ws_id ws) b
  end.






Definition statusOf (workspaceId : string) (b : Board) : StatusValue :=
  fst (KanbanStore.getStatus workspaceId (store b)).

Definition pendingOf (workspaceId : string) (b : Board) : bool :=
  fst (KanbanStore.isReviewPending workspaceId (store b)).


(** A workspace that [markDone] accepts. *)
Definition wellFormedWs (ws : Workspace) : Prop :=
  ws_id ws <> "" /\ ws_path ws <> "".


(** No derived-status updater of [w] waits for the next render. *)
Definition noPromotion (w : string) (b : Board) : Prop :=
  Forall (fun u => u <> PromoteUpdate w) (default [] (pending b)).

(** [setStatusMap] will run its updater inside the call. *)
Definition runsInside (b : Board) : bool :=
  hd false (onTheSpot b) && match pending b with None => true | Some _ => false end.

(** A board that has rendered, with the answers React is going to give. *)
Definition rendered (react : list bool) (b : Board) : Board :=
  let b' := render b in
  mkBoard (statusMap b') (pending b') (store b') (idleTimers b') (staleTimers b')
          (clock b') (reviewStarts b') react.

End KanbanBoard.

(** ** Scenarios taken from the test suite *)

Module Scenarios.

Definition registry : list string := ["codex"; "claude"; "openai"].

(** A workspace with two ordinary tabs open, as the tab registry records
    it. *)
Definition twoTabs : ProviderTabs.Store :=
  ProviderTabs.addTab registry 2 "ws-auto" "claude" "codex"
    (ProviderTabs.addTab registry 1 "ws-auto" "codex" "codex"
       (ProviderTabs.initial true emptyStorage)).

(** The same browser storage, with the pending-review flag of the
    workspace set. *)
Definition pendingTwoTabs : KanbanStore.Store :=
  KanbanStore.setReviewPending "ws-auto" true
    (KanbanStore.initial (ProviderTabs.storage twoTabs)).

(** A registry that has persisted an ordinary tab and a review tab, and the
    registry of the next session on the same storage. *)
Definition withReviewTab : ProviderTabs.Store :=
  snd (ProviderTabs.addReviewTab registry 5 "ws" "claude" "codex"
         (ProviderTabs.initial true emptyStorage)).

Definition nextSession : ProviderTabs.Store :=
  ProviderTabs.initial true (ProviderTabs.storage withReviewTab).

(** The same with the provider of the review as the workspace's default
    provider, so that the ordinary tab and the review tab share it. *)
Definition reviewBesideDefault : ProviderTabs.Store :=
  snd (ProviderTabs.addReviewTab registry 5 "ws" "claude" "claude"
         (ProviderTabs.initial true emptyStorage)).

Definition sessionAfterReview : ProviderTabs.Store :=
  ProviderTabs.initial true (ProviderTabs.storage reviewBesideDefault).

(** A board on which workspace ws-1 has been promoted to in-progress. *)
Definition ws1 : KanbanBoard.Workspace :=
  KanbanBoard.mkWorkspace "ws-1" "/tmp/ws-1".

(** The board of a new project once the derived status of ws-1 has been
    busy and the board has rendered; React is going to run the next updater
    inside the call. *)
Definition inProgressBoard : KanbanBoard.Board :=
  KanbanBoard.rendered [true]
    (KanbanBoard.onDerivedStatus ws1 true
       (KanbanBoard.mkBoard ∅ None (KanbanStore.initial emptyStorage) [] [] 0 [] [])).

(** The same board when React is going to queue the next updater. *)
Definition inProgressBoardQueueing : KanbanBoard.Board :=
  KanbanBoard.rendered [false] inProgressBoard.



(** A workspace whose previous review failed with "boom". *)
Definition afterBoom : list ReviewRunner.Event :=
  [ReviewRunner.EvStart 1 ReviewRunner.CallReturns "ws-1" "/tmp/ws-1";
   ReviewRunner.EvStatus 2 0 (ReviewRunner.Fulfilled (Some (ReviewRunner.mkGitStatusResponse false (Some "boom") None)))].

Definition twoChanges : ReviewRunner.GitStatusResponse :=
  ReviewRunner.mkGitStatusResponse true None
    (Some [ReviewRunner.mkGitChange "src/index.ts" "M" 5 2; ReviewRunner.mkGitChange "README.md" "A" 10 0]).

Definition addLine : Z * ReviewRunner.DiffOutcome :=
  (30, ReviewRunner.DiffSettled (ReviewRunner.Fulfilled (Some (ReviewRunner.mkFileDiffResponse true
         (Some (ReviewRunner.mkDiff [ReviewRunner.mkDiffLine (Some "") (Some "") ReviewRunner.add])))))).

(** The history of the first scenario: two changed files, both diffs
    fetched. *)
Definition reviewedTwoFiles : list ReviewRunner.Event :=
  [ReviewRunner.EvStart 1 ReviewRunner.CallReturns "ws-1" "/tmp/ws-1";
   ReviewRunner.EvStatus 2 0 (ReviewRunner.Fulfilled (Some twoChanges));
   ReviewRunner.EvDiff 3 0 (snd addLine);
   ReviewRunner.EvDiff 4 0 (snd addLine)].

End Scenarios.

(** ** Further notions about the review pipeline *)

Module ReviewRunnerViews.
Import ReviewRunner.

(** The state [startReview] publishes before any I/O. *)
Definition runningState (now : Z) : ReviewState :=
  mkReviewState running "Starting code review…" [] now None None.

(** The workspace an event is about; [resetReviewState] is about all. *)
Definition eventWorkspace (e : Event) (s : Store) : option string :=
  match e with
  | EvStart _ _ w _ => Some w
  | EvStatus _ p _ | EvDiff _ p _ => t_workspaceId <$> tasks s !! p
  | EvReset => None
  end.

(** The [getFileDiff] requests for a change set, in order. *)
Definition requestsOf (workspacePath : string) (changes : list GitChange)
    : list (string * string) :=
  (fun c => (workspacePath, gc_path c)) <$> changes.

(** A failure that shows only after the [await]. *)
Definition afterAwait (f : VcsFailure) : bool :=
  match f with
  | Throws _ => false
  | _ => true
  end.

(** While a computation runs, the recorded state of its workspace is
    [running]. *)
Definition runningWhileUnfinished (s : Store) : Prop :=
  forall p t, tasks s !! p = Some t -> unfinished t = true ->
              exists st, states s !! t_workspaceId t = Some st
                         /\ rs_status st = running.

(** A recorded [running] state has an in-flight entry, and the entry is a
    computation of that workspace that has not finished. *)
Definition runningHasTask (s : Store) : Prop :=
  forall w st, states s !! w = Some st -> rs_status st = running ->
               exists p t, inflight s !! w = Some p /\ tasks s !! p = Some t
                           /\ t_workspaceId t = w /\ unfinished t = true.

(** Workspace [w] is stuck on the finished promise [p]: it is the in-flight
    entry and no computation of [w] is running that could remove it. *)
Definition stuckOn (w : string) (p : nat) (s : Store) : Prop :=
  inflight s !! w = Some p
  /\ forall q t, tasks s !! q = Some t -> t_workspaceId t = w ->
                 unfinished t = false.

End ReviewRunnerViews.

(** ** Views on the tab registry *)

Module ProviderTabsViews.
Import Json ProviderTabs.

(** A tab has a provider of the registry and a non-empty id, and a review
    tab has the id derived from its provider. *)
Definition soundTab (registry : list string) (tab : ProviderTab) : Prop :=
  provider tab ∈ registry
  /\ id tab <> ""
  /\ (reviewFlag tab = true -> id tab = provider tab +:+ "-review").

Definition sound (registry : list string) (st : WorkspaceProviderTabsState) : Prop :=
  Forall (soundTab registry) (tabs st).

Definition storeSound (registry : list string) (s : Store) : Prop :=
  forall w st, workspaceStates s !! w = Some st -> sound registry st.

(** The tabs the filter of [closeTab] keeps. *)
Definition keptTabs (tabId : string) (l : list ProviderTab) : list ProviderTab :=
  List.filter (fun tab => negb (String.eqb (id tab) tabId)) l.

(** The ordinary tab of a provider, as [addTab] creates it. *)
Definition ordinaryTab (prov : string) (now : Z) : ProviderTab :=
  mkTab prov prov now None.

(** The review tab of a provider, as [addReviewTab] creates it. *)
Definition reviewTab (prov : string) (now : Z) : ProviderTab :=
  mkTab (prov +:+ "-review") prov now (Some true).

(** A collection that [loadFromStorage] reads back as it was written: ids
    are trimmed and not empty, providers are known, no tab is a review tab,
    and the collection is well formed. *)
Definition persistable (registry : list string) (st : WorkspaceProviderTabsState) : Prop :=
  Forall (fun tab => trim (id tab) = id tab /\ id tab <> ""
                     /\ provider tab ∈ registry /\ isReview tab = None) (tabs st)
  /\ wellFormed st.

End ProviderTabsViews.

(** ** KanbanBoard.tsx: the board over time *)

Module KanbanBoardRun.
Import KanbanBoard.

(** The board after the hydration effect, [setStatusMap(getAll())], and the
    render that follows it; no timer is set yet.  [react] is as
    [onTheSpot]. *)
Definition hydrate (react : list bool) (s : KanbanStore.Store) : Board :=
  let '(m, s1) := KanbanStore.getAll s in
  mkBoard m None s1 [] [] 0 [] react.

(** The callbacks of the component, one event per invocation, the renders
    and the runs of the effect. *)
Inductive BoardEvent : Type :=
| DerivedStatus (ws : Workspace) (busy : bool)
| Activity (ws : Workspace) (isBusy : bool)
| Elapse (dt : Z)
| PtyExit (ws : Workspace) (currentlyBusy : bool)
| PollResult (ws : Workspace) (evidence cancelled currentlyBusy : bool)
| Drop (workspaces : list Workspace) (target : KanbanStatus) (workspaceId : string)
| Show
| EffectRerun.

Definition stepBoard (b : Board) (e : BoardEvent) : Board :=
  match e with
  | DerivedStatus ws busy => onDerivedStatus ws busy b
  | Activity ws isBusy => onActivity ws isBusy b
  | Elapse dt => advance dt b
  | PtyExit ws currentlyBusy => onPtyExit ws currentlyBusy b
  | PollResult ws evidence cancelled currentlyBusy =>
      onPollResult ws evidence cancelled currentlyBusy b
  | Drop workspaces target workspaceId => handleDrop workspaces target workspaceId b
  | Show => render b
  | EffectRerun => rerunEffect b
  end.

Definition runBoard (evs : list BoardEvent) (b : Board) : Board :=
  fold_left stepBoard evs b.

(** What a column shows for a workspace at the next render:
    [statusMap[ws.id] || 'todo']. *)
Definition shown (workspaceId : string) (b : Board) : StatusValue :=
  lookupOrTodo (statusMap (render b)) workspaceId.

(** The state an updater returns, and the state the next render arrives
    at. *)
Definition nextState (u : Update) (prev : gmap string KanbanStatus)
    : gmap string KanbanStatus :=
  match u with
  | MarkDoneUpdate workspaceId =>
      if bool_decide (lookupOrTodo prev workspaceId = Status Done) then prev
      else <[workspaceId := Done]> prev
  | PromoteUpdate workspaceId =>
      if bool_decide (prev !! workspaceId = Some InProgress) then prev
      else <[workspaceId := InProgress]> prev
  | DropUpdate workspaceId target => <[workspaceId := target]> prev
  end.

Definition flushed (b : Board) : gmap string KanbanStatus :=
  fold_left (fun m u => nextState u m) (default [] (pending b)) (statusMap b).



(** Every derived-status report is followed by a render before any other
    callback runs. *)
Fixpoint promptly (evs : list BoardEvent) : bool :=
  match evs with
  | [] => true
  | DerivedStatus _ _ :: rest =>
      match rest with
      | Show :: rest' => promptly rest'
      | _ => false
      end
  | _ :: rest => promptly rest
  end.

(** No queued updater is going to write to the store, and the board is
    going to show what the store holds. *)
Definition coherent (b : Board) : Prop :=
  (forall w, noPromotion w b) /\ (forall w, shown w b = statusOf w b).

End KanbanBoardRun.

(** ** useReviewAutoStart (components/MultiAgentWorkspace.tsx) *)

Module ReviewAutoStart.

(** The two [useState] cells; [None] is the initial [''] of
    [previousStatus]. *)
Record HookState : Type := mkHook {
  reviewStarted : bool;
  previousStatus : option KanbanStatus
}.

Definition initialHook : HookState := mkHook false None.

Definition shouldShowReview (currentStatus : KanbanStatus) : bool :=
  bool_decide (currentStatus = Done).

(** One render in which [getStatus] answers [currentStatus], followed by
    its effect. *)
Definition render (currentStatus : KanbanStatus) (h : HookState) : HookState :=
  if bool_decide (previousStatus h = Some currentStatus) then h
  else
    mkHook (if bool_decide (currentStatus = Done)
               && negb (bool_decide (previousStatus h = Some Done))
            then true else reviewStarted h)
           (Some currentStatus).

Definition renders (statuses : list KanbanStatus) (h : HookState) : HookState :=
  fold_left (fun acc st => render st acc) statuses h.

End ReviewAutoStart.

(** ** useReviewAgent (components/MultiAgentWorkspace.tsx): the hook *)

Module ReviewAgentHook.
Import Json.

Inductive Toast : Type :=
| CannotStartToast                   (* 'Cannot start review', destructive *)
| ReviewStartedToast.                (* 'Review started' *)

(** The [ReviewState] handed to [onReviewStateChange]: its status is
    'in-review' and its [completedAt] is null. *)
Record InReview : Type := mkInReview {
  ir_tabId : string;
  ir_startedAt : Z
}.

(** What the hook reads from its options. *)
Record Config : Type := mkConfig {
  reviewEnabled : bool;              (* project.reviewAgentConfig?.enabled === true *)
  reviewProvider : string;           (* project.reviewAgentConfig?.provider ?? 'claude' *)
  workspaceId : string;
  autoStart : bool
}.

Definition REVIEW_PROMPT : string :=
"You are a code review agent. Please review the changes in this worktree and provide feedback.

Review Checklist:
1. **Code Quality**: Check for clean code principles, readability, and maintainability
2. **Logic**: Verify the implementation logic is correct and handles edge cases
3. **Types**: Ensure TypeScript types are properly used (no `any`, proper interfaces)
4. **Security**: Look for potential security vulnerabilities (injection, XSS, etc.)
5. **Performance**: Identify any performance concerns or inefficiencies
6. **Testing**: Check if changes are properly tested
7. **Documentation**: Verify code is properly documented where needed

Please run `git diff` to see the changes, then provide your review with:
- Summary of changes
- Issues found (if any)
- Suggestions for improvement
- Overall assessment (approve/request changes)

Be concise and actionable in your feedback.".

(** The browser storage, the module-level state of kanbanStore and of the
    tab registry, and one mounted instance of the hook with what it has
    shown and reported. *)
Record World : Type := mkWorld {
  ls : LocalStorage;
  prompts : gmap string string;                      (* emdash:reviewPrompt:<id> *)
  statusCache : option (gmap string KanbanStatus);   (* kanbanStore *)
  pendingCache : option (gmap string bool);
  tabsAvailable : bool;                              (* workspaceProviderTabs *)
  tabStates : gmap string ProviderTabs.WorkspaceProviderTabsState;
  tabEmits : list string;
  startedRef : gset string;                          (* the hook instance *)
  autoStartChecked : bool;
  timer : bool;                                      (* the 500 ms timer is pending *)
  toasts : list Toast;
  reported : list InReview                           (* onReviewStateChange calls *)
}.

Definition kanbanOf (w : World) : KanbanStore.Store :=
  KanbanStore.mkStore (statusCache w) (pendingCache w) (ls w).

Definition withKanban (k : KanbanStore.Store) (w : World) : World :=
  mkWorld (KanbanStore.storage k) (prompts w)
          (KanbanStore.cache k) (KanbanStore.reviewPendingCache k)
          (tabsAvailable w) (tabStates w) (tabEmits w)
          (startedRef w) (autoStartChecked w) (timer w) (toasts w) (reported w).

Definition tabsOf (w : World) : ProviderTabs.Store :=
  ProviderTabs.mkStore (tabsAvailable w) (tabStates w) (ls w) (tabEmits w).

Definition withTabs (t : ProviderTabs.Store) (w : World) : World :=
  mkWorld (ProviderTabs.storage t) (prompts w) (statusCache w) (pendingCache w)
          (ProviderTabs.storageAvailable t) (ProviderTabs.workspaceStates t)
          (ProviderTabs.emitted t)
          (startedRef w) (autoStartChecked w) (timer w) (toasts w) (reported w).

Definition withInstance (started : gset string) (checked pending : bool) (w : World)
    : World :=
  mkWorld (ls w) (prompts w) (statusCache w) (pendingCache w)
          (tabsAvailable w) (tabStates w) (tabEmits w)
          started checked pending (toasts w) (reported w).

Definition toast (t : Toast) (w : World) : World :=
  mkWorld (ls w) (prompts w) (statusCache w) (pendingCache w)
          (tabsAvailable w) (tabStates w) (tabEmits w)
          (startedRef w) (autoStartChecked w) (timer w) (toasts w ++ [t]) (reported w).

Definition report (r : InReview) (w : World) : World :=
  mkWorld (ls w) (prompts w) (statusCache w) (pendingCache w)
          (tabsAvailable w) (tabStates w) (tabEmits w)
          (startedRef w) (autoStartChecked w) (timer w) (toasts w) (reported w ++ [r]).

Definition getPendingReviewPrompt (workspaceId : string) (w : World) : option string :=
  if ls_throws (ls w) then None else prompts w !! workspaceId.

Definition withPrompts (p : gmap string string) (w : World) : World :=
  mkWorld (ls w) p (statusCache w) (pendingCache w)
          (tabsAvailable w) (tabStates w) (tabEmits w)
          (startedRef w) (autoStartChecked w) (timer w) (toasts w) (reported w).

Definition clearPendingReviewPrompt (workspaceId : string) (w : World) : World :=
  if ls_throws (ls w) then w else withPrompts (delete workspaceId (prompts w)) w.

Definition setPendingReviewPrompt (workspaceId prompt : string) (w : World) : World :=
  if ls_throws (ls w) then w else withPrompts (<[workspaceId := prompt]> (prompts w)) w.

Section Hook.
Variable registry : list string.
Variable cfg : Config.

Definition canStartReview (w : World) : bool :=
  ReviewAgent.canStartReview (reviewEnabled cfg) (workspaceId cfg) (ls w).

(** The [startReview] callback; [now] is what the clock reads. *)
Definition startReview (now : Z) (w : World) : World :=
  if negb (reviewEnabled cfg) then w
  else if negb (canStartReview w) then toast CannotStartToast w
  else if bool_decide (workspaceId cfg ∈ startedRef w) then w
  else
    let w1 := withInstance ({[workspaceId cfg]} ∪ startedRef w)
                (autoStartChecked w) (timer w) w in
    let '(reviewTabId, t) :=
      ProviderTabs.addReviewTab registry now (workspaceId cfg)
        (reviewProvider cfg) (reviewProvider cfg) (tabsOf w1) in
    let w2 := withTabs t w1 in
    let tabId :=
      if String.eqb reviewTabId "" then reviewProvider cfg +:+ "-review"
      else reviewTabId in
    let w3 := report (mkInReview tabId now) w2 in
    let w4 := setPendingReviewPrompt (workspaceId cfg) REVIEW_PROMPT w3 in
    toast ReviewStartedToast w4.

(** The body of the auto-start effect. *)
Definition autoStartEffect (w : World) : World :=
  if negb (autoStart cfg) || autoStartChecked w then w
  else
    let w1 := withInstance (startedRef w) true (timer w) w in
    let '(pending, k) := KanbanStore.isReviewPending (workspaceId cfg) (kanbanOf w1) in
    let w2 := withKanban k w1 in
    if pending && reviewEnabled cfg && canStartReview w2 then
      let w3 := withKanban
                  (KanbanStore.clearReviewPending (workspaceId cfg) (kanbanOf w2)) w2 in
      withInstance (startedRef w3) (autoStartChecked w3) true w3
    else w2.

(** What happens to a mounted hook. *)
Inductive HookEvent : Type :=
| Mount                                (* a new instance runs its effects *)
| Rerun                                (* a dependency of the effect changed *)
| TimerFires (now : Z)                 (* 500 ms have passed *)
| Click (now : Z)                      (* the caller invokes [startReview] *)
| Unmount.

Definition stepHook (w : World) (e : HookEvent) : World :=
  match e with
  | Mount => autoStartEffect (withInstance ∅ false false w)
  | Rerun =>
      autoStartEffect (withInstance (startedRef w) (autoStartChecked w) false w)
  | TimerFires now =>
      if timer w then
        startReview now (withInstance (startedRef w) (autoStartChecked w) false w)
      else w
  | Click now => startReview now w
  | Unmount =>
      withInstance (startedRef w ∖ {[workspaceId cfg]}) (autoStartChecked w) false w
  end.

Definition runHook (evs : list HookEvent) (w : World) : World :=
  fold_left stepHook evs w.

(** Events that are no explicit call of [startReview]. *)
Definition automatic (e : HookEvent) : bool :=
  match e with Click _ => false | _ => true end.

(** Events of one mounted instance. *)
Definition sameInstance (e : HookEvent) : bool :=
  match e with Mount | Unmount => false | _ => true end.

Definition pendingFlag (w : World) : bool :=
  fst (KanbanStore.isReviewPending (workspaceId cfg) (kanbanOf w)).

(** The tab id a report carries. *)
Definition reviewTabId : string := reviewProvider cfg +:+ "-review".

(** At most one report since the mount, and then the guard is set. *)
Definition onceSince (base : list InReview) (w : World) : Prop :=
  (reported w = base /\ workspaceId cfg ∉ startedRef w)
  \/ (exists r, reported w = base ++ [r] /\ ir_tabId r = reviewTabId
                /\ workspaceId cfg ∈ startedRef w).

(** The 500 ms timer is not pending, the pending-review flag is down and
    nothing has been reported beyond [base]. *)
Definition quiet (base : list InReview) (w : World) : Prop :=
  timer w = false /\ pendingFlag w = false /\ reported w = base.

End Hook.

End ReviewAgentHook.

(** Worlds for the hook. *)
Module HookScenarios.
Import ReviewAgentHook.

Definition claudeReview : Config := mkConfig true "claude" "ws" true.

(** A project whose review provider is not in the registry. *)
Definition unknownReview : Config := mkConfig true "gpt-review-bot" "ws" true.

Definition freshWorld : World :=
  mkWorld emptyStorage ∅ None None true ∅ [] ∅ false false [] [].

(** The same world after something has raised the pending-review flag of
    the workspace. *)
Definition pendingWorld : World :=
  withKanban (KanbanStore.setReviewPending "ws" true (kanbanOf freshWorld)) freshWorld.

End HookScenarios.

(** * Properties *)

(** ** The status store *)

Module KanbanStoreFacts.
Import KanbanStore.

Lemma read_cache s : cache (snd (read s)) = Some (fst (read s)).
Proof. unfold read. destruct (cache s) eqn:E; simpl; auto. Qed.

Lemma read_storage s : storage (snd (read s)) = storage s.
Proof. unfold read. destruct (cache s); reflexivity. Qed.

Lemma read_pending s : reviewPendingCache (snd (read s)) = reviewPendingCache s.
Proof. unfold read. destruct (cache s); reflexivity. Qed.

Lemma read_cached s m : cache s = Some m -> read s = (m, s).
Proof. intros E. unfold read. rewrite E. reflexivity. Qed.

Lemma setStatus_cache w st s :
  cache (setStatus w st s) = Some (<[w := st]> (fst (read s))).
Proof. unfold setStatus. destruct (read s). reflexivity. Qed.

Lemma setStatus_pending w st s :
  reviewPendingCache (setStatus w st s) = reviewPendingCache s.
Proof.
  unfold setStatus. pose proof (read_pending s) as H.
  destruct (read s). simpl in *. exact H.
Qed.

Lemma setStatus_storage w st s :
  storage (setStatus w st s) =
  if ls_throws (storage s) then storage s
  else mkLocalStorage false (Some (Usable (<[w := st]> (fst (read s)))))
         (ls_pending (storage s)) (ls_tabs (storage s))
         (ls_writes (storage s) ++ [STORAGE_KEY]).
Proof.
  unfold setStatus. pose proof (read_storage s) as H.
  destruct (read s) as [m s1]. simpl in *. unfold write. simpl. rewrite H.
  destruct (ls_throws (storage s)) eqn:E; reflexivity.
Qed.

Lemma getStatus_setStatus w st s :
  fst (getStatus w (setStatus w st s)) = st.
Proof.
  unfold getStatus. rewrite (read_cached _ _ (setStatus_cache w st s)). simpl.
  unfold lookupOrTodo. rewrite lookup_insert_eq. reflexivity.
Qed.

Lemma getStatus_setStatus_ne w w' st s :
  w ≠ w' -> fst (getStatus w' (setStatus w st s)) = fst (getStatus w' s).
Proof.
  intros Hne. unfold getStatus at 1.
  rewrite (read_cached _ _ (setStatus_cache w st s)). simpl.
  unfold lookupOrTodo. rewrite lookup_insert_ne by exact Hne.
  unfold getStatus. destruct (read s). reflexivity.
Qed.

Lemma getStatus_read s w :
  fst (getStatus w (snd (read s))) = fst (getStatus w s).
Proof.
  unfold getStatus. rewrite (read_cached _ _ (read_cache s)).
  destruct (read s). reflexivity.
Qed.

Lemma isReviewPending_reads s w :
  fst (isReviewPending w s) =
  bool_decide (fst (readReviewPending s) !! w = Some true).
Proof. unfold isReviewPending. destruct (readReviewPending s). reflexivity. Qed.

(** The pending flags depend on the pending cache and the pending entry of
    the storage only. *)
Lemma readReviewPending_ext s s' :
  reviewPendingCache s = reviewPendingCache s' ->
  ls_throws (storage s) = ls_throws (storage s') ->
  ls_pending (storage s) = ls_pending (storage s') ->
  fst (readReviewPending s) = fst (readReviewPending s').
Proof.
  intros Hc Ht Hp. unfold readReviewPending. rewrite Hc, Ht, Hp.
  destruct (reviewPendingCache s'); reflexivity.
Qed.

Lemma setStatus_keeps_pending w st s w' :
  fst (isReviewPending w' (setStatus w st s)) = fst (isReviewPending w' s).
Proof.
  rewrite !isReviewPending_reads.
  rewrite (readReviewPending_ext (setStatus w st s) s); [reflexivity | ..].
  - apply setStatus_pending.
  - rewrite setStatus_storage. destruct (ls_throws (storage s)) eqn:E; simpl; auto.
  - rewrite setStatus_storage. destruct (ls_throws (storage s)); reflexivity.
Qed.

Lemma getStatus_keeps_pending w s w' :
  fst (isReviewPending w' (snd (getStatus w s))) = fst (isReviewPending w' s).
Proof.
  rewrite !isReviewPending_reads.
  unfold getStatus.
  pose proof (read_pending s) as Hp. pose proof (read_storage s) as Hs.
  destruct (read s) as [m s1]. simpl in *.
  rewrite (readReviewPending_ext s1 s); [reflexivity | exact Hp | rewrite Hs; reflexivity ..].
Qed.

Lemma statusWrites_setStatus w st s :
  statusWrites (setStatus w st s) =
  (statusWrites s + if ls_throws (storage s) then 0 else 1)%nat.
Proof.
  unfold statusWrites. rewrite setStatus_storage.
  destruct (ls_throws (storage s)); simpl.
  - lia.
  - rewrite filter_app, length_app. reflexivity.
Qed.

(** C5, as stated, fails: on a working storage the second [setStatus] with
    the same status performs a second write. *)
Lemma setStatus_twice_writes_twice :
  statusWrites (setStatus "ws-1" Done (initial emptyStorage)) = 1%nat
  /\ statusWrites (setStatus "ws-1" Done (setStatus "ws-1" Done (initial emptyStorage)))
     = 2%nat
  /\ ~ (statusWrites (setStatus "ws-1" Done (setStatus "ws-1" Done (initial emptyStorage)))
        = statusWrites (setStatus "ws-1" Done (initial emptyStorage))).
Proof. vm_compute. repeat split; congruence. Qed.

(** C5 (amended).  Calling [setStatus id st] a second time with the same
    status leaves the cached and the persisted status map as the first call
    left them and leaves the pending-review flag of every workspace
    untouched; it does write the same map to durable storage once more (one
    write per call whenever the storage accepts writes). *)
Theorem setStatus_idempotent_contents (w : string) (st : KanbanStatus) (s : Store) :
  let s1 := setStatus w st s in
  let s2 := setStatus w st s1 in
  cache s2 = cache s1
  /\ ls_status (storage s2) = ls_status (storage s1)
  /\ fst (getStatus w s2) = st
  /\ (forall w', fst (isReviewPending w' s2) = fst (isReviewPending w' s1))
  /\ reviewPendingCache s2 = reviewPendingCache s1
  /\ ls_pending (storage s2) = ls_pending (storage s1)
  /\ statusWrites s2 =
     (statusWrites s1 + if ls_throws (storage s) then 0 else 1)%nat.
Proof.
  intros s1 s2. subst s2 s1.
  assert (Hread : fst (read (setStatus w st s)) = <[w := st]> (fst (read s))).
  { rewrite (read_cached _ _ (setStatus_cache w st s)). reflexivity. }
  assert (Hthrows : ls_throws (storage (setStatus w st s)) = ls_throws (storage s)).
  { rewrite setStatus_storage.
    destruct (ls_throws (storage s)) eqn:E; simpl; auto. }
  repeat split.
  - rewrite !setStatus_cache. rewrite Hread.
    rewrite insert_insert_eq. reflexivity.
  - rewrite (setStatus_storage w st (setStatus w st s)). rewrite Hthrows, Hread.
    rewrite setStatus_storage.
    destruct (ls_throws (storage s)); simpl; [reflexivity|].
    rewrite insert_insert_eq. reflexivity.
  - apply getStatus_setStatus.
  - intros w'. apply setStatus_keeps_pending.
  - apply setStatus_pending.
  - rewrite (setStatus_storage w st (setStatus w st s)). rewrite Hthrows.
    destruct (ls_throws (storage s)); reflexivity.
  - rewrite (statusWrites_setStatus w st (setStatus w st s)). rewrite Hthrows.
    reflexivity.
Qed.

End KanbanStoreFacts.

(** ** The review pipeline *)

Module ReviewRunnerFacts.
Import ReviewRunner.

Lemma lookup_replacePhase_eq p ph ts t :
  ts !! p = Some t ->
  replacePhase p ph ts !! p =
  Some (mkTask (t_workspaceId t) (t_workspacePath t) (t_startedAt t) ph).
Proof.
  intros H. unfold replacePhase. rewrite H.
  apply list_lookup_insert_eq. eapply lookup_lt_Some; eauto.
Qed.

Lemma lookup_replacePhase_ne p q ph (ts : list Task) :
  p <> q -> replacePhase p ph ts !! q = ts !! q.
Proof.
  intros H. unfold replacePhase. destruct (ts !! p); [|reflexivity].
  apply list_lookup_insert_ne. exact H.
Qed.

Lemma length_replacePhase p ph (ts : list Task) :
  length (replacePhase p ph ts) = length ts.
Proof. unfold replacePhase. destruct (ts !! p); [apply length_insert | reflexivity]. Qed.

(** *** What [startReview] does when a promise is registered *)

Lemma startReview_inflight now call w path s p :
  inflight s !! w = Some p -> startReview now call w path s = (s, RetPromise p).
Proof. intros H. unfold startReview. rewrite H. reflexivity. Qed.

Lemma startReview_fresh now call w path s :
  startsFresh w s -> startReview now call w path s = launch now call w path s.
Proof.
  intros [Hin Hst]. unfold startReview. rewrite Hin.
  destruct (states s !! w) as [st|] eqn:E; [|reflexivity].
  destruct (Hst st eq_refl) as [H1 H2].
  destruct (rs_status st); congruence.
Qed.

Lemma launch_inflight now call w path s :
  inflight (fst (launch now call w path s)) !! w = Some (length (tasks s)).
Proof. unfold launch. simpl. apply lookup_insert_eq. Qed.

Lemma launch_returns now call w path s :
  snd (launch now call w path s) = RetPromise (length (tasks s)).
Proof. reflexivity. Qed.

Lemma launch_tasks_length now call w path s :
  length (tasks (fst (launch now call w path s))) = S (length (tasks s)).
Proof.
  unfold launch. destruct call; simpl;
    rewrite ?length_replacePhase, length_app; simpl; lia.
Qed.

Lemma launch_gitStatusCalls now call w path s :
  gitStatusCalls (fst (launch now call w path s)) =
  match call with
  | ApiMissing => gitStatusCalls s
  | _ => gitStatusCalls s ++ [path]
  end.
Proof. unfold launch. destruct call; reflexivity. Qed.

(** A second call right after any first call returns what the first one
    returned and leaves the store as it is. *)
Lemma startReview_again now1 now2 call1 call2 w path1 path2 s :
  let r := startReview now1 call1 w path1 s in
  startReview now2 call2 w path2 (fst r) = r.
Proof.
  simpl. unfold startReview at 2 3.
  destruct (inflight s !! w) as [p|] eqn:Hin.
  - simpl. apply startReview_inflight. exact Hin.
  - destruct (states s !! w) as [st|] eqn:Hst.
    + destruct (rs_status st) eqn:Hrs.
      * rewrite (startReview_inflight _ _ _ _ _ _ (launch_inflight now1 call1 w path1 s)).
        destruct (launch now1 call1 w path1 s) eqn:E.
        pose proof (launch_returns now1 call1 w path1 s) as Hr.
        rewrite E in Hr. simpl in *. rewrite Hr. reflexivity.
      * simpl. unfold startReview. rewrite Hin, Hst, Hrs. reflexivity.
      * simpl. unfold startReview. rewrite Hin, Hst, Hrs. reflexivity.
      * rewrite (startReview_inflight _ _ _ _ _ _ (launch_inflight now1 call1 w path1 s)).
        destruct (launch now1 call1 w path1 s) eqn:E.
        pose proof (launch_returns now1 call1 w path1 s) as Hr.
        rewrite E in Hr. simpl in *. rewrite Hr. reflexivity.
    + rewrite (startReview_inflight _ _ _ _ _ _ (launch_inflight now1 call1 w path1 s)).
      destruct (launch now1 call1 w path1 s) eqn:E.
      pose proof (launch_returns now1 call1 w path1 s) as Hr.
      rewrite E in Hr. simpl in *. rewrite Hr. reflexivity.
Qed.

(** *** Every running computation is tracked (histories without reset) *)

Lemma tracked_initial : tracked initial.
Proof. intros p t H. simpl in H. rewrite lookup_nil in H. discriminate. Qed.

Lemma tracked_finish p t final s :
  tracked s -> tasks s !! p = Some t -> unfinished t = true ->
  tracked (finish p t final s).
Proof.
  intros Htr Hp Hun q t' Hq Hun'. simpl in *.
  destruct (decide (p = q)) as [->|Hne].
  - rewrite (lookup_replacePhase_eq _ _ _ _ Hp) in Hq.
    inversion Hq; subst. discriminate.
  - rewrite lookup_replacePhase_ne in Hq by exact Hne.
    pose proof (Htr _ _ Hq Hun') as Hq'.
    destruct (decide (t_workspaceId t = t_workspaceId t')) as [Heq|Hw].
    + pose proof (Htr _ _ Hp Hun) as Hp'. rewrite Heq in Hp'. congruence.
    + rewrite lookup_delete_ne by exact Hw. exact Hq'.
Qed.

Lemma tracked_enterDiff p t files c rest s :
  tracked s -> tasks s !! p = Some t -> unfinished t = true ->
  tracked (enterDiff p t files c rest s).
Proof.
  intros Htr Hp Hun q t' Hq Hun'. simpl in *.
  destruct (decide (p = q)) as [->|Hne].
  - rewrite (lookup_replacePhase_eq _ _ _ _ Hp) in Hq.
    inversion Hq; subst. simpl. apply (Htr _ _ Hp Hun).
  - rewrite lookup_replacePhase_ne in Hq by exact Hne. apply (Htr _ _ Hq Hun').
Qed.

Lemma tracked_continueLoop now p t files remaining s :
  tracked s -> tasks s !! p = Some t -> unfinished t = true ->
  tracked (continueLoop now p t files remaining s).
Proof.
  intros. destruct remaining; simpl;
    [apply tracked_finish | apply tracked_enterDiff]; assumption.
Qed.

Lemma lookup_snoc_task (ts : list Task) (t t' : Task) q :
  (ts ++ [t]) !! q = Some t' ->
  (ts !! q = Some t' /\ (q < length ts)%nat) \/ (q = length ts /\ t' = t).
Proof.
  intros H. destruct (decide (q < length ts)%nat) as [Hlt|Hge].
  - left. rewrite lookup_app_l in H by exact Hlt. auto.
  - right. rewrite lookup_app_r in H by lia.
    destruct (q - length ts)%nat as [|n] eqn:E; simpl in H.
    + inversion H. split; [lia | reflexivity].
    + rewrite lookup_nil in H. discriminate.
Qed.

Lemma tracked_launch now call w path s :
  tracked s -> inflight s !! w = None ->
  tracked (fst (launch now call w path s)).
Proof.
  intros Htr Hin q t' Hq Hun'.
  assert (Hold : forall t0, tasks s !! q = Some t0 -> unfinished t0 = true ->
                 <[w := length (tasks s)]> (inflight s) !! t_workspaceId t0 = Some q
                 /\ <[w := length (tasks s)]> (delete w (inflight s)) !! t_workspaceId t0 = Some q).
  { intros t0 H0 Hu0. pose proof (Htr _ _ H0 Hu0) as Hq'.
    assert (w <> t_workspaceId t0) by congruence.
    rewrite !lookup_insert_ne by assumption.
    rewrite lookup_delete_ne by assumption. auto. }
  unfold launch in *. destruct call; simpl in *.
  - destruct (lookup_snoc_task _ _ _ _ Hq) as [[H0 _]|[-> ->]].
    + apply (Hold _ H0 Hun').
    + simpl. apply lookup_insert_eq.
  - destruct (decide (length (tasks s) = q)) as [<-|Hne].
    + rewrite (lookup_replacePhase_eq _ _ _
                 (mkTask w path now AwaitStatus)) in Hq.
      * inversion Hq; subst. discriminate.
      * rewrite lookup_app_r by lia. rewrite Nat.sub_diag. reflexivity.
    + rewrite lookup_replacePhase_ne in Hq by exact Hne.
      destruct (lookup_snoc_task _ _ _ _ Hq) as [[H0 _]|[-> _]]; [|congruence].
      apply (Hold _ H0 Hun').
  - destruct (lookup_snoc_task _ _ _ _ Hq) as [[H0 _]|[-> ->]].
    + apply (Hold _ H0 Hun').
    + simpl. apply lookup_insert_eq.
Qed.

Lemma tracked_startReview now call w path s :
  tracked s -> tracked (fst (startReview now call w path s)).
Proof.
  intros Htr. unfold startReview.
  destruct (inflight s !! w) eqn:Hin; [exact Htr|].
  destruct (states s !! w) as [st|].
  - destruct (rs_status st); simpl; try exact Htr;
      apply tracked_launch; assumption.
  - apply tracked_launch; assumption.
Qed.

Lemma tracked_resumeStatus now p r s :
  tracked s -> tracked (resumeStatus now p r s).
Proof.
  intros Htr. unfold resumeStatus.
  destruct (tasks s !! p) as [t|] eqn:Hp; [|exact Htr].
  destruct (t_phase t) eqn:Hph; try exact Htr.
  assert (Hun : unfinished t = true) by (unfold unfinished; rewrite Hph; reflexivity).
  destruct r as [res|e].
  - destruct (default false (gs_success <$> res)).
    + apply tracked_continueLoop; assumption.
    + apply tracked_finish; assumption.
  - apply tracked_finish; assumption.
Qed.

Lemma tracked_resumeDiff now p o s :
  tracked s -> tracked (resumeDiff now p o s).
Proof.
  intros Htr. unfold resumeDiff.
  destruct (tasks s !! p) as [t|] eqn:Hp; [|exact Htr].
  destruct (t_phase t) eqn:Hph; try exact Htr.
  assert (Hun : unfinished t = true) by (unfold unfinished; rewrite Hph; reflexivity).
  apply tracked_continueLoop; assumption.
Qed.

Lemma tracked_run evs s :
  resetFree evs = true -> tracked s -> tracked (run evs s).
Proof.
  revert s. induction evs as [|e evs IH]; intros s Hrf Htr; [exact Htr|].
  simpl in Hrf. apply andb_prop in Hrf as [He Hrf].
  simpl. apply IH; [exact Hrf|].
  destruct e; simpl in *; try discriminate.
  - apply tracked_startReview; assumption.
  - apply tracked_resumeStatus; assumption.
  - apply tracked_resumeDiff; assumption.
Qed.

(** *** A recorded success has no in-flight entry (all histories) *)

Lemma successSettled_initial : successSettled initial.
Proof. intros w st H. simpl in H. rewrite lookup_empty in H. discriminate. Qed.

Lemma successSettled_finish p t final s :
  successSettled s -> successSettled (finish p t final s).
Proof.
  intros Hs w st Hw Hst. simpl in *.
  destruct (decide (t_workspaceId t = w)) as [->|Hne].
  - apply lookup_delete_eq.
  - rewrite lookup_insert_ne in Hw by exact Hne.
    rewrite lookup_delete_ne by exact Hne. apply (Hs _ _ Hw Hst).
Qed.

Lemma successSettled_continueLoop now p t files remaining s :
  successSettled s -> successSettled (continueLoop now p t files remaining s).
Proof.
  intros Hs. destruct remaining; simpl; [apply successSettled_finish; exact Hs|].
  exact Hs.
Qed.

Lemma successSettled_launch now call w path s :
  successSettled s -> successSettled (fst (launch now call w path s)).
Proof.
  intros Hs w' st Hw Hst. unfold launch in *.
  destruct (decide (w = w')) as [<-|Hne].
  - exfalso. destruct call; simpl in Hw; rewrite lookup_insert_eq in Hw;
      inversion Hw; subst; discriminate.
  - destruct call; simpl in *;
      rewrite ?lookup_insert_ne in Hw by exact Hne;
      rewrite lookup_insert_ne by exact Hne;
      rewrite ?lookup_delete_ne by exact Hne;
      apply (Hs _ _ Hw Hst).
Qed.

Lemma successSettled_step s e : successSettled s -> successSettled (step s e).
Proof.
  intros Hs. destruct e as [now call w path|now p r|now p o|]; simpl.
  - unfold startReview. destruct (inflight s !! w); [exact Hs|].
    destruct (states s !! w) as [st|].
    + destruct (rs_status st); simpl; try exact Hs;
        apply successSettled_launch; exact Hs.
    + apply successSettled_launch; exact Hs.
  - unfold resumeStatus. destruct (tasks s !! p) as [t|]; [|exact Hs].
    destruct (t_phase t); try exact Hs.
    destruct r as [res|e].
    + destruct (default false (gs_success <$> res)).
      * apply successSettled_continueLoop; exact Hs.
      * apply successSettled_finish; exact Hs.
    + apply successSettled_finish; exact Hs.
  - unfold resumeDiff. destruct (tasks s !! p) as [t|]; [|exact Hs].
    destruct (t_phase t); try exact Hs.
    apply successSettled_continueLoop; exact Hs.
  - intros w st H. simpl in H. rewrite lookup_empty in H. discriminate.
Qed.

Lemma successSettled_run evs s : successSettled s -> successSettled (run evs s).
Proof.
  revert s. induction evs as [|e evs IH]; intros s Hs; [exact Hs|].
  simpl. apply IH. apply successSettled_step. exact Hs.
Qed.

(** *** Running one computation to its end *)

Lemma prefix_refl s : String.prefix s s = true.
Proof.
  induction s as [|c s IH]; simpl; [reflexivity|].
  destruct (ascii_dec c c); [exact IH | congruence].
Qed.

Lemma contains_refl s : contains s s = true.
Proof.
  destruct s as [|c s]; simpl; [reflexivity|].
  destruct (ascii_dec c c); [rewrite prefix_refl; reflexivity | congruence].
Qed.

Lemma sameWorkspaces_refl ts : sameWorkspaces ts ts.
Proof. intros p t H. eauto. Qed.

Lemma sameWorkspaces_trans ts1 ts2 ts3 :
  sameWorkspaces ts1 ts2 -> sameWorkspaces ts2 ts3 -> sameWorkspaces ts1 ts3.
Proof.
  intros H12 H23 p t H. destruct (H12 _ _ H) as (t2 & H2 & E2).
  destruct (H23 _ _ H2) as (t3 & H3 & E3). exists t3. split; congruence.
Qed.

Lemma sameWorkspaces_replacePhase q ph ts :
  sameWorkspaces ts (replacePhase q ph ts).
Proof.
  intros p t H. destruct (decide (q = p)) as [->|Hne].
  - rewrite (lookup_replacePhase_eq _ _ _ _ H). eauto.
  - rewrite lookup_replacePhase_ne by exact Hne. eauto.
Qed.

Lemma sameWorkspaces_snoc ts t0 : sameWorkspaces ts (ts ++ [t0]).
Proof.
  intros p t H. exists t. split; [|reflexivity].
  apply lookup_app_l_Some. exact H.
Qed.

Lemma sameWorkspaces_continueLoop now p t files remaining s :
  sameWorkspaces (tasks s) (tasks (continueLoop now p t files remaining s)).
Proof. destruct remaining; simpl; apply sameWorkspaces_replacePhase. Qed.

Lemma sameWorkspaces_step s e : sameWorkspaces (tasks s) (tasks (step s e)).
Proof.
  destruct e as [now call w path|now p r|now p o|]; simpl.
  - assert (Hl : sameWorkspaces (tasks s) (tasks (fst (launch now call w path s)))).
    { unfold launch. destruct call; simpl.
      - apply sameWorkspaces_snoc.
      - eapply sameWorkspaces_trans;
          [apply sameWorkspaces_snoc | apply sameWorkspaces_replacePhase].
      - apply sameWorkspaces_snoc. }
    unfold startReview. destruct (inflight s !! w); [apply sameWorkspaces_refl|].
    destruct (states s !! w) as [st|]; [|exact Hl].
    destruct (rs_status st); simpl; try apply sameWorkspaces_refl; exact Hl.
  - unfold resumeStatus. destruct (tasks s !! p) as [t|]; [|apply sameWorkspaces_refl].
    destruct (t_phase t); try apply sameWorkspaces_refl.
    destruct r as [res|e].
    + destruct (default false (gs_success <$> res)).
      * apply sameWorkspaces_continueLoop.
      * simpl. apply sameWorkspaces_replacePhase.
    + simpl. apply sameWorkspaces_replacePhase.
  - unfold resumeDiff. destruct (tasks s !! p) as [t|]; [|apply sameWorkspaces_refl].
    destruct (t_phase t); try apply sameWorkspaces_refl.
    apply sameWorkspaces_continueLoop.
  - apply sameWorkspaces_refl.
Qed.

Lemma sameWorkspaces_run evs s : sameWorkspaces (tasks s) (tasks (run evs s)).
Proof.
  revert s. induction evs as [|e evs IH]; intros s; [apply sameWorkspaces_refl|].
  simpl. eapply sameWorkspaces_trans; [apply sameWorkspaces_step | apply IH].
Qed.

Lemma launch_task now call w path s :
  exists ph, tasks (fst (launch now call w path s)) !! length (tasks s)
             = Some (mkTask w path now ph).
Proof.
  assert (Hsn : (tasks s ++ [mkTask w path now AwaitStatus]) !! length (tasks s)
                = Some (mkTask w path now AwaitStatus)).
  { rewrite lookup_app_r by lia. rewrite Nat.sub_diag. reflexivity. }
  unfold launch. destruct call; simpl.
  - eauto.
  - rewrite (lookup_replacePhase_eq _ _ _ _ Hsn). simpl. eauto.
  - eauto.
Qed.

(** C3.  Take a [startReview] call for workspace [w] that starts a
    computation through a present VCS-status collaborator.  Its promise is
    registered as the in-flight entry of [w]; a second call for [w] right
    after it returns the very same promise and leaves the store untouched,
    so the collaborator has been invoked exactly once for the pair and
    exactly one computation was created.  In any store, a call for a
    workspace with an in-flight entry returns the registered promise and
    starts nothing.  And in histories without [resetReviewState] the
    computation stays registered for as long as it has not finished, so
    every call made while it runs is answered that way. *)
Theorem startReview_single_flight
    (s : Store) (now1 now2 : Z) (call1 call2 : CallOutcome)
    (w path1 path2 : string) :
  startsFresh w s ->
  call1 <> ApiMissing ->
  let r1 := startReview now1 call1 w path1 s in
  let r2 := startReview now2 call2 w path2 (fst r1) in
  r2 = r1
  /\ snd r1 = RetPromise (length (tasks s))
  /\ inflight (fst r1) !! w = Some (length (tasks s))
  /\ gitStatusCalls (fst r2) = gitStatusCalls s ++ [path1]
  /\ length (tasks (fst r2)) = S (length (tasks s))
  /\ (forall s' now3 call3 path3 p,
        inflight s' !! w = Some p ->
        startReview now3 call3 w path3 s' = (s', RetPromise p))
  /\ (forall evs mid t,
        s = run evs initial ->
        resetFree evs = true ->
        resetFree mid = true ->
        tasks (run mid (fst r1)) !! length (tasks s) = Some t ->
        unfinished t = true ->
        inflight (run mid (fst r1)) !! w = Some (length (tasks s))).
Proof.
  intros Hfresh Hcall r1 r2.
  assert (Hr2 : r2 = r1) by apply startReview_again.
  assert (Hr1 : r1 = launch now1 call1 w path1 s)
    by (apply startReview_fresh; exact Hfresh).
  split; [exact Hr2|]. rewrite Hr2, Hr1.
  split; [reflexivity|].
  split; [apply launch_inflight|].
  split; [rewrite launch_gitStatusCalls; destruct call1; congruence|].
  split; [apply launch_tasks_length|].
  split; [intros s' now3 call3 path3 p Hin; apply startReview_inflight; exact Hin|].
  intros evs mid t Hs Hrf Hmid Ht Hun.
  assert (Htr : tracked (run mid (fst (launch now1 call1 w path1 s)))).
  { apply tracked_run; [exact Hmid|]. rewrite <- Hr1.
    apply tracked_startReview. rewrite Hs.
    apply tracked_run; [exact Hrf | apply tracked_initial]. }
  destruct (launch_task now1 call1 w path1 s) as (ph & Hl).
  destruct (sameWorkspaces_run mid _ _ _ Hl) as (t' & Ht' & Hw).
  rewrite Ht in Ht'. inversion Ht'; subst t'. simpl in Hw.
  pose proof (Htr _ _ Ht Hun) as Hin. rewrite Hw in Hin. exact Hin.
Qed.

(** C8.  In every history of the store, once the recorded state of
    workspace [w] is a [success], a [startReview] call for [w] returns that
    very state and leaves the whole store untouched: no state change, no new
    computation, no collaborator call.  After [resetReviewState] the same
    call starts a new computation. *)
Theorem startReview_cached_success
    (evs : list Event) (now : Z) (call : CallOutcome) (w path : string)
    (st : ReviewState) :
  states (run evs initial) !! w = Some st ->
  rs_status st = success ->
  let s := run evs initial in
  startReview now call w path s = (s, RetState st)
  /\ outcome (snd (startReview now call w path s)) s = Some st
  /\ snd (startReview now call w path (resetReviewState s))
     = RetPromise (length (tasks s))
  /\ length (tasks (fst (startReview now call w path (resetReviewState s))))
     = S (length (tasks s)).
Proof.
  intros Hst Hsucc s.
  assert (Hin : inflight s !! w = None).
  { apply (successSettled_run evs initial successSettled_initial w st Hst Hsucc). }
  assert (Hcall : startReview now call w path s = (s, RetState st)).
  { unfold startReview. rewrite Hin. fold s in Hst. rewrite Hst, Hsucc. reflexivity. }
  split; [exact Hcall|]. split; [rewrite Hcall; reflexivity|].
  assert (Hfresh : startsFresh w (resetReviewState s)).
  { split; simpl; [apply lookup_empty|].
    intros st' H. rewrite lookup_empty in H. discriminate. }
  rewrite (startReview_fresh now call w path (resetReviewState s) Hfresh).
  split; [reflexivity|].
  apply (launch_tasks_length now call w path (resetReviewState s)).
Qed.

Lemma finish_resolved p t final s :
  tasks s !! p = Some t -> resolved p (finish p t final s) = Some final.
Proof.
  intros H. unfold resolved. simpl.
  rewrite (lookup_replacePhase_eq _ _ _ _ H). reflexivity.
Qed.

Lemma finish_states p t final s :
  states (finish p t final s) !! t_workspaceId t = Some final.
Proof. simpl. apply lookup_insert_eq. Qed.

Lemma errorMsg_message m : m <> "" -> errorMsg (ThrownError m) = m.
Proof.
  intros H. simpl. destruct (String.eqb m "") eqn:E; [|reflexivity].
  apply String.eqb_eq in E. contradiction.
Qed.

Lemma errorMsg_thrownText e : thrownText e <> "" -> errorMsg e = thrownText e.
Proof. destruct e as [m|text]; [apply errorMsg_message | reflexivity]. Qed.

Lemma statusFailureMessage_reported m changes :
  m <> "" ->
  statusFailureMessage (Some (mkGitStatusResponse false (Some m) changes)) = m.
Proof.
  intros H. simpl. destruct (String.eqb m "") eqn:E; [|reflexivity].
  apply String.eqb_eq in E. contradiction.
Qed.

Lemma snoc_lookup_last (ts : list Task) (t : Task) :
  (ts ++ [t]) !! length ts = Some t.
Proof. rewrite lookup_app_r by lia. rewrite Nat.sub_diag. reflexivity. Qed.

Lemma launch_throws now e w path s :
  let s' := fst (launch now (CallThrows e) w path s) in
  resolved (length (tasks s)) s' = Some (failureState now now (errorMsg e))
  /\ states s' !! w = Some (failureState now now (errorMsg e))
  /\ gitStatusCalls s' = gitStatusCalls s ++ [path]
  /\ fileDiffCalls s' = fileDiffCalls s.
Proof.
  unfold launch. simpl. repeat split.
  - unfold resolved. simpl.
    rewrite (lookup_replacePhase_eq _ _ _ _ (snoc_lookup_last (tasks s) _)).
    reflexivity.
  - apply lookup_insert_eq.
Qed.

Lemma launch_returns_task now w path s :
  let s' := fst (launch now CallReturns w path s) in
  tasks s' !! length (tasks s) = Some (mkTask w path now AwaitStatus)
  /\ gitStatusCalls s' = gitStatusCalls s ++ [path]
  /\ fileDiffCalls s' = fileDiffCalls s
  /\ length (tasks s') = S (length (tasks s)).
Proof.
  unfold launch. simpl. repeat split.
  - apply snoc_lookup_last.
  - rewrite length_app. simpl. lia.
Qed.

(** The [catch] branch after the [await]. *)
Lemma resumeStatus_failure now p t msg s r :
  tasks s !! p = Some t -> t_phase t = AwaitStatus ->
  resumeStatus now p r s = finish p t (failureState (t_startedAt t) now msg) s ->
  let s' := resumeStatus now p r s in
  resolved p s' = Some (failureState (t_startedAt t) now msg)
  /\ states s' !! t_workspaceId t = Some (failureState (t_startedAt t) now msg)
  /\ gitStatusCalls s' = gitStatusCalls s
  /\ fileDiffCalls s' = fileDiffCalls s
  /\ length (tasks s') = length (tasks s).
Proof.
  intros Hp Hph Hr. simpl. rewrite Hr. repeat split.
  - apply (finish_resolved _ _ _ _ Hp).
  - apply finish_states.
  - simpl. apply length_replacePhase.
Qed.

(** C7.  A [startReview] call that starts a computation whose VCS-status
    collaborator fails with a non-empty message [m] (the call throws, its
    promise rejects, or it answers [success: false] with error [m]) resolves
    to a state of status [error] whose [error] field is [m] (so it contains
    [m]); that state is the recorded one.  The collaborator has been invoked
    once, no diff was requested and no further computation was created:
    there is no retry. *)
Theorem vcs_failure_yields_error
    (s : Store) (now now' : Z) (f : VcsFailure) (w path : string) :
  startsFresh w s ->
  failureMessage f <> "" ->
  let r := startReviewFailing now now' f w path s in
  exists st,
    outcome (snd r) (fst r) = Some st
    /\ rs_status st = error
    /\ rs_error st = Some (failureMessage f)
    /\ contains (failureMessage f) (default "" (rs_error st)) = true
    /\ rs_files st = []
    /\ states (fst r) !! w = Some st
    /\ gitStatusCalls (fst r) = gitStatusCalls s ++ [path]
    /\ fileDiffCalls (fst r) = fileDiffCalls s
    /\ length (tasks (fst r)) = S (length (tasks s)).
Proof.
  intros Hfresh Hm r. subst r. unfold startReviewFailing.
  destruct f as [e|e|m changes]; simpl in Hm;
    rewrite (startReview_fresh _ _ _ _ _ Hfresh).
  - destruct (launch_throws now e w path s) as (H1 & H2 & H3 & H4).
    rewrite (errorMsg_thrownText e Hm) in H1, H2.
    exists (failureState now now (thrownText e)).
    split; [exact H1|]. split; [reflexivity|]. split; [reflexivity|].
    split; [apply contains_refl|]. split; [reflexivity|].
    split; [exact H2|]. split; [exact H3|]. split; [exact H4|].
    apply launch_tasks_length.
  - destruct (launch_returns_task now w path s) as (H1 & H2 & H3 & H4).
    destruct (resumeStatus_failure now' _ _ (thrownText e) _ (Rejected e) H1 eq_refl)
      as (R1 & R2 & R3 & R4 & R5).
    { unfold resumeStatus. rewrite H1. cbn [t_phase].
      rewrite (errorMsg_thrownText e Hm). reflexivity. }
    exists (failureState now now' (thrownText e)).
    split; [exact R1|]. split; [reflexivity|]. split; [reflexivity|].
    split; [apply contains_refl|]. split; [reflexivity|].
    split; [exact R2|]. split; [cbn [fst]; congruence|].
    split; [cbn [fst]; congruence|]. cbn [fst]. congruence.
  - destruct (launch_returns_task now w path s) as (H1 & H2 & H3 & H4).
    destruct (resumeStatus_failure now' _ _ m _
                (Fulfilled (Some (mkGitStatusResponse false (Some m) changes)))
                H1 eq_refl)
      as (R1 & R2 & R3 & R4 & R5).
    { unfold resumeStatus. rewrite H1.
      cbn [t_phase default fmap option_fmap option_map gs_success].
      rewrite (statusFailureMessage_reported m changes Hm).
      rewrite (errorMsg_message m Hm). reflexivity. }
    exists (failureState now now' m).
    split; [exact R1|]. split; [reflexivity|]. split; [reflexivity|].
    split; [apply contains_refl|]. split; [reflexivity|].
    split; [exact R2|]. split; [cbn [fst]; congruence|].
    split; [cbn [fst]; congruence|]. cbn [fst]. congruence.
Qed.

(** *** The diff loop and the summary *)

Lemma resumeDiffs_cons p o os s :
  resumeDiffs p (o :: os) s = resumeDiffs p os (resumeDiff (fst o) p (snd o) s).
Proof. reflexivity. Qed.

(** Once the loop is waiting for the diff of [c], answering that request
    and those of the changes after it completes the review. *)
Lemma loop_completes rest :
  forall files c os s p t,
    tasks s !! p = Some t ->
    t_phase t = AwaitDiff files c rest ->
    length os = S (length rest) ->
    exists fin,
      let final := successState (t_startedAt t) fin
                     (files ++ zip_with fileOf (c :: rest) os) in
      resolved p (resumeDiffs p os s) = Some final
      /\ states (resumeDiffs p os s) !! t_workspaceId t = Some final
      /\ gitStatusCalls (resumeDiffs p os s) = gitStatusCalls s.
Proof.
  induction rest as [|c' rest IH]; intros files c os s p t Hp Hph Hlen.
  - destruct os as [|o [|o' os]]; simpl in Hlen; try lia.
    exists (fst o). rewrite resumeDiffs_cons. simpl resumeDiffs at 1 2 3.
    unfold resumeDiffs. simpl fold_left.
    unfold resumeDiff. rewrite Hp, Hph. simpl continueLoop.
    split; [apply (finish_resolved _ _ _ _ Hp)|].
    split; [apply finish_states | reflexivity].
  - destruct os as [|o os]; simpl in Hlen; [lia|].
    rewrite resumeDiffs_cons.
    set (s1 := resumeDiff (fst o) p (snd o) s).
    assert (Hs1 : s1 = enterDiff p t (files ++ [fileOf c o]) c' rest s).
    { unfold s1, resumeDiff. rewrite Hp, Hph. reflexivity. }
    assert (Hp1 : tasks s1 !! p =
                  Some (mkTask (t_workspaceId t) (t_workspacePath t) (t_startedAt t)
                          (AwaitDiff (files ++ [fileOf c o]) c' rest))).
    { rewrite Hs1. simpl. apply (lookup_replacePhase_eq _ _ _ _ Hp). }
    destruct (IH _ _ os s1 p _ Hp1 eq_refl) as (fin & R1 & R2 & R3); [lia|].
    exists fin. simpl in R1, R2. simpl zip_with.
    rewrite <- app_assoc in R1, R2. simpl in R1, R2.
    split; [exact R1|]. split; [exact R2|].
    rewrite R3, Hs1. reflexivity.
Qed.

Lemma roundDouble_safe z : Z.abs z <= MAX_SAFE_INTEGER -> roundDouble z = z.
Proof.
  intros H. unfold roundDouble. cbv zeta.
  rewrite (proj2 (Z.ltb_lt (Z.abs z) (2 ^ 53))); [reflexivity|].
  unfold MAX_SAFE_INTEGER in H. lia.
Qed.

Lemma absTotal_nonneg (f : ReviewFile -> Z) (l : list ReviewFile) :
  0 <= foldr (fun x acc => Z.abs (f x) + acc) 0 l.
Proof. induction l as [|x l IH]; simpl; lia. Qed.

(** Below [MAX_SAFE_INTEGER] the running sum of the [reduce] is exact. *)
Lemma fold_total_safe (f : ReviewFile -> Z) (l : list ReviewFile) :
  forall a,
    Z.abs a + foldr (fun x acc => Z.abs (f x) + acc) 0 l <= MAX_SAFE_INTEGER ->
    fold_left (fun sum x => roundDouble (sum + f x)) l a
    = a + foldr (fun x acc => f x + acc) 0 l.
Proof.
  induction l as [|x l IH]; intros a H; simpl in *; [lia|].
  pose proof (absTotal_nonneg f l) as Hn.
  rewrite roundDouble_safe by lia.
  rewrite IH by lia. lia.
Qed.

Lemma foldr_zip_files (g : ReviewFile -> Z) (h : GitChange -> Z) :
  (forall c o, g (fileOf c o) = h c) ->
  forall changes os, length os = length changes ->
    foldr (fun x acc => g x + acc) 0 (zip_with fileOf changes os) = sumOf h changes.
Proof.
  intros Hgh. induction changes as [|c changes IH]; intros os Hlen; [reflexivity|].
  destruct os as [|o os]; simpl in Hlen; [lia|].
  simpl. rewrite Hgh. rewrite IH by lia. reflexivity.
Qed.

Lemma totalOf_safe (g : ReviewFile -> Z) (h : GitChange -> Z) :
  (forall c o, g (fileOf c o) = h c) ->
  forall changes os, length os = length changes ->
    sumOf (fun c => Z.abs (h c)) changes <= MAX_SAFE_INTEGER ->
    totalOf g (zip_with fileOf changes os) = sumOf h changes.
Proof.
  intros Hgh changes os Hlen Hb. unfold totalOf.
  rewrite fold_total_safe.
  - rewrite (foldr_zip_files g h Hgh changes os Hlen). lia.
  - rewrite (foldr_zip_files (fun x => Z.abs (g x)) (fun c => Z.abs (h c))).
    + simpl. exact Hb.
    + intros c o. rewrite Hgh. reflexivity.
    + exact Hlen.
Qed.

Lemma length_zip_files changes :
  forall os, length os = length changes ->
  length (zip_with fileOf changes os) = length changes.
Proof.
  induction changes as [|c changes IH]; intros os Hlen; [reflexivity|].
  destruct os as [|o os]; simpl in Hlen; [lia|].
  simpl. rewrite IH by lia. reflexivity.
Qed.

(** C9.  When the VCS-status collaborator answers with success and every
    diff request of the remaining change set has been answered (whatever
    the answers), the review resolves to a [success] state with one file per
    remaining change.  For a non-empty change set of [n] files its summary
    reads "[n] file(s) changed (+A / -D)" with [A] and [D] the added and
    deleted lines summed over those changes, as long as the line counts stay
    within the integers a double holds exactly (their absolute values sum
    to at most [MAX_SAFE_INTEGER]); for an empty one it is the
    no-local-changes message. *)
Theorem review_summary
    (s : Store) (now : Z) (p : nat) (t : Task) (res : GitStatusResponse)
    (os : list (Z * DiffOutcome)) :
  tasks s !! p = Some t ->
  t_phase t = AwaitStatus ->
  gs_success res = true ->
  length os = length (List.filter keepChange (default [] (gs_changes res))) ->
  sumOf (fun c => Z.abs (gc_additions c))
        (List.filter keepChange (default [] (gs_changes res))) <= MAX_SAFE_INTEGER ->
  sumOf (fun c => Z.abs (gc_deletions c))
        (List.filter keepChange (default [] (gs_changes res))) <= MAX_SAFE_INTEGER ->
  let changes := List.filter keepChange (default [] (gs_changes res)) in
  let s' := resumeDiffs p os (resumeStatus now p (Fulfilled (Some res)) s) in
  exists st,
    resolved p s' = Some st
    /\ states s' !! t_workspaceId t = Some st
    /\ rs_status st = success
    /\ rs_files st = zip_with fileOf changes os
    /\ length (rs_files st) = length changes
    /\ rs_summary st =
       match changes with
       | [] => "No local changes to review."
       | _ =>
           pretty (length changes) +:+ " file"
           +:+ (if Nat.eqb (length changes) 1 then "" else "s")
           +:+ " changed (+" +:+ pretty (sumOf gc_additions changes)
           +:+ " / -" +:+ pretty (sumOf gc_deletions changes) +:+ ")"
       end.
Proof.
  intros Hp Hph Hsucc Hlen Hadd Hdel changes s'.
  fold changes in Hadd, Hdel.
  assert (Hresume : resumeStatus now p (Fulfilled (Some res)) s
                    = continueLoop now p t [] changes s).
  { unfold resumeStatus. rewrite Hp, Hph. simpl. rewrite Hsucc. reflexivity. }
  fold changes in Hlen.
  assert (Hfin : exists fin,
             let final := successState (t_startedAt t) fin (zip_with fileOf changes os) in
             resolved p s' = Some final /\ states s' !! t_workspaceId t = Some final).
  { subst s'. rewrite Hresume. destruct changes as [|c rest] eqn:Hch.
    - destruct os; simpl in Hlen; [|lia]. exists now. simpl.
      split; [apply (finish_resolved _ _ _ _ Hp) | apply lookup_insert_eq].
    - simpl continueLoop.
      assert (Hp1 : tasks (enterDiff p t [] c rest s) !! p =
                    Some (mkTask (t_workspaceId t) (t_workspacePath t) (t_startedAt t)
                            (AwaitDiff [] c rest))).
      { simpl. apply (lookup_replacePhase_eq _ _ _ _ Hp). }
      destruct (loop_completes rest [] c os _ p _ Hp1 eq_refl) as (fin & R1 & R2 & _).
      { simpl in Hlen. exact Hlen. }
      exists fin. simpl in *. auto. }
  destruct Hfin as (fin & R1 & R2).
  exists (successState (t_startedAt t) fin (zip_with fileOf changes os)).
  split; [exact R1|]. split; [exact R2|]. split; [reflexivity|].
  split; [reflexivity|]. split; [apply length_zip_files; exact Hlen|].
  simpl. unfold summaryOf.
  rewrite (totalOf_safe rf_additions gc_additions (fun _ _ => eq_refl) changes os Hlen Hadd).
  rewrite (totalOf_safe rf_deletions gc_deletions (fun _ _ => eq_refl) changes os Hlen Hdel).
  rewrite (length_zip_files changes os Hlen).
  destruct changes as [|c rest]; [reflexivity|].
  destruct os as [|o os0]; [simpl in Hlen; lia|]. reflexivity.
Qed.

(** *** The scenarios of reviewRunner.test.ts *)

Lemma startsFresh_initial w : startsFresh w initial.
Proof.
  split; [apply lookup_empty|].
  intros st H. simpl in H. rewrite lookup_empty in H. discriminate.
Qed.

Lemma startReview_single_flight_witness :
  startsFresh "ws-1" (run Scenarios.afterBoom initial)
  /\ CallReturns <> ApiMissing
  /\ startReview 20 CallReturns "ws-1" "/tmp/ws-1"
       (fst (startReview 10 CallReturns "ws-1" "/tmp/ws-1" (run Scenarios.afterBoom initial)))
     = startReview 10 CallReturns "ws-1" "/tmp/ws-1" (run Scenarios.afterBoom initial)
  /\ gitStatusCalls
       (fst (startReview 20 CallReturns "ws-1" "/tmp/ws-1"
          (fst (startReview 10 CallReturns "ws-1" "/tmp/ws-1" (run Scenarios.afterBoom initial)))))
     = gitStatusCalls (run Scenarios.afterBoom initial) ++ ["/tmp/ws-1"].
Proof.
  assert (H2 : startsFresh "ws-1" (run Scenarios.afterBoom initial)).
  { split; [vm_compute; reflexivity|].
    intros st H. vm_compute in H. inversion H. split; discriminate. }
  assert (H3 : CallReturns <> ApiMissing) by discriminate.
  destruct (startReview_single_flight (run Scenarios.afterBoom initial) 10 20
              CallReturns CallReturns "ws-1" "/tmp/ws-1" "/tmp/ws-1" H2 H3)
    as (A & _ & _ & C & _).
  split; [exact H2|]. split; [exact H3|].
  split; [exact A | exact C].
Defined.

Lemma vcs_failure_yields_error_witness :
  startsFresh "ws-fail" initial
  /\ failureMessage (Reports "boom" None) <> ""
  /\ exists st,
       outcome (snd (startReviewFailing 1 2 (Reports "boom" None) "ws-fail" "/tmp/ws-fail" initial))
               (fst (startReviewFailing 1 2 (Reports "boom" None) "ws-fail" "/tmp/ws-fail" initial))
       = Some st
       /\ rs_status st = error
       /\ contains "boom" (default "" (rs_error st)) = true.
Proof.
  assert (H1 : startsFresh "ws-fail" initial) by apply startsFresh_initial.
  assert (H2 : failureMessage (Reports "boom" None) <> "") by (simpl; discriminate).
  destruct (vcs_failure_yields_error initial 1 2 (Reports "boom" None)
              "ws-fail" "/tmp/ws-fail" H1 H2) as (st & A & B & _ & D & _).
  split; [exact H1|]. split; [exact H2|].
  exists st. split; [exact A|]. split; [exact B | exact D].
Defined.

Lemma startReview_cached_success_witness :
  exists st,
    states (run Scenarios.reviewedTwoFiles initial) !! "ws-1" = Some st
    /\ rs_status st = success
    /\ startReview 9 CallReturns "ws-1" "/tmp/ws-1" (run Scenarios.reviewedTwoFiles initial)
       = (run Scenarios.reviewedTwoFiles initial, RetState st).
Proof.
  eexists.
  assert (H1 : states (run Scenarios.reviewedTwoFiles initial) !! "ws-1" = Some _)
    by (vm_compute; reflexivity).
  assert (H2 : rs_status
                 (successState 1 4
                    (zip_with fileOf
                       [mkGitChange "src/index.ts" "M" 5 2; mkGitChange "README.md" "A" 10 0]
                       [Scenarios.addLine; Scenarios.addLine])) = success) by reflexivity.
  split; [exact H1|]. split; [exact H2|].
  exact (proj1 (startReview_cached_success Scenarios.reviewedTwoFiles 9 CallReturns
                  "ws-1" "/tmp/ws-1" _ H1 H2)).
Defined.

Lemma review_summary_witness :
  let s := fst (startReview 1 CallReturns "ws-1" "/tmp/ws-1" initial) in
  let t := mkTask "ws-1" "/tmp/ws-1" 1 AwaitStatus in
  tasks s !! 0%nat = Some t
  /\ t_phase t = AwaitStatus
  /\ gs_success Scenarios.twoChanges = true
  /\ length [Scenarios.addLine; Scenarios.addLine]
     = length (List.filter keepChange (default [] (gs_changes Scenarios.twoChanges)))
  /\ sumOf (fun c => Z.abs (gc_additions c))
        (List.filter keepChange (default [] (gs_changes Scenarios.twoChanges)))
     <= MAX_SAFE_INTEGER
  /\ sumOf (fun c => Z.abs (gc_deletions c))
        (List.filter keepChange (default [] (gs_changes Scenarios.twoChanges)))
     <= MAX_SAFE_INTEGER
  /\ exists st,
       resolved 0 (resumeDiffs 0 [Scenarios.addLine; Scenarios.addLine]
                     (resumeStatus 2 0 (Fulfilled (Some Scenarios.twoChanges)) s)) = Some st
       /\ rs_status st = success
       /\ length (rs_files st) = 2%nat
       /\ contains "2 files" (rs_summary st) = true
       /\ contains "+15" (rs_summary st) = true
       /\ contains "-2" (rs_summary st) = true.
Proof.
  intros s t.
  assert (H1 : tasks s !! 0%nat = Some t) by reflexivity.
  assert (H2 : t_phase t = AwaitStatus) by reflexivity.
  assert (H3 : gs_success Scenarios.twoChanges = true) by reflexivity.
  assert (H4 : length [Scenarios.addLine; Scenarios.addLine]
               = length (List.filter keepChange (default [] (gs_changes Scenarios.twoChanges))))
    by reflexivity.
  assert (H5 : sumOf (fun c => Z.abs (gc_additions c))
                 (List.filter keepChange (default [] (gs_changes Scenarios.twoChanges)))
               <= MAX_SAFE_INTEGER) by (vm_compute; discriminate).
  assert (H6 : sumOf (fun c => Z.abs (gc_deletions c))
                 (List.filter keepChange (default [] (gs_changes Scenarios.twoChanges)))
               <= MAX_SAFE_INTEGER) by (vm_compute; discriminate).
  destruct (review_summary s 2 0 t Scenarios.twoChanges [Scenarios.addLine; Scenarios.addLine]
              H1 H2 H3 H4 H5 H6)
    as (st & A & _ & C & _ & E & F).
  split; [exact H1|]. split; [exact H2|]. split; [exact H3|]. split; [exact H4|].
  split; [exact H5|]. split; [exact H6|].
  exists st. split; [exact A|]. split; [exact C|]. split; [exact E|].
  rewrite F. vm_compute. auto.
Defined.

End ReviewRunnerFacts.


(** ** The tab registry *)

Module ProviderTabsFacts.
Import Json ProviderTabs.

(** *** Composite keys *)

Lemma append_nil_l (x : string) : "" +:+ x = x.
Proof. reflexivity. Qed.

Lemma append_cons (c : ascii) (a x : string) : String c a +:+ x = String c (a +:+ x).
Proof. reflexivity. Qed.

Lemma length_append_string (a b : string) :
  String.length (a +:+ b) = (String.length a + String.length b)%nat.
Proof.
  induction a as [|c a IH]; [reflexivity|].
  rewrite append_cons. cbn [String.length]. rewrite IH. reflexivity.
Qed.

Lemma append_inj_suffix (a b x y : string) :
  String.length x = String.length y -> a +:+ x = b +:+ y -> a = b /\ x = y.
Proof.
  revert b. induction a as [|c a IH]; intros [|d b] Hlen H;
    rewrite ?append_nil_l, ?append_cons in H.
  - auto.
  - subst x. cbn [String.length] in Hlen. rewrite length_append_string in Hlen. lia.
  - subst y. cbn [String.length] in Hlen. rewrite length_append_string in Hlen. lia.
  - inversion H as [[Hc Hr]]. destruct (IH b Hlen Hr) as [-> ->]. auto.
Qed.

Lemma tabKey_pair (a b : ProviderTab) : tabKey a = tabKey b -> tabPair a = tabPair b.
Proof.
  unfold tabKey, tabPair. intros H.
  destruct (reviewFlag a), (reviewFlag b);
    apply append_inj_suffix in H as [Hp Hs]; try reflexivity;
    try discriminate; rewrite Hp; reflexivity.
Qed.

Lemma uniqueTabs_keys valid l :
  forall seen,
    NoDup (tabKey <$> uniqueTabs valid seen l)
    /\ forall tab, tab ∈ uniqueTabs valid seen l -> tabKey tab ∉ seen.
Proof.
  induction l as [|x l IH]; intros seen; simpl.
  - split; [constructor | intros tab H; inversion H].
  - destruct (valid x); simpl.
    2: { apply IH. }
    destruct (bool_decide (tabKey x ∈ seen)) eqn:E.
    { apply IH. }
    apply bool_decide_eq_false in E.
    destruct (IH ({[tabKey x]} ∪ seen)) as [Hnd Hout].
    split.
    + simpl. apply NoDup_cons_2; [|exact Hnd].
      intros Hin. apply list_elem_of_fmap in Hin as (y & Hy & Hyl).
      apply (Hout y Hyl). rewrite <- Hy.
      apply elem_of_union. left. apply elem_of_singleton. reflexivity.
    + intros tab Hin. apply elem_of_cons in Hin as [->|Hin]; [exact E|].
      intros Hseen. apply (Hout tab Hin).
      apply elem_of_union. right. exact Hseen.
Qed.

Lemma NoDup_pairs (l : list ProviderTab) :
  NoDup (tabKey <$> l) -> NoDup (tabPair <$> l).
Proof.
  induction l as [|x l IH]; simpl; intros H; [constructor|].
  apply NoDup_cons in H as [Hx Hl].
  apply NoDup_cons_2; [|apply IH; exact Hl].
  intros Hin. apply list_elem_of_fmap in Hin as (y & Hy & Hyl).
  apply Hx. apply list_elem_of_fmap. exists y. split; [|exact Hyl].
  unfold tabPair in Hy. inversion Hy as [[Hp Hr]].
  unfold tabKey. rewrite Hp, Hr. reflexivity.
Qed.

Lemma uniqueTabs_pairs valid seen l :
  NoDup (tabPair <$> uniqueTabs valid seen l).
Proof. apply NoDup_pairs. apply uniqueTabs_keys. Qed.

Lemma existsb_id_member a (l : list ProviderTab) :
  existsb (fun tab => String.eqb (id tab) a) l = true ->
  exists tab, tab ∈ l /\ Some a = Some (id tab).
Proof.
  intros H. apply existsb_exists in H as (tab & Hin & Heq).
  apply String.eqb_eq in Heq. exists tab.
  split; [apply list_elem_of_In; exact Hin | congruence].
Qed.

Lemma active_member (l : list ProviderTab) (first : ProviderTab) (a : string) :
  first ∈ l ->
  exists tab, tab ∈ l
    /\ Some (if existsb (fun tab => String.eqb (id tab) a) l then a else id first)
       = Some (id tab).
Proof.
  intros Hfirst.
  destruct (existsb (fun tab => String.eqb (id tab) a) l) eqn:Ex.
  - apply existsb_id_member in Ex. exact Ex.
  - exists first. split; [exact Hfirst | reflexivity].
Qed.

Section WithRegistry.
Variable registry : list string.

Lemma wellFormed_default now fallbackProvider :
  let prov := normalizeProvider registry (Some (JStr fallbackProvider)) "codex" in
  wellFormed (mkState [mkTab prov prov now None] (Some prov)).
Proof.
  simpl. split; [discriminate|]. split.
  - simpl. apply NoDup_singleton.
  - eexists. split; [apply list_elem_of_here | reflexivity].
Qed.

Lemma loadFromStorage_wellFormed now w s st :
  loadFromStorage registry now w s = Some st -> wellFormed st.
Proof.
  unfold loadFromStorage.
  destruct (negb (storageAvailable s)); [discriminate|].
  destruct (ls_throws (storage s)); [discriminate|].
  destruct (ls_tabs (storage s) !! w) as [[parsed|]|]; try discriminate.
  destruct (negb (truthy (Some parsed) && isObject (Some parsed))); [discriminate|].
  set (loaded := match get "tabs" (Some parsed) with
                 | Some (JArr items) => omap (loadItem registry now) items
                 | _ => []
                 end).
  pose proof (uniqueTabs_pairs (fun _ => true) ∅ loaded) as Hnd.
  generalize (get "activeId" (Some parsed)). intros act.
  destruct (uniqueTabs (fun _ => true) ∅ loaded) as [|first rest] eqn:E; [discriminate|].
  intros H. inversion H; subst st. clear H.
  split; [discriminate|]. split; [exact Hnd|]. cbn [tabs activeId].
  destruct act as [[|b|z| |a|items|fields]|];
    try (exists first; split; [apply list_elem_of_here | reflexivity]).
  apply (active_member (first :: rest) first a). apply list_elem_of_here.
Qed.

Lemma saveToStorage_states w st s :
  workspaceStates (saveToStorage w st s) = workspaceStates s.
Proof.
  unfold saveToStorage. destruct (negb (storageAvailable s)); [reflexivity|].
  destruct (ls_throws (storage s)); reflexivity.
Qed.

Lemma storeOk_setState w st s :
  storeOk s -> wellFormed st -> storeOk (setState w st s).
Proof.
  intros Hs Hst w' st' H. simpl in H.
  destruct (decide (w = w')) as [<-|Hne].
  - rewrite lookup_insert_eq in H. inversion H; subst. exact Hst.
  - rewrite lookup_insert_ne in H by exact Hne. apply (Hs _ _ H).
Qed.

Lemma storeOk_saveToStorage w st s : storeOk s -> storeOk (saveToStorage w st s).
Proof. intros Hs w' st' H. rewrite saveToStorage_states in H. apply (Hs _ _ H). Qed.

Lemma storeOk_emit w s : storeOk s -> storeOk (emit w s).
Proof. intros Hs. exact Hs. Qed.

Lemma createDefaultState_ok now w fb s :
  storeOk s ->
  wellFormed (fst (createDefaultState registry now w fb s))
  /\ storeOk (snd (createDefaultState registry now w fb s))
  /\ workspaceStates (snd (createDefaultState registry now w fb s)) !! w
     = Some (fst (createDefaultState registry now w fb s)).
Proof.
  intros Hs. unfold createDefaultState. cbn [fst snd].
  pose proof (wellFormed_default now fb) as Hwf. simpl in Hwf.
  split; [exact Hwf|]. split.
  - apply storeOk_saveToStorage. apply storeOk_setState; assumption.
  - rewrite saveToStorage_states. simpl. apply lookup_insert_eq.
Qed.

Lemma ensureWorkspaceState_ok now w fb s :
  storeOk s ->
  wellFormed (fst (ensureWorkspaceState registry now w fb s))
  /\ storeOk (snd (ensureWorkspaceState registry now w fb s))
  /\ workspaceStates (snd (ensureWorkspaceState registry now w fb s)) !! w
     = Some (fst (ensureWorkspaceState registry now w fb s)).
Proof.
  intros Hs. unfold ensureWorkspaceState.
  destruct (workspaceStates s !! w) as [st|] eqn:E.
  - simpl. split; [apply (Hs _ _ E)|]. split; [exact Hs | exact E].
  - destruct (loadFromStorage registry now w s) as [st|] eqn:L.
    + pose proof (loadFromStorage_wellFormed _ _ _ _ L) as Hwf. simpl.
      split; [exact Hwf|]. split; [apply storeOk_setState; assumption|].
      apply lookup_insert_eq.
    + destruct (createDefaultState_ok now w fb s Hs) as (H1 & H2 & H3).
      destruct (createDefaultState registry now w fb s) as [st s1]. simpl in *.
      split; [exact H1|]. split; [apply storeOk_setState; assumption|].
      apply lookup_insert_eq.
Qed.

Lemma updateWorkspaceState_ok now w fb mutate s :
  storeOk s -> storeOk (updateWorkspaceState registry now w fb mutate s).
Proof.
  intros Hs. unfold updateWorkspaceState.
  destruct (ensureWorkspaceState_ok now w fb s Hs) as (_ & Hs1 & _).
  destruct (ensureWorkspaceState registry now w fb s) as [current s1]. simpl in Hs1.
  set (normalized := _ <$> tabs (mutate (cloneState current))).
  pose proof (uniqueTabs_pairs
                (fun tab => isValidProviderId registry (Some (JStr (provider tab))))
                ∅ normalized) as Hnd.
  destruct (uniqueTabs _ ∅ normalized) as [|first rest] eqn:E.
  - destruct (createDefaultState_ok now w fb s1 Hs1) as (_ & H2 & _).
    destruct (createDefaultState registry now w fb s1) as [st s2]. exact H2.
  - apply storeOk_emit, storeOk_saveToStorage, storeOk_setState; [exact Hs1|].
    split; [discriminate|]. split; [exact Hnd|]. simpl.
    destruct (activeId (mutate (cloneState current))) as [a|];
      [|exists first; split; [apply list_elem_of_here | reflexivity]].
    destruct (String.eqb a "");
      [exists first; split; [apply list_elem_of_here | reflexivity]|].
    apply (active_member (first :: rest) first a). apply list_elem_of_here.
Qed.

Lemma closeTab_ok now w tabId fb s :
  storeOk s -> storeOk (closeTab registry now w tabId fb s).
Proof.
  intros Hs. unfold closeTab.
  destruct (ensureWorkspaceState_ok now w fb s Hs) as (_ & Hs1 & _).
  destruct (ensureWorkspaceState registry now w fb s) as [st s1]. simpl in Hs1.
  destruct (length (tabs st) <=? 1)%nat; [exact Hs1|].
  destruct (findIndex _ (tabs st)); [|exact Hs1].
  apply updateWorkspaceState_ok. exact Hs1.
Qed.

Lemma perform_ok s c : storeOk s -> storeOk (perform registry s c).
Proof.
  intros Hs. unfold perform. destruct (c_action c).
  - unfold addTab. destruct (negb _); [exact Hs|].
    apply updateWorkspaceState_ok. exact Hs.
  - unfold addReviewTab. destruct (negb _); [exact Hs|].
    simpl. apply updateWorkspaceState_ok. exact Hs.
  - unfold setActive. apply updateWorkspaceState_ok. exact Hs.
  - apply closeTab_ok. exact Hs.
  - unfold closeReviewTab.
    destruct (ensureWorkspaceState_ok (c_now c) (c_workspaceId c) (c_fallback c) s Hs)
      as (_ & Hs1 & _).
    destruct (ensureWorkspaceState registry (c_now c) (c_workspaceId c) (c_fallback c) s)
      as [st s1]. simpl in Hs1.
    destruct (List.find reviewFlag (tabs st)); [|exact Hs1].
    apply closeTab_ok. exact Hs1.
Qed.

Lemma performAll_ok calls s : storeOk s -> storeOk (performAll registry calls s).
Proof.
  revert s. induction calls as [|c calls IH]; intros s Hs; [exact Hs|].
  simpl. apply IH. apply perform_ok. exact Hs.
Qed.

Lemma storeOk_initial available ls : storeOk (initial available ls).
Proof. intros w st H. simpl in H. rewrite lookup_empty in H. discriminate. Qed.

(** C4.  Start the registry on any content of the durable storage and
    perform any finite sequence of [addTab] (openProviderTab),
    [addReviewTab] (openReviewTab), [setActive], [closeTab] and
    [closeReviewTab] calls, on any workspaces, with any fallback providers.
    Then the collection read for a workspace [w] with a non-empty id is
    non-empty, has no two tabs with the same (provider, isReview) pair, and
    its [activeId] is the id of one of its tabs; the same holds for every
    collection the registry holds in memory.  For the empty id, which
    stands for "no workspace", [getSnapshot] answers the empty collection
    and touches nothing. *)
Theorem registry_invariant
    (available : bool) (ls : LocalStorage) (calls : list Call)
    (now : Z) (w fallbackProvider : string) :
  w <> "" ->
  let s := performAll registry calls (initial available ls) in
  wellFormed (fst (getSnapshot registry now w fallbackProvider s))
  /\ (forall w' st, workspaceStates s !! w' = Some st -> wellFormed st)
  /\ getSnapshot registry now "" fallbackProvider s = (EMPTY_STATE, s).
Proof.
  intros Hw s.
  assert (Hs : storeOk s) by (apply performAll_ok, storeOk_initial).
  split; [|split; [exact Hs | reflexivity]].
  unfold getSnapshot. rewrite (proj2 (String.eqb_neq w "") Hw).
  apply ensureWorkspaceState_ok. exact Hs.
Qed.

(** *** Rehydration drops the review flag *)

Lemma loadItem_ordinary now item tab :
  loadItem registry now item = Some tab -> ordinary tab.
Proof.
  unfold loadItem. destruct (negb _); [discriminate|].
  intros H. inversion H. reflexivity.
Qed.

Lemma omap_loadItem_ordinary now items :
  Forall ordinary (omap (loadItem registry now) items).
Proof.
  induction items as [|item items IH]; simpl; [constructor|].
  destruct (loadItem registry now item) eqn:E; [|exact IH].
  constructor; [apply (loadItem_ordinary _ _ _ E) | exact IH].
Qed.

Lemma uniqueTabs_Forall (P : ProviderTab -> Prop) valid l :
  forall seen, Forall P l -> Forall P (uniqueTabs valid seen l).
Proof.
  induction l as [|x l IH]; intros seen H; simpl; [constructor|].
  apply Forall_cons in H as [Hx Hl].
  destruct (valid x); simpl; [|apply IH; exact Hl].
  destruct (bool_decide (tabKey x ∈ seen)); [apply IH; exact Hl|].
  constructor; [exact Hx | apply IH; exact Hl].
Qed.

Lemma loadFromStorage_ordinary now w s st :
  loadFromStorage registry now w s = Some st -> Forall ordinary (tabs st).
Proof.
  unfold loadFromStorage.
  destruct (negb (storageAvailable s)); [discriminate|].
  destruct (ls_throws (storage s)); [discriminate|].
  destruct (ls_tabs (storage s) !! w) as [[parsed|]|]; try discriminate.
  destruct (negb (truthy (Some parsed) && isObject (Some parsed))); [discriminate|].
  set (loaded := match get "tabs" (Some parsed) with
                 | Some (JArr items) => omap (loadItem registry now) items
                 | _ => []
                 end).
  assert (Hl : Forall ordinary loaded).
  { unfold loaded. destruct (get "tabs" (Some parsed)) as [[|b|z| |a|items|fields]|];
      try constructor. apply omap_loadItem_ordinary. }
  pose proof (uniqueTabs_Forall ordinary (fun _ => true) loaded ∅ Hl) as Hu.
  destruct (uniqueTabs (fun _ => true) ∅ loaded) as [|first rest]; [discriminate|].
  intros H. inversion H. exact Hu.
Qed.

Lemma find_reviewFlag_ordinary (l : list ProviderTab) :
  Forall ordinary l -> List.find reviewFlag l = None.
Proof.
  induction 1 as [|x l Hx Hl IH]; simpl; [reflexivity|].
  unfold reviewFlag at 1. rewrite Hx. exact IH.
Qed.

(** *** Rehydration keeps the first tab of each provider *)

Lemma tabKey_ordinary (tab : ProviderTab) :
  reviewFlag tab = false -> tabKey tab = provider tab +:+ ":" +:+ "normal".
Proof. intros H. unfold tabKey. rewrite H. reflexivity. Qed.

Lemma normalKey_inj (p q : string) :
  p +:+ ":" +:+ "normal" = q +:+ ":" +:+ "normal" -> p = q.
Proof.
  intros H. apply append_inj_suffix in H as [H _]; [exact H | reflexivity].
Qed.

Lemma uniqueTabs_first valid prov (l : list ProviderTab) :
  Forall (fun tab => valid tab = true /\ reviewFlag tab = false) l ->
  forall seen,
    List.find (fun tab => String.eqb (provider tab) prov) (uniqueTabs valid seen l)
    = if bool_decide (prov +:+ ":" +:+ "normal" ∈ seen) then None
      else List.find (fun tab => String.eqb (provider tab) prov) l.
Proof.
  induction 1 as [|x l [Hv Hr] Hl IH]; intros seen.
  - simpl. destruct (bool_decide _); reflexivity.
  - cbn [uniqueTabs]. rewrite Hv. cbn [negb]. rewrite (tabKey_ordinary x Hr).
    destruct (bool_decide (provider x +:+ ":" +:+ "normal" ∈ seen)) eqn:Ex.
    + rewrite IH.
      destruct (bool_decide (prov +:+ ":" +:+ "normal" ∈ seen)) eqn:Ep; [reflexivity|].
      cbn [List.find].
      destruct (String.eqb (provider x) prov) eqn:E; [|reflexivity].
      apply String.eqb_eq in E. rewrite E in Ex. congruence.
    + cbn [List.find].
      destruct (String.eqb (provider x) prov) eqn:E.
      * apply String.eqb_eq in E. rewrite <- E, Ex. reflexivity.
      * rewrite IH. apply String.eqb_neq in E.
        rewrite (bool_decide_ext
                   (prov +:+ ":" +:+ "normal" ∈ {[provider x +:+ ":" +:+ "normal"]} ∪ seen)
                   (prov +:+ ":" +:+ "normal" ∈ seen)); [reflexivity|].
        rewrite elem_of_union, elem_of_singleton.
        split; [|auto]. intros [H|H]; [|exact H].
        apply normalKey_inj in H. congruence.
Qed.

Lemma uniqueTabs_providers valid seen (l : list ProviderTab) :
  Forall (fun tab => reviewFlag tab = false) l ->
  NoDup (provider <$> uniqueTabs valid seen l).
Proof.
  intros Hl.
  pose proof (proj1 (uniqueTabs_keys valid l seen)) as Hnd.
  pose proof (uniqueTabs_Forall _ valid l seen Hl) as Hu.
  induction Hu as [|x u Hx Hu IH]; [constructor|].
  rewrite fmap_cons in *. apply NoDup_cons in Hnd as [Hnx Hnd].
  apply NoDup_cons_2; [|apply IH; exact Hnd].
  intros Hin. apply Hnx.
  apply list_elem_of_fmap in Hin as (y & Hy & Hyu).
  apply list_elem_of_fmap. exists y. split; [|exact Hyu].
  rewrite Forall_forall in Hu.
  rewrite (tabKey_ordinary x Hx), (tabKey_ordinary y (Hu y Hyu)), Hy. reflexivity.
Qed.

Lemma loadItem_withoutFlag now tab :
  trim (id tab) = id tab -> id tab <> "" -> provider tab ∈ registry ->
  loadItem registry now (encodeTab tab) = Some (withoutFlag tab).
Proof.
  destruct tab as [i p c r]. cbn [id provider]. intros Ht Hi Hp.
  unfold loadItem, encodeTab, withoutFlag. cbn [id provider createdAt isReview].
  assert (Hg : forall k,
            get k (Some (JObj ([("id", JStr i); ("provider", JStr p);
                                ("createdAt", JNum c)]
                               ++ match r with
                                  | Some b => [("isReview", JBool b)]
                                  | None => []
                                  end)))
            = if String.eqb k "id" then Some (JStr i)
              else if String.eqb k "provider" then Some (JStr p)
              else if String.eqb k "createdAt" then Some (JNum c)
              else get k (Some (JObj match r with
                                     | Some b => [("isReview", JBool b)]
                                     | None => []
                                     end))).
  { intros k. cbn. rewrite !(String.eqb_sym k).
    destruct (String.eqb "id" k); [reflexivity|].
    destruct (String.eqb "provider" k); [reflexivity|].
    destruct (String.eqb "createdAt" k); reflexivity. }
  rewrite !Hg. cbn [String.eqb Ascii.eqb Bool.eqb andb].
  unfold normalizeProvider, isValidProviderId.
  rewrite (bool_decide_eq_true_2 _ Hp). cbv beta iota.
  rewrite (bool_decide_eq_true_2 _ Hp). cbn [negb].
  rewrite Ht. rewrite (proj2 (String.eqb_neq i "") Hi). reflexivity.
Qed.

Lemma omap_loadItem_withoutFlag now (l : list ProviderTab) :
  Forall (fun tab => trim (id tab) = id tab /\ id tab <> ""
                     /\ provider tab ∈ registry) l ->
  omap (loadItem registry now) (encodeTab <$> l) = withoutFlag <$> l.
Proof.
  induction 1 as [|tab l (H1 & H2 & H3) Hl IH]; [reflexivity|].
  rewrite !fmap_cons. cbn [omap list_omap].
  rewrite (loadItem_withoutFlag now tab H1 H2 H3).
  fold (omap (loadItem registry now) (encodeTab <$> l)). rewrite IH. reflexivity.
Qed.

Lemma find_withoutFlag prov (l : list ProviderTab) :
  List.find (fun tab => String.eqb (provider tab) prov) (withoutFlag <$> l)
  = withoutFlag <$> List.find (fun tab => String.eqb (provider tab) prov) l.
Proof.
  induction l as [|x l IH]; [reflexivity|].
  rewrite fmap_cons. cbn [List.find withoutFlag provider].
  destruct (String.eqb (provider x) prov); [reflexivity | exact IH].
Qed.

(** What [loadFromStorage] makes of a collection as [saveToStorage] wrote
    it. *)
Lemma loadFromStorage_persisted now w s persisted :
  storageAvailable s = true -> ls_throws (storage s) = false ->
  ls_tabs (storage s) !! w = Some (Some (encodeState persisted)) ->
  tabs persisted <> [] ->
  Forall (fun tab => trim (id tab) = id tab /\ id tab <> ""
                     /\ provider tab ∈ registry) (tabs persisted) ->
  exists st,
    loadFromStorage registry now w s = Some st
    /\ tabs st = uniqueTabs (fun _ => true) ∅ (withoutFlag <$> tabs persisted).
Proof.
  intros Ha Hth Hls Hne Htabs. unfold loadFromStorage.
  rewrite Ha, Hth, Hls. cbn [negb].
  change (truthy (Some (encodeState persisted)) && isObject (Some (encodeState persisted)))
    with true. cbn [negb].
  change (get "tabs" (Some (encodeState persisted)))
    with (Some (JArr (encodeTab <$> tabs persisted))).
  generalize (get "activeId" (Some (encodeState persisted))). intros act.
  cbv beta iota zeta. rewrite (omap_loadItem_withoutFlag now _ Htabs).
  destruct (tabs persisted) as [|first rest]; [contradiction|].
  rewrite fmap_cons. cbn [uniqueTabs negb].
  rewrite bool_decide_eq_false_2 by apply not_elem_of_empty.
  eexists. split; reflexivity.
Qed.

(** C10.  When a workspace's collection is rehydrated (the registry holds
    nothing for it in memory yet), whatever durable storage contains, every
    tab of the collection that comes out has no [isReview] flag: what
    [loadFromStorage] returns never carries one, and neither does the
    default collection used when nothing loads.  Hence [getReviewTab]
    returns null right after rehydration.  A persisted tab, review tab or
    not, is not always restored: of a collection written by [saveToStorage]
    whose tabs have trimmed, non-empty ids and known providers, rehydration
    keeps for each provider the first persisted tab of that provider,
    without its flag, and nothing else.  So a persisted review tab comes
    back as an ordinary tab when no earlier persisted tab has its provider,
    and is dropped when one has. *)
Theorem rehydrated_tabs_are_ordinary
    (now : Z) (w fallbackProvider : string) (s : Store) :
  workspaceStates s !! w = None ->
  (forall st, loadFromStorage registry now w s = Some st ->
              fst (ensureWorkspaceState registry now w fallbackProvider s) = st
              /\ Forall (fun tab => isReview tab = None) (tabs st))
  /\ Forall (fun tab => isReview tab = None)
            (tabs (fst (ensureWorkspaceState registry now w fallbackProvider s)))
  /\ fst (getReviewTab registry now w fallbackProvider s) = None
  /\ (forall persisted,
        storageAvailable s = true -> ls_throws (storage s) = false ->
        ls_tabs (storage s) !! w = Some (Some (encodeState persisted)) ->
        tabs persisted <> [] ->
        Forall (fun tab => trim (id tab) = id tab /\ id tab <> ""
                           /\ provider tab ∈ registry) (tabs persisted) ->
        let st := fst (ensureWorkspaceState registry now w fallbackProvider s) in
        loadFromStorage registry now w s = Some st
        /\ NoDup (provider <$> tabs st)
        /\ forall prov,
             List.find (fun tab => String.eqb (provider tab) prov) (tabs st)
             = withoutFlag
                 <$> List.find (fun tab => String.eqb (provider tab) prov)
                               (tabs persisted)).
Proof.
  intros Hmem.
  assert (Hens : Forall ordinary
            (tabs (fst (ensureWorkspaceState registry now w fallbackProvider s)))).
  { unfold ensureWorkspaceState. rewrite Hmem.
    destruct (loadFromStorage registry now w s) as [st|] eqn:L.
    - simpl. apply (loadFromStorage_ordinary _ _ _ _ L).
    - unfold createDefaultState. simpl. repeat constructor. }
  split; [|split; [|split]].
  - intros st L. split; [|apply (loadFromStorage_ordinary _ _ _ _ L)].
    unfold ensureWorkspaceState. rewrite Hmem, L. reflexivity.
  - exact Hens.
  - unfold getReviewTab.
    destruct (ensureWorkspaceState registry now w fallbackProvider s) as [st s1].
    simpl in *. apply find_reviewFlag_ordinary. exact Hens.
  - intros persisted Ha Hth Hls Hne Htabs st.
    destruct (loadFromStorage_persisted now w s persisted Ha Hth Hls Hne Htabs)
      as (st0 & L & Ht).
    assert (Hst : st = st0).
    { unfold st, ensureWorkspaceState. rewrite Hmem, L. reflexivity. }
    rewrite Hst. clear Hst st.
    assert (Hflags : Forall (fun tab => True /\ reviewFlag tab = false)
                            (withoutFlag <$> tabs persisted)).
    { apply Forall_fmap, Forall_forall. intros tab _. split; reflexivity. }
    split; [exact L|]. rewrite Ht. split.
    + apply uniqueTabs_providers. apply Forall_fmap, Forall_forall. reflexivity.
    + intros prov.
      rewrite (uniqueTabs_first (fun _ => true) prov _
                 (Forall_impl _ _ _ Hflags (fun _ H => conj eq_refl (proj2 H)))).
      rewrite bool_decide_eq_false_2 by apply not_elem_of_empty.
      apply find_withoutFlag.
Qed.

End WithRegistry.

(** A review tab persisted beside the default tab of its own provider is
    not restored, neither as a review tab nor as an ordinary one: the next
    session opens with the default tab alone. *)
Lemma persisted_review_tab_is_dropped :
  (tabs <$> workspaceStates Scenarios.reviewBesideDefault !! "ws")
  = Some [mkTab "claude" "claude" 5 None;
          mkTab "claude-review" "claude" 5 (Some true)]
  /\ ls_tabs (storage Scenarios.sessionAfterReview) !! "ws"
     = Some (encodeState <$> workspaceStates Scenarios.reviewBesideDefault !! "ws")
  /\ workspaceStates Scenarios.sessionAfterReview !! "ws" = None
  /\ tabs (fst (ensureWorkspaceState Scenarios.registry 9 "ws" "claude"
                  Scenarios.sessionAfterReview))
     = [mkTab "claude" "claude" 5 None].
Proof. vm_compute. repeat split; reflexivity. Qed.

Lemma registry_invariant_witness :
  "ws" <> ""
  /\ wellFormed
       (fst (getSnapshot Scenarios.registry 9 "ws" "codex"
               (performAll Scenarios.registry
                  [mkCall "ws" 1 "codex" (openProviderTab "claude");
                   mkCall "ws" 2 "codex" (openReviewTab "claude");
                   mkCall "ws" 3 "codex" (closeTabAction "codex")]
                  (initial true emptyStorage)))).
Proof.
  assert (H : "ws" <> "") by discriminate.
  split; [exact H|].
  apply (registry_invariant Scenarios.registry true emptyStorage
           [mkCall "ws" 1 "codex" (openProviderTab "claude");
            mkCall "ws" 2 "codex" (openReviewTab "claude");
            mkCall "ws" 3 "codex" (closeTabAction "codex")] 9 "ws" "codex" H).
Defined.

Lemma rehydrated_tabs_are_ordinary_witness :
  workspaceStates Scenarios.nextSession !! "ws" = None
  /\ fst (getReviewTab Scenarios.registry 9 "ws" "codex" Scenarios.nextSession) = None
  /\ tabs (fst (ensureWorkspaceState Scenarios.registry 9 "ws" "codex"
                  Scenarios.nextSession))
     = [mkTab "codex" "codex" 5 None; mkTab "claude-review" "claude" 5 None]
  /\ List.find (fun tab => String.eqb (provider tab) "claude")
       (tabs (fst (ensureWorkspaceState Scenarios.registry 9 "ws" "codex"
                     Scenarios.nextSession)))
     = Some (withoutFlag (mkTab "claude-review" "claude" 5 (Some true))).
Proof.
  assert (H : workspaceStates Scenarios.nextSession !! "ws" = None) by reflexivity.
  destruct (rehydrated_tabs_are_ordinary Scenarios.registry 9 "ws" "codex"
              Scenarios.nextSession H) as (_ & _ & C & P).
  split; [exact H|]. split; [exact C|]. split; [vm_compute; reflexivity|].
  destruct (P (mkState [mkTab "codex" "codex" 5 None;
                        mkTab "claude-review" "claude" 5 (Some true)]
                       (Some "claude-review")))
    as (_ & _ & F).
  - reflexivity.
  - reflexivity.
  - vm_compute. reflexivity.
  - discriminate.
  - repeat (apply Forall_cons; split);
      [repeat split; try (vm_compute; reflexivity); try discriminate;
       apply list_elem_of_In; simpl; tauto .. | constructor].
  - exact (F "claude").
Defined.

End ProviderTabsFacts.

(** ** The review gate *)

Module ReviewAgentFacts.
Import Json ReviewAgent.

Lemma canStartReview_ext enabled w (ls ls' : LocalStorage) :
  ls_throws ls = ls_throws ls' -> ls_tabs ls = ls_tabs ls' ->
  canStartReview enabled w ls = canStartReview enabled w ls'.
Proof. intros H1 H2. unfold canStartReview. rewrite H1, H2. reflexivity. Qed.

Lemma setReviewPending_storage w pending (k : KanbanStore.Store) :
  ls_throws (KanbanStore.storage (KanbanStore.setReviewPending w pending k))
  = ls_throws (KanbanStore.storage k)
  /\ ls_tabs (KanbanStore.storage (KanbanStore.setReviewPending w pending k))
     = ls_tabs (KanbanStore.storage k).
Proof.
  unfold KanbanStore.setReviewPending, KanbanStore.readReviewPending.
  destruct (KanbanStore.reviewPendingCache k); simpl;
    destruct (ls_throws (KanbanStore.storage k)) eqn:E; simpl; auto.
Qed.

(** The gate never looks at the pending-review flags. *)
Lemma canStartReview_ignores_pending enabled w w' pending (k : KanbanStore.Store) :
  canStartReview enabled w (KanbanStore.storage (KanbanStore.setReviewPending w' pending k))
  = canStartReview enabled w (KanbanStore.storage k).
Proof.
  destruct (setReviewPending_storage w' pending k) as [H1 H2].
  apply canStartReview_ext; assumption.
Qed.

Lemma nonReview_encoded (l : list ProviderTabs.ProviderTab) :
  existsb isNull (ProviderTabs.encodeTab <$> l) = false
  /\ length (List.filter (fun t => negb (truthy (get "isReview" (Some t))))
                         (ProviderTabs.encodeTab <$> l))
     = length (List.filter (fun tab => negb (ProviderTabs.reviewFlag tab)) l).
Proof.
  induction l as [|tab l [IH1 IH2]]; [split; reflexivity|].
  split; [exact IH1|].
  change (ProviderTabs.encodeTab <$> tab :: l)
    with (ProviderTabs.encodeTab tab :: (ProviderTabs.encodeTab <$> l)).
  cbn [List.filter].
  assert (E : truthy (get "isReview" (Some (ProviderTabs.encodeTab tab)))
              = ProviderTabs.reviewFlag tab).
  { unfold ProviderTabs.encodeTab, ProviderTabs.reviewFlag.
    destruct (ProviderTabs.isReview tab) as [[|]|]; reflexivity. }
  rewrite E. destruct (ProviderTabs.reviewFlag tab); cbn [negb length].
  - exact IH2.
  - f_equal. exact IH2.
Qed.

(** On a collection written by the tab registry the gate is
    [reviewEnabled AND countNonReviewSurfaces <= 1]. *)
Lemma canStartReview_counts enabled w (ls : LocalStorage) st :
  ls_throws ls = false ->
  ls_tabs ls !! w = Some (Some (ProviderTabs.encodeState st)) ->
  canStartReview enabled w ls
  = enabled
    && (length (List.filter (fun tab => negb (ProviderTabs.reviewFlag tab))
                            (ProviderTabs.tabs st)) <=? 1)%nat.
Proof.
  intros Ht Hl. unfold canStartReview. rewrite Ht, Hl.
  destruct enabled; [|reflexivity]. cbn [negb andb].
  change (get "tabs" (Some (ProviderTabs.encodeState st)))
    with (Some (JArr (ProviderTabs.encodeTab <$> ProviderTabs.tabs st))).
  cbv beta iota.
  destruct (nonReview_encoded (ProviderTabs.tabs st)) as [E1 E2].
  rewrite E1. rewrite E2. reflexivity.
Qed.

(** C1, at the input where the code departs from it: review is enabled,
    the tab registry has recorded two non-review tabs for the workspace and
    its pending-review flag is set.  The gate of the specification answers
    [true]; [canStartReview] answers [false], and with it the auto-start
    condition fails.  In general, setting the pending-review flag never
    changes the answer of [canStartReview]. *)
Theorem canStartReview_blocks_pending_review :
  fst (KanbanStore.isReviewPending "ws-auto" Scenarios.pendingTwoTabs) = true
  /\ (ProviderTabs.id <$> (from_option ProviderTabs.tabs []
        (ProviderTabs.workspaceStates Scenarios.twoTabs !! "ws-auto")))
     = ["codex"; "claude"]
  /\ canStartReview_spec true true 2 = true
  /\ canStartReview true "ws-auto" (KanbanStore.storage Scenarios.pendingTwoTabs) = false
  /\ fst (autoStartCondition true "ws-auto" Scenarios.pendingTwoTabs) = false
  /\ (forall enabled w w' (k : KanbanStore.Store),
        canStartReview enabled w
          (KanbanStore.storage (KanbanStore.setReviewPending w' true k))
        = canStartReview enabled w (KanbanStore.storage k)).
Proof.
  split; [vm_compute; reflexivity|]. split; [vm_compute; reflexivity|].
  split; [reflexivity|]. split; [vm_compute; reflexivity|].
  split; [vm_compute; reflexivity|].
  intros enabled w w' k. apply canStartReview_ignores_pending.
Qed.

End ReviewAgentFacts.

(** ** The kanban board *)

Module KanbanBoardFacts.
Import KanbanBoard KanbanBoardRun KanbanStoreFacts.

Lemma guard_false ws :
  wellFormedWs ws ->
  String.eqb (ws_id ws) "" || String.eqb (ws_path ws) "" = false.
Proof.
  intros [H1 H2].
  destruct (String.eqb (ws_id ws) "") eqn:E1.
  { apply String.eqb_eq in E1. contradiction. }
  destruct (String.eqb (ws_path ws) "") eqn:E2.
  { apply String.eqb_eq in E2. contradiction. }
  reflexivity.
Qed.

Lemma guard_cases ws :
  String.eqb (ws_id ws) "" || String.eqb (ws_path ws) "" = true \/ wellFormedWs ws.
Proof.
  destruct (String.eqb (ws_id ws) "") eqn:E1; [left; reflexivity|].
  destruct (String.eqb (ws_path ws) "") eqn:E2; [left; reflexivity|].
  right. split; apply String.eqb_neq; assumption.
Qed.

(** *** Updaters *)

Lemma lookupOrTodo_done m w : lookupOrTodo m w = Done <-> m !! w = Some Done.
Proof.
  unfold lookupOrTodo. destruct (m !! w) as [st|].
  - split; intros H; inversion H; reflexivity.
  - destruct (bool_decide _); split; discriminate.
Qed.

Lemma runUpdate_nextState u m st : snd (fst (runUpdate u m st)) = nextState u m.
Proof. destruct u; simpl; try destruct (bool_decide _); reflexivity. Qed.

Lemma runUpdate_pending u m st w :
  fst (KanbanStore.isReviewPending w (snd (runUpdate u m st)))
  = fst (KanbanStore.isReviewPending w st).
Proof.
  destruct u; cbn [runUpdate fst snd]; try destruct (bool_decide _); cbn [fst snd]; try reflexivity.
  apply setStatus_keeps_pending.
Qed.

Lemma runUpdate_status u m st w :
  u <> PromoteUpdate w ->
  fst (KanbanStore.getStatus w (snd (runUpdate u m st)))
  = fst (KanbanStore.getStatus w st).
Proof.
  intros Hu. destruct u as [w'|w'|w' t]; cbn [runUpdate fst snd]; try destruct (bool_decide _); cbn [fst snd];
    try reflexivity.
  apply getStatus_setStatus_ne. congruence.
Qed.


Lemma runUpdate_markDone_store w m st : snd (runUpdate (MarkDoneUpdate w) m st) = st.
Proof. cbn [runUpdate fst snd]. destruct (bool_decide _); reflexivity. Qed.

Lemma nextState_markDone w' m w :
  nextState (MarkDoneUpdate w') m !! w
  = if decide (w' = w) then Some Done else m !! w.
Proof.
  simpl. destruct (decide (w' = w)) as [->|Hne].
  - destruct (bool_decide _) eqn:E.
    + apply bool_decide_eq_true in E. apply lookupOrTodo_done. exact E.
    + apply lookup_insert_eq.
  - destruct (bool_decide _); [reflexivity|]. apply lookup_insert_ne. exact Hne.
Qed.

(** *** [setStatusMap] and [render] *)

Lemma runQueued_spec acc u :
  runQueued acc u = (nextState u (fst acc), snd (runUpdate u (fst acc) (snd acc))).
Proof.
  unfold runQueued. pose proof (runUpdate_nextState u (fst acc) (snd acc)) as Hn.
  destruct (runUpdate u (fst acc) (snd acc)) as [[c next] st]. cbn [fst snd] in *.
  rewrite Hn. reflexivity.
Qed.

Lemma flush_fst (q : list Update) :
  forall m st,
    fst (fold_left runQueued q (m, st)) = fold_left (fun m u => nextState u m) q m.
Proof.
  induction q as [|u q IH]; intros m st; [reflexivity|].
  cbn [fold_left]. unfold runQueued at 2. cbn [fst snd].
  pose proof (runUpdate_nextState u m st) as Hn.
  destruct (runUpdate u m st) as [[c next] st']. cbn [fst snd] in Hn. subst next.
  apply IH.
Qed.

Lemma flush_snd (P : KanbanStore.Store -> Prop) (q : list Update) :
  (forall u m st, u ∈ q -> P st -> P (snd (runUpdate u m st))) ->
  forall m st, P st -> P (snd (fold_left runQueued q (m, st))).
Proof.
  induction q as [|u q IH]; intros Hstep m st H; [exact H|].
  cbn [fold_left]. unfold runQueued at 2. cbn [fst snd].
  pose proof (Hstep u m st (list_elem_of_here _ _) H) as H'.
  destruct (runUpdate u m st) as [[c next] st']. cbn [snd] in H'.
  apply IH; [|exact H'].
  intros u' m' st'' Hin. apply Hstep. apply list_elem_of_further. exact Hin.
Qed.

Lemma render_spec b :
  statusMap (render b) = flushed b
  /\ pending (render b) = None
  /\ idleTimers (render b) = idleTimers b
  /\ staleTimers (render b) = staleTimers b
  /\ clock (render b) = clock b
  /\ reviewStarts (render b) = reviewStarts b
  /\ onTheSpot (render b) = onTheSpot b.
Proof.
  unfold render, flushed. destruct (pending b) as [q|] eqn:Ep.
  - pose proof (flush_fst q (statusMap b) (store b)) as Hf.
    destruct (fold_left _ q (statusMap b, store b)) as [next st].
    cbn [fst] in Hf. cbn. rewrite Hf. repeat split; reflexivity.
  - rewrite Ep. cbn. repeat split; reflexivity.
Qed.

Lemma render_store (P : KanbanStore.Store -> Prop) b :
  (forall u m st, u ∈ default [] (pending b) -> P st -> P (snd (runUpdate u m st))) ->
  P (store b) -> P (store (render b)).
Proof.
  intros Hstep H. unfold render. destruct (pending b) as [q|]; [|exact H].
  pose proof (flush_snd P q Hstep (statusMap b) (store b) H) as Hs.
  destruct (fold_left _ q (statusMap b, store b)) as [next st]. exact Hs.
Qed.

Lemma flushed_render b : flushed (render b) = flushed b.
Proof.
  destruct (render_spec b) as (Hm & Hp & _).
  unfold flushed at 1. rewrite Hm, Hp. reflexivity.
Qed.

Lemma shown_flushed w b : shown w b = lookupOrTodo (flushed b) w.
Proof. unfold shown. destruct (render_spec b) as (Hm & _). rewrite Hm. reflexivity. Qed.

Lemma render_pending w b : pendingOf w (render b) = pendingOf w b.
Proof.
  unfold pendingOf.
  apply (render_store
           (fun st => fst (KanbanStore.isReviewPending w st)
                      = fst (KanbanStore.isReviewPending w (store b)))); [|reflexivity].
  intros u m st _ H. rewrite runUpdate_pending. exact H.
Qed.


Lemma render_status w b :
  noPromotion w b -> statusOf w (render b) = statusOf w b.
Proof.
  intros Hq. unfold statusOf.
  apply (render_store (fun st => fst (KanbanStore.getStatus w st)
                                 = fst (KanbanStore.getStatus w (store b))));
    [|reflexivity].
  intros u m st Hin H. rewrite runUpdate_status; [exact H|].
  unfold noPromotion in Hq. rewrite Forall_forall in Hq. apply Hq. exact Hin.
Qed.

Lemma render_noPromotion w b : noPromotion w (render b).
Proof.
  unfold noPromotion. destruct (render_spec b) as (_ & Hp & _). rewrite Hp. constructor.
Qed.

Lemma setStatusMap_spec u b :
  let r := setStatusMap u b in
  fst r = runsInside b && fst (fst (runUpdate u (statusMap b) (store b)))
  /\ store (snd r)
     = (if runsInside b then snd (runUpdate u (statusMap b) (store b)) else store b)
  /\ flushed (snd r) = nextState u (flushed b)
  /\ default [] (pending (snd r))
     = (if runsInside b then [] else default [] (pending b) ++ [u])
  /\ idleTimers (snd r) = idleTimers b
  /\ staleTimers (snd r) = staleTimers b
  /\ clock (snd r) = clock b
  /\ reviewStarts (snd r) = reviewStarts b
  /\ onTheSpot (snd r) = tl (onTheSpot b).
Proof.
  unfold setStatusMap, runsInside, flushed.
  pose proof (runUpdate_nextState u (statusMap b) (store b)) as Hn.
  destruct (hd false (onTheSpot b)); cbn [andb].
  - destruct (pending b) as [q|] eqn:Ep.
    + cbn. rewrite fold_left_app. repeat split; reflexivity.
    + destruct (runUpdate u (statusMap b) (store b)) as [[changed next] st].
      cbn [fst snd] in *. subst next.
      destruct changed; cbn; repeat split; reflexivity.
  - cbn. rewrite fold_left_app. repeat split; try reflexivity.
Qed.

Lemma noPromotion_queue w b b' u :
  default [] (pending b')
  = (if runsInside b then [] else default [] (pending b) ++ [u]) ->
  u <> PromoteUpdate w ->
  noPromotion w b -> noPromotion w b'.
Proof.
  intros Hq Hu H. unfold noPromotion in *. rewrite Hq.
  destruct (runsInside b); [constructor|].
  apply Forall_app. split; [exact H|]. constructor; [exact Hu | constructor].
Qed.

(** *** [markDone] *)

Lemma markDone_skip ws b :
  String.eqb (ws_id ws) "" || String.eqb (ws_path ws) "" = true -> markDone ws b = b.
Proof. intros H. unfold markDone. rewrite H. reflexivity. Qed.

Lemma markDone_spec ws b :
  wellFormedWs ws ->
  store (markDone ws b) = KanbanStore.setStatus (ws_id ws) Done (store b)
  /\ flushed (markDone ws b) = nextState (MarkDoneUpdate (ws_id ws)) (flushed b)
  /\ default [] (pending (markDone ws b))
     = (if runsInside b then []
        else default [] (pending b) ++ [MarkDoneUpdate (ws_id ws)])
  /\ reviewStarts (markDone ws b)
     = (if runsInside b && negb (bool_decide (lookupOrTodo (statusMap b) (ws_id ws) = Done))
        then reviewStarts b ++ [(ws_id ws, ws_path ws)]
        else reviewStarts b)
  /\ idleTimers (markDone ws b) = idleTimers b
  /\ staleTimers (markDone ws b) = staleTimers b
  /\ clock (markDone ws b) = clock b
  /\ onTheSpot (markDone ws b) = tl (onTheSpot b).
Proof.
  intros Hwf. unfold markDone, autoStartReviewIfDone. rewrite (guard_false ws Hwf).
  destruct (setStatusMap_spec (MarkDoneUpdate (ws_id ws)) b)
    as (Hc & Hs & Hf & Hq & Hi & Ht & Hk & Hr & Ho).
  cbv zeta in *.
  destruct (setStatusMap (MarkDoneUpdate (ws_id ws)) b) as [changed b1].
  cbn [fst snd] in *.
  assert (Hstore : store b1 = store b).
  { rewrite Hs. destruct (runsInside b); [apply runUpdate_markDone_store | reflexivity]. }
  assert (Hch : changed
                = runsInside b
                  && negb (bool_decide (lookupOrTodo (statusMap b) (ws_id ws) = Done))).
  { rewrite Hc. f_equal. simpl. destruct (bool_decide _); reflexivity. }
  rewrite <- Hch.
  destruct changed; cbn; unfold flushed in *; cbn;
    rewrite Hstore, Hi, Ht, Hk, Hr, Ho; repeat split; assumption.
Qed.


Lemma markDone_status ws b :
  wellFormedWs ws -> statusOf (ws_id ws) (markDone ws b) = Done.
Proof.
  intros Hwf. unfold statusOf. rewrite (proj1 (markDone_spec ws b Hwf)).
  apply getStatus_setStatus.
Qed.

Lemma markDone_status_ne ws w b :
  ws_id ws <> w -> statusOf w (markDone ws b) = statusOf w b.
Proof.
  intros Hne. destruct (guard_cases ws) as [H|H].
  - rewrite (markDone_skip ws b H). reflexivity.
  - unfold statusOf. rewrite (proj1 (markDone_spec ws b H)).
    apply getStatus_setStatus_ne. exact Hne.
Qed.

Lemma markDone_pending ws w b : pendingOf w (markDone ws b) = pendingOf w b.
Proof.
  destruct (guard_cases ws) as [H|H].
  - rewrite (markDone_skip ws b H). reflexivity.
  - unfold pendingOf. rewrite (proj1 (markDone_spec ws b H)).
    apply setStatus_keeps_pending.
Qed.

Lemma markDone_flushed ws w b :
  flushed (markDone ws b) !! w
  = if bool_decide (wellFormedWs ws /\ ws_id ws = w) then Some Done else flushed b !! w.
Proof.
  destruct (guard_cases ws) as [H|H].
  - rewrite (markDone_skip ws b H).
    rewrite bool_decide_eq_false_2; [reflexivity|].
    intros [Hwf _]. rewrite (guard_false ws Hwf) in H. discriminate.
  - destruct (markDone_spec ws b H) as (_ & Hf & _). rewrite Hf, nextState_markDone.
    destruct (decide (ws_id ws = w)) as [E|E].
    + rewrite bool_decide_eq_true_2 by auto. reflexivity.
    + rewrite bool_decide_eq_false_2 by (intros [_ E']; contradiction). reflexivity.
Qed.

Lemma markDone_noPromotion ws w b : noPromotion w b -> noPromotion w (markDone ws b).
Proof.
  intros Hq. destruct (guard_cases ws) as [H|H].
  - rewrite (markDone_skip ws b H). exact Hq.
  - destruct (markDone_spec ws b H) as (_ & _ & Hp & _).
    apply (noPromotion_queue w b _ _ Hp); [discriminate | exact Hq].
Qed.

(** *** [settle] and the timer callback *)

Lemma getStatus_snd w s : snd (KanbanStore.getStatus w s) = snd (KanbanStore.read s).
Proof. unfold KanbanStore.getStatus. destruct (KanbanStore.read s). reflexivity. Qed.

(** Reading a status through [getStatus] changes no later answer. *)
Lemma statusOf_hydrated w w' b :
  statusOf w (withStore (snd (KanbanStore.getStatus w' (store b))) b) = statusOf w b.
Proof. unfold statusOf. simpl. rewrite getStatus_snd. apply getStatus_read. Qed.

Lemma pendingOf_hydrated w w' b :
  pendingOf w (withStore (snd (KanbanStore.getStatus w' (store b))) b) = pendingOf w b.
Proof. unfold pendingOf. simpl. apply getStatus_keeps_pending. Qed.

Lemma settle_unfold ws b :
  settle ws b =
  let b1 := withStore (snd (KanbanStore.getStatus (ws_id ws) (store b))) b in
  if bool_decide (statusOf (ws_id ws) b = InProgress) then markDone ws b1 else b1.
Proof.
  unfold settle, statusOf.
  destruct (KanbanStore.getStatus (ws_id ws) (store b)) as [cur st1]. reflexivity.
Qed.




Lemma settle_rests ws b :
  statusOf (ws_id ws) b <> InProgress ->
  settle ws b = withStore (snd (KanbanStore.getStatus (ws_id ws) (store b))) b.
Proof.
  intros Hst. rewrite settle_unfold. cbv zeta.
  rewrite bool_decide_eq_false_2 by exact Hst. reflexivity.
Qed.

Lemma settle_pending ws w b : pendingOf w (settle ws b) = pendingOf w b.
Proof.
  rewrite settle_unfold. cbv zeta. destruct (bool_decide _).
  - rewrite markDone_pending. apply pendingOf_hydrated.
  - apply pendingOf_hydrated.
Qed.






Lemma onIdleTimer_pending ws w b : pendingOf w (onIdleTimer ws b) = pendingOf w b.
Proof. exact (settle_pending ws w b). Qed.


(** *** Timers *)











Lemma advance_unfold dt b :
  advance dt b =
  let due (t : Workspace * Z) := snd t <=? clock b + dt in
  fold_left (fun acc t => onIdleTimer (fst t) acc) (List.filter due (idleTimers b))
    (fold_left (fun acc t => settle (fst t) acc) (List.filter due (staleTimers b))
       (mkBoard (statusMap b) (pending b) (store b) (idleTimers b)
          (List.filter (fun t => negb (due t)) (staleTimers b)) (clock b + dt)
          (reviewStarts b) (onTheSpot b))).
Proof. reflexivity. Qed.






(** *** Time passing, with renders in between *)











(** *** The pending-review flag *)

Lemma setStatusMap_pending u w b : pendingOf w (snd (setStatusMap u b)) = pendingOf w b.
Proof.
  unfold pendingOf. destruct (setStatusMap_spec u b) as (_ & Hs & _).
  cbv zeta in Hs. rewrite Hs. destruct (runsInside b); [|reflexivity].
  apply runUpdate_pending.
Qed.

Lemma transition_keeps_pending how ws w b :
  pendingOf w (transition how ws b) = pendingOf w b.
Proof.
  destruct how as [| | |workspaces]; simpl.
  - apply onIdleTimer_pending.
  - apply settle_pending.
  - apply markDone_pending.
  - unfold handleDrop.
    destruct (List.find _ workspaces); [apply markDone_pending|].
    rewrite setStatusMap_pending. unfold pendingOf. simpl.
    apply setStatus_keeps_pending.
Qed.

(** C2, at the input where the code departs from it: workspace ws-1 is
    in-progress and its pending-review flag is unset; the board has
    rendered, and React either runs the next updater inside the call of
    [setStatusMap] or queues it.  Whichever way the workspace moves into
    ready-for-review (grace timer, terminal exit, external evidence, drag
    and drop), the stored status becomes ready-for-review and the board
    shows it at its next render, but the pending-review flag is still unset
    afterwards, also after that render.  The review starter is called, once
    and with the workspace, only when React has run the updater inside the
    call; when the updater is queued the starter is not called at all.  In
    general, no transition and no render changes the pending-review flag of
    any workspace. *)
Theorem ready_for_review_leaves_pending_unset :
  Forall
    (fun b =>
       statusOf "ws-1" b = InProgress
       /\ pendingOf "ws-1" b = false
       /\ Forall
            (fun how =>
               let b' := transition how Scenarios.ws1 b in
               statusOf "ws-1" b' = Done
               /\ shown "ws-1" b' = Done
               /\ reviewStarts b'
                  = (if runsInside b then [("ws-1", "/tmp/ws-1")] else [])
               /\ reviewStarts (render b') = reviewStarts b'
               /\ pendingOf "ws-1" b' = false
               /\ pendingOf "ws-1" (render b') = false)
            [IdleSettle; ExitSettle; ExternalEvidence; Drag [Scenarios.ws1]])
    [Scenarios.inProgressBoard; Scenarios.inProgressBoardQueueing]
  /\ runsInside Scenarios.inProgressBoard = true
  /\ runsInside Scenarios.inProgressBoardQueueing = false
  /\ (forall how ws w b, pendingOf w (transition how ws b) = pendingOf w b)
  /\ (forall w b, pendingOf w (render b) = pendingOf w b).
Proof.
  split; [|split; [reflexivity|split; [reflexivity|split]]].
  - apply Forall_cons. split; [|apply Forall_cons; split; [|constructor]];
      (split; [vm_compute; reflexivity|]; split; [vm_compute; reflexivity|];
       repeat (apply Forall_cons; split; [vm_compute; repeat split; reflexivity|]);
       constructor).
  - intros how ws w b. apply transition_keeps_pending.
  - intros w b. apply render_pending.
Qed.

End KanbanBoardFacts.

(** * Further properties of the code *)

(** ** kanbanStore.ts: defaults, round trips, restarts *)

Module KanbanStoreMore.
Import KanbanStore KanbanStoreFacts.

Lemma readReviewPending_cache s :
  reviewPendingCache (snd (readReviewPending s)) = Some (fst (readReviewPending s)).
Proof. unfold readReviewPending. destruct (reviewPendingCache s) eqn:E; simpl; auto. Qed.

Lemma readReviewPending_cached s m :
  reviewPendingCache s = Some m -> readReviewPending s = (m, s).
Proof. intros E. unfold readReviewPending. rewrite E. reflexivity. Qed.

Lemma setReviewPending_cache w b s :
  reviewPendingCache (setReviewPending w b s)
  = Some (if b then <[w := b]> (fst (readReviewPending s))
          else delete w (<[w := b]> (fst (readReviewPending s)))).
Proof. unfold setReviewPending. destruct (readReviewPending s). reflexivity. Qed.

Lemma setReviewPending_statusCache w b s :
  cache (setReviewPending w b s) = cache s.
Proof.
  unfold setReviewPending, readReviewPending.
  destruct (reviewPendingCache s); reflexivity.
Qed.

Lemma setReviewPending_ls w b s :
  storage (setReviewPending w b s) =
  if ls_throws (storage s) then storage s
  else mkLocalStorage false (ls_status (storage s))
         (Some (Usable (if b then <[w := b]> (fst (readReviewPending s))
                        else delete w (<[w := b]> (fst (readReviewPending s))))))
         (ls_tabs (storage s)) (ls_writes (storage s) ++ [REVIEW_PENDING_KEY]).
Proof.
  unfold setReviewPending, readReviewPending.
  destruct (reviewPendingCache s); simpl;
    destruct (ls_throws (storage s)) eqn:E; reflexivity.
Qed.

Lemma getStatus_reads s w :
  fst (getStatus w s) = lookupOrTodo (fst (read s)) w.
Proof. unfold getStatus. destruct (read s). reflexivity. Qed.

Lemma read_ext s s' :
  cache s = cache s' ->
  ls_throws (storage s) = ls_throws (storage s') ->
  ls_status (storage s) = ls_status (storage s') ->
  fst (read s) = fst (read s').
Proof.
  intros Hc Ht Hs. unfold read. rewrite Hc, Ht, Hs.
  destruct (cache s'); reflexivity.
Qed.

Lemma read_initial ls :
  fst (read (initial ls))
  = if ls_throws ls then ∅
    else match ls_status ls with
         | Some (Usable m) => m
         | _ => ∅
         end.
Proof. reflexivity. Qed.

Lemma readReviewPending_initial ls :
  fst (readReviewPending (initial ls))
  = if ls_throws ls then ∅
    else match ls_pending ls with
         | Some (Usable m) => m
         | _ => ∅
         end.
Proof. reflexivity. Qed.

(** X1.  Take a store that has not cached anything yet and a workspace id
    the status map read from storage has no entry for (in particular when
    storage access throws, when there is no stored map, and when the stored
    map is unusable).  [getStatus] answers [todo] for it, unless the id is
    the name of a member of [Object.prototype] ([constructor], [toString],
    [__proto__] and so on): then it answers that inherited member, which is
    no status. *)
Theorem getStatus_defaults_to_todo (ls : LocalStorage) (w : string) :
  (forall m, ls_throws ls = false -> ls_status ls = Some (Usable m) -> m !! w = None) ->
  fst (getStatus w (initial ls))
  = if bool_decide (w ∈ objectPrototypeKeys) then Inherited w else Status Todo.
Proof.
  intros H. unfold getStatus, read, initial. simpl. unfold lookupOrTodo.
  destruct (ls_throws ls) eqn:Et; simpl; [rewrite lookup_empty; reflexivity|].
  destruct (ls_status ls) as [[|m]|] eqn:Es; simpl;
    try (rewrite lookup_empty; reflexivity).
  rewrite (H m eq_refl eq_refl). reflexivity.
Qed.

Lemma getStatus_defaults_to_todo_witness :
  (forall m, ls_throws (mkLocalStorage false (Some Corrupt) None ∅ []) = false ->
             ls_status (mkLocalStorage false (Some Corrupt) None ∅ []) = Some (Usable m) ->
             m !! "ws-1" = None)
  /\ fst (getStatus "ws-1" (initial (mkLocalStorage false (Some Corrupt) None ∅ []))) = Todo
  /\ fst (getStatus "constructor"
            (initial (mkLocalStorage false (Some Corrupt) None ∅ [])))
     = Inherited "constructor".
Proof.
  assert (H : forall m : gmap string KanbanStatus,
             ls_throws (mkLocalStorage false (Some Corrupt) None ∅ []) = false ->
             ls_status (mkLocalStorage false (Some Corrupt) None ∅ []) = Some (Usable m) ->
             m !! "ws-1" = None).
  { intros m _ E. simpl in E. discriminate. }
  split; [exact H|]. split.
  - exact (getStatus_defaults_to_todo _ "ws-1" H).
  - reflexivity.
Defined.

(** X2.  After [setStatus w st], [getStatus] answers [st] for [w] and what
    it answered before for every other workspace, whatever the state of the
    browser storage: when storage access throws, the write is dropped, the
    storage is left as it was, and the cache alone carries the status. *)
Theorem setStatus_then_getStatus (s : Store) (w w' : string) (st : KanbanStatus) :
  fst (getStatus w' (setStatus w st s))
  = (if decide (w' = w) then st else fst (getStatus w' s))
  /\ (ls_throws (storage s) = true -> storage (setStatus w st s) = storage s).
Proof.
  split.
  - destruct (decide (w' = w)) as [->|Hne].
    + apply getStatus_setStatus.
    + apply getStatus_setStatus_ne. congruence.
  - intros Ht. rewrite setStatus_storage, Ht. reflexivity.
Qed.

(** X3.  When the browser storage accepts writes, what [setStatus] and
    [setReviewPending] record survives a restart: a store started afresh on
    the storage they leave behind answers [getStatus] and [isReviewPending]
    for every workspace exactly as the old store did. *)
Theorem stored_maps_survive_restart (s : Store) (w w' : string)
    (st : KanbanStatus) (b : bool) :
  ls_throws (storage s) = false ->
  fst (getStatus w' (initial (storage (setStatus w st s))))
  = fst (getStatus w' (setStatus w st s))
  /\ fst (isReviewPending w' (initial (storage (setReviewPending w b s))))
     = fst (isReviewPending w' (setReviewPending w b s)).
Proof.
  intros Ht. split.
  - rewrite !getStatus_reads.
    rewrite (read_cached _ _ (setStatus_cache w st s)).
    rewrite read_initial, setStatus_storage, Ht. reflexivity.
  - rewrite !isReviewPending_reads.
    rewrite (readReviewPending_cached _ _ (setReviewPending_cache w b s)).
    rewrite readReviewPending_initial, setReviewPending_ls, Ht. reflexivity.
Qed.

Lemma stored_maps_survive_restart_witness :
  ls_throws (storage (initial emptyStorage)) = false
  /\ fst (getStatus "ws-1"
            (initial (storage (setStatus "ws-1" Done (initial emptyStorage))))) = Done
  /\ fst (isReviewPending "ws-1"
            (initial (storage (setReviewPending "ws-1" true (initial emptyStorage))))) = true.
Proof.
  assert (H : ls_throws (storage (initial emptyStorage)) = false) by reflexivity.
  destruct (stored_maps_survive_restart (initial emptyStorage) "ws-1" "ws-1" Done true H)
    as [A B].
  split; [exact H|]. split.
  - rewrite A. vm_compute. reflexivity.
  - rewrite B. vm_compute. reflexivity.
Defined.

(** X4.  [setReviewPending w b] makes [isReviewPending] answer [b] for [w]
    and leaves the flag of every other workspace and every status as they
    were; clearing a flag removes the workspace's key from the map instead
    of storing [false]. *)
Theorem pending_flag_set_and_cleared (s : Store) (w w' : string) (b : bool) :
  fst (isReviewPending w' (setReviewPending w b s))
  = (if decide (w' = w) then b else fst (isReviewPending w' s))
  /\ fst (getStatus w' (setReviewPending w b s)) = fst (getStatus w' s)
  /\ fst (readReviewPending (clearReviewPending w s)) !! w = None.
Proof.
  split; [|split].
  - rewrite !isReviewPending_reads.
    rewrite (readReviewPending_cached _ _ (setReviewPending_cache w b s)). simpl.
    destruct (decide (w' = w)) as [->|Hne].
    + destruct b.
      * rewrite lookup_insert_eq. reflexivity.
      * rewrite lookup_delete_eq. reflexivity.
    + destruct b.
      * rewrite lookup_insert_ne by congruence. reflexivity.
      * rewrite lookup_delete_ne by congruence.
        rewrite lookup_insert_ne by congruence. reflexivity.
  - rewrite !getStatus_reads. f_equal.
    apply read_ext.
    + apply setReviewPending_statusCache.
    + rewrite setReviewPending_ls.
      destruct (ls_throws (storage s)) eqn:E; [exact E | reflexivity].
    + rewrite setReviewPending_ls.
      destruct (ls_throws (storage s)); reflexivity.
  - unfold clearReviewPending.
    rewrite (readReviewPending_cached _ _ (setReviewPending_cache w false s)). simpl.
    apply lookup_delete_eq.
Qed.

(** X5.  After [clearAll], [getAll] is empty and [getStatus] answers
    [todo] for every workspace id, except that for the name of a member of
    [Object.prototype] it answers that inherited member; the pending-review
    flags are untouched; when storage accepts writes the stored status map
    is the empty map. *)
Theorem clearAll_resets_statuses (s : Store) (w : string) :
  fst (getStatus w (clearAll s))
  = (if bool_decide (w ∈ objectPrototypeKeys) then Inherited w else Status Todo)
  /\ fst (getAll (clearAll s)) = ∅
  /\ fst (isReviewPending w (clearAll s)) = fst (isReviewPending w s)
  /\ (ls_throws (storage s) = false ->
      ls_status (storage (clearAll s)) = Some (Usable ∅)).
Proof.
  assert (Hc : cache (clearAll s) = Some ∅) by reflexivity.
  split; [|split; [|split]].
  - rewrite getStatus_reads, (read_cached _ _ Hc). simpl.
    unfold lookupOrTodo. rewrite lookup_empty. reflexivity.
  - unfold getAll. rewrite (read_cached _ _ Hc). reflexivity.
  - rewrite !isReviewPending_reads.
    rewrite (readReviewPending_ext (clearAll s) s); [reflexivity | reflexivity | ..];
      unfold clearAll, write; simpl; destruct (ls_throws (storage s)) eqn:E;
      simpl; auto.
  - intros Ht. unfold clearAll, write. simpl. rewrite Ht. reflexivity.
Qed.

End KanbanStoreMore.

(** ** reviewRunner.ts: isolation, requests, emissions, retries *)

Module ReviewRunnerMore.
Import ReviewRunner ReviewRunnerFacts ReviewRunnerViews.

(** *** Effects of the building blocks on one workspace *)

Lemma finish_other p t final s w :
  t_workspaceId t <> w ->
  states (finish p t final s) !! w = states s !! w
  /\ inflight (finish p t final s) !! w = inflight s !! w.
Proof.
  intros Hne. simpl. rewrite lookup_insert_ne by exact Hne.
  rewrite lookup_delete_ne by exact Hne. auto.
Qed.

Lemma continueLoop_other now p t files remaining s w :
  t_workspaceId t <> w ->
  states (continueLoop now p t files remaining s) !! w = states s !! w
  /\ inflight (continueLoop now p t files remaining s) !! w = inflight s !! w.
Proof.
  intros Hne. destruct remaining; simpl.
  - rewrite lookup_insert_ne by exact Hne.
    rewrite lookup_delete_ne by exact Hne. auto.
  - auto.
Qed.

Lemma launch_other now call w path s w' :
  w <> w' ->
  states (fst (launch now call w path s)) !! w' = states s !! w'
  /\ inflight (fst (launch now call w path s)) !! w' = inflight s !! w'.
Proof.
  intros Hne. unfold launch. destruct call; simpl;
    rewrite ?lookup_insert_ne by exact Hne;
    rewrite ?lookup_delete_ne by exact Hne; auto.
Qed.

Lemma startReview_other now call w path s w' :
  w <> w' ->
  states (fst (startReview now call w path s)) !! w' = states s !! w'
  /\ inflight (fst (startReview now call w path s)) !! w' = inflight s !! w'.
Proof.
  intros Hne. unfold startReview.
  destruct (inflight s !! w); [auto|].
  destruct (states s !! w) as [st|].
  - destruct (rs_status st); simpl; auto; apply launch_other; exact Hne.
  - apply launch_other; exact Hne.
Qed.

Lemma step_other s e w' :
  isReset e = false ->
  eventWorkspace e s <> Some w' ->
  states (step s e) !! w' = states s !! w'
  /\ inflight (step s e) !! w' = inflight s !! w'.
Proof.
  intros Hr Hw.
  destruct e as [now call w path|now p r|now p o|]; simpl in *; try discriminate.
  - apply startReview_other. congruence.
  - unfold resumeStatus. destruct (tasks s !! p) as [t|] eqn:Hp; [|auto].
    simpl in Hw. assert (Hne : t_workspaceId t <> w') by congruence.
    destruct (t_phase t); auto.
    destruct r as [res|e].
    + destruct (default false (gs_success <$> res)).
      * apply continueLoop_other. exact Hne.
      * apply finish_other. exact Hne.
    + apply finish_other. exact Hne.
  - unfold resumeDiff. destruct (tasks s !! p) as [t|] eqn:Hp; [|auto].
    simpl in Hw. assert (Hne : t_workspaceId t <> w') by congruence.
    destruct (t_phase t); auto.
    apply continueLoop_other. exact Hne.
Qed.

(** X6.  Workspaces are isolated from each other: an event about one
    workspace (a [startReview] call for it, or the resumption of one of its
    computations) leaves the recorded state and the in-flight entry of every
    other workspace as they were. *)
Theorem events_touch_one_workspace (s : Store) (e : Event) (w' : string) :
  isReset e = false ->
  eventWorkspace e s <> Some w' ->
  states (step s e) !! w' = states s !! w'
  /\ inflight (step s e) !! w' = inflight s !! w'
  /\ getReviewState w' (step s e) = getReviewState w' s.
Proof.
  intros Hr Hw.
  destruct (step_other s e w' Hr Hw) as [H1 H2].
  split; [exact H1|]. split; [exact H2|].
  unfold getReviewState. rewrite H1. reflexivity.
Qed.

Lemma events_touch_one_workspace_witness :
  isReset (EvStart 5 CallReturns "ws-2" "/tmp/ws-2") = false
  /\ eventWorkspace (EvStart 5 CallReturns "ws-2" "/tmp/ws-2")
       (run Scenarios.reviewedTwoFiles initial) <> Some "ws-1"
  /\ getReviewState "ws-1"
       (step (run Scenarios.reviewedTwoFiles initial)
             (EvStart 5 CallReturns "ws-2" "/tmp/ws-2"))
     = getReviewState "ws-1" (run Scenarios.reviewedTwoFiles initial).
Proof.
  assert (H1 : isReset (EvStart 5 CallReturns "ws-2" "/tmp/ws-2") = false)
    by reflexivity.
  assert (H2 : eventWorkspace (EvStart 5 CallReturns "ws-2" "/tmp/ws-2")
                 (run Scenarios.reviewedTwoFiles initial) <> Some "ws-1")
    by (simpl; discriminate).
  destruct (events_touch_one_workspace (run Scenarios.reviewedTwoFiles initial)
              (EvStart 5 CallReturns "ws-2" "/tmp/ws-2") "ws-1" H1 H2)
    as (_ & _ & C).
  split; [exact H1|]. split; [exact H2 | exact C].
Defined.

(** *** One successful run, with all its effects *)

Lemma loop_runs rest :
  forall files c os s p t,
    tasks s !! p = Some t ->
    t_phase t = AwaitDiff files c rest ->
    length os = S (length rest) ->
    exists fin,
      let final := successState (t_startedAt t) fin
                     (files ++ zip_with fileOf (c :: rest) os) in
      resolved p (resumeDiffs p os s) = Some final
      /\ states (resumeDiffs p os s) !! t_workspaceId t = Some final
      /\ fileDiffCalls (resumeDiffs p os s)
         = fileDiffCalls s ++ requestsOf (t_workspacePath t) rest
      /\ gitStatusCalls (resumeDiffs p os s) = gitStatusCalls s
      /\ emitted (resumeDiffs p os s) = emitted s ++ [(t_workspaceId t, final)].
Proof.
  induction rest as [|c' rest IH]; intros files c os s p t Hp Hph Hlen.
  - destruct os as [|o [|o' os]]; simpl in Hlen; try lia.
    exists (fst o). unfold resumeDiffs. simpl fold_left.
    unfold resumeDiff. rewrite Hp, Hph. simpl continueLoop.
    split; [apply (finish_resolved _ _ _ _ Hp)|].
    split; [apply finish_states|].
    split; [simpl; rewrite app_nil_r; reflexivity|].
    split; reflexivity.
  - destruct os as [|o os]; simpl in Hlen; [lia|].
    rewrite resumeDiffs_cons.
    set (s1 := resumeDiff (fst o) p (snd o) s).
    assert (Hs1 : s1 = enterDiff p t (files ++ [fileOf c o]) c' rest s).
    { unfold s1, resumeDiff. rewrite Hp, Hph. reflexivity. }
    assert (Hp1 : tasks s1 !! p =
                  Some (mkTask (t_workspaceId t) (t_workspacePath t) (t_startedAt t)
                          (AwaitDiff (files ++ [fileOf c o]) c' rest))).
    { rewrite Hs1. simpl. apply (lookup_replacePhase_eq _ _ _ _ Hp). }
    destruct (IH _ _ os s1 p _ Hp1 eq_refl) as (fin & R1 & R2 & R3 & R4 & R5); [lia|].
    exists fin. simpl in R1, R2, R3, R5. simpl zip_with.
    rewrite <- app_assoc in R1, R2, R5. simpl in R1, R2, R5.
    split; [exact R1|]. split; [exact R2|].
    split.
    { rewrite R3, Hs1. simpl. rewrite <- app_assoc. reflexivity. }
    split; [rewrite R4, Hs1; reflexivity|].
    rewrite R5, Hs1. reflexivity.
Qed.

(** The whole run after a successful answer of the VCS-status
    collaborator. *)
Lemma success_run s now p t res os :
  tasks s !! p = Some t ->
  t_phase t = AwaitStatus ->
  gs_success res = true ->
  length os = length (List.filter keepChange (default [] (gs_changes res))) ->
  let changes := List.filter keepChange (default [] (gs_changes res)) in
  let s' := resumeDiffs p os (resumeStatus now p (Fulfilled (Some res)) s) in
  exists fin,
    let final := successState (t_startedAt t) fin (zip_with fileOf changes os) in
    resolved p s' = Some final
    /\ states s' !! t_workspaceId t = Some final
    /\ fileDiffCalls s' = fileDiffCalls s ++ requestsOf (t_workspacePath t) changes
    /\ gitStatusCalls s' = gitStatusCalls s
    /\ emitted s' = emitted s ++ [(t_workspaceId t, final)].
Proof.
  intros Hp Hph Hsucc Hlen changes s'.
  assert (Hresume : resumeStatus now p (Fulfilled (Some res)) s
                    = continueLoop now p t [] changes s).
  { unfold resumeStatus. rewrite Hp, Hph. simpl. rewrite Hsucc. reflexivity. }
  fold changes in Hlen. subst s'. rewrite Hresume.
  destruct changes as [|c rest] eqn:Hch.
  - destruct os; simpl in Hlen; [|lia]. exists now. simpl.
    split; [apply (finish_resolved _ _ _ _ Hp)|].
    split; [apply lookup_insert_eq|].
    split; [rewrite app_nil_r; reflexivity|]. split; reflexivity.
  - simpl continueLoop.
    assert (Hp1 : tasks (enterDiff p t [] c rest s) !! p =
                  Some (mkTask (t_workspaceId t) (t_workspacePath t) (t_startedAt t)
                          (AwaitDiff [] c rest))).
    { simpl. apply (lookup_replacePhase_eq _ _ _ _ Hp). }
    destruct (loop_runs rest [] c os _ p _ Hp1 eq_refl)
      as (fin & R1 & R2 & R3 & R4 & R5).
    { simpl in Hlen. exact Hlen. }
    exists fin. simpl in *.
    split; [exact R1|]. split; [exact R2|].
    split; [rewrite R3, <- app_assoc; reflexivity|].
    split; [exact R4 | exact R5].
Qed.

Lemma filter_keepChange_Forall (l : list GitChange) :
  Forall (fun c => String.prefix ".emdash/" (gc_path c) = false
                   /\ gc_path c <> "PLANNING.md")
         (List.filter keepChange l).
Proof.
  induction l as [|c l IH]; simpl; [constructor|].
  destruct (keepChange c) eqn:E; [|exact IH].
  constructor; [|exact IH].
  unfold keepChange in E. apply andb_prop in E as [E1 E2].
  apply negb_true_iff in E1. apply negb_true_iff in E2.
  split; [exact E1|]. apply String.eqb_neq. exact E2.
Qed.

Lemma zip_files_paths changes :
  forall os, length os = length changes ->
  rf_path <$> zip_with fileOf changes os = gc_path <$> changes.
Proof.
  induction changes as [|c changes IH]; intros os Hlen; [reflexivity|].
  destruct os as [|o os]; simpl in Hlen; [lia|].
  simpl. f_equal. apply IH. lia.
Qed.

Lemma zip_files_Forall (P : string -> Prop) changes :
  forall os, Forall (fun c => P (gc_path c)) changes ->
  Forall (fun f => P (rf_path f)) (zip_with fileOf changes os).
Proof.
  induction changes as [|c changes IH]; intros os H; [constructor|].
  apply Forall_cons in H as [Hc Hcs].
  destruct os as [|o os]; [constructor|].
  simpl. constructor; [exact Hc | apply IH; exact Hcs].
Qed.

(** X7.  In a run whose VCS-status answer succeeds, [getFileDiff] is
    requested exactly once for every change left by the path filter, in
    the order of the answer and with the workspace path, and
    [getGitStatus] is not called again.  The files of the resulting state
    are exactly those changes: nothing under [.emdash/] and no
    [PLANNING.md] is requested or listed. *)
Theorem diffs_requested_for_kept_changes
    (s : Store) (now : Z) (p : nat) (t : Task) (res : GitStatusResponse)
    (os : list (Z * DiffOutcome)) :
  tasks s !! p = Some t ->
  t_phase t = AwaitStatus ->
  gs_success res = true ->
  length os = length (List.filter keepChange (default [] (gs_changes res))) ->
  let changes := List.filter keepChange (default [] (gs_changes res)) in
  let s' := resumeDiffs p os (resumeStatus now p (Fulfilled (Some res)) s) in
  fileDiffCalls s' = fileDiffCalls s ++ requestsOf (t_workspacePath t) changes
  /\ gitStatusCalls s' = gitStatusCalls s
  /\ exists st,
       resolved p s' = Some st
       /\ rf_path <$> rs_files st = gc_path <$> changes
       /\ Forall (fun f => String.prefix ".emdash/" (rf_path f) = false
                           /\ rf_path f <> "PLANNING.md")
                 (rs_files st).
Proof.
  intros Hp Hph Hsucc Hlen changes s'.
  destruct (success_run s now p t res os Hp Hph Hsucc Hlen)
    as (fin & R1 & _ & R3 & R4 & _).
  fold changes in Hlen.
  split; [exact R3|]. split; [exact R4|].
  eexists. split; [exact R1|].
  assert (Hpaths : rf_path <$> zip_with fileOf changes os = gc_path <$> changes)
    by (apply zip_files_paths; exact Hlen).
  split; [exact Hpaths|]. simpl.
  apply (zip_files_Forall
           (fun path => String.prefix ".emdash/" path = false
                        /\ path <> "PLANNING.md")).
  apply filter_keepChange_Forall.
Qed.

Lemma diffs_requested_for_kept_changes_witness :
  let s := fst (startReview 1 CallReturns "ws-1" "/tmp/ws-1" initial) in
  let t := mkTask "ws-1" "/tmp/ws-1" 1 AwaitStatus in
  let res := mkGitStatusResponse true None
               (Some [mkGitChange ".emdash/state.json" "M" 1 1;
                      mkGitChange "src/index.ts" "M" 5 2;
                      mkGitChange "PLANNING.md" "A" 3 0]) in
  tasks s !! 0%nat = Some t
  /\ t_phase t = AwaitStatus
  /\ gs_success res = true
  /\ length [Scenarios.addLine]
     = length (List.filter keepChange (default [] (gs_changes res)))
  /\ fileDiffCalls (resumeDiffs 0 [Scenarios.addLine]
                      (resumeStatus 2 0 (Fulfilled (Some res)) s))
     = [("/tmp/ws-1", "src/index.ts")].
Proof.
  intros s t res.
  assert (H1 : tasks s !! 0%nat = Some t) by reflexivity.
  assert (H2 : t_phase t = AwaitStatus) by reflexivity.
  assert (H3 : gs_success res = true) by reflexivity.
  assert (H4 : length [Scenarios.addLine]
               = length (List.filter keepChange (default [] (gs_changes res))))
    by reflexivity.
  destruct (diffs_requested_for_kept_changes s 2 0 t res [Scenarios.addLine]
              H1 H2 H3 H4) as (A & _).
  split; [exact H1|]. split; [exact H2|]. split; [exact H3|]. split; [exact H4|].
  rewrite A. vm_compute. reflexivity.
Defined.

(** X8.  A [startReview] call that starts a computation publishes the
    running state (started at the time of the call) before it returns: it is
    the recorded state and the one emission of the call.  When the run then
    succeeds, the only further emission is the final state, which keeps the
    start time of the call and is the recorded state from then on. *)
Theorem review_emits_running_then_result
    (s : Store) (now now' : Z) (w path : string) (res : GitStatusResponse)
    (os : list (Z * DiffOutcome)) :
  startsFresh w s ->
  gs_success res = true ->
  length os = length (List.filter keepChange (default [] (gs_changes res))) ->
  let r := startReview now CallReturns w path s in
  let s' := resumeDiffs (length (tasks s)) os
              (resumeStatus now' (length (tasks s)) (Fulfilled (Some res)) (fst r)) in
  getReviewState w (fst r) = runningState now
  /\ emitted (fst r) = emitted s ++ [(w, runningState now)]
  /\ exists final,
       outcome (snd r) s' = Some final
       /\ rs_status final = success
       /\ rs_startedAt final = now
       /\ getReviewState w s' = final
       /\ emitted s' = emitted s ++ [(w, runningState now); (w, final)].
Proof.
  intros Hfresh Hsucc Hlen r s'. subst r s'.
  rewrite (startReview_fresh _ _ _ _ _ Hfresh).
  destruct (launch_returns_task now w path s) as (H1 & _).
  assert (Hem : emitted (fst (launch now CallReturns w path s))
                = emitted s ++ [(w, runningState now)]) by reflexivity.
  split.
  { unfold getReviewState, launch. simpl. rewrite lookup_insert_eq. reflexivity. }
  split; [exact Hem|].
  destruct (success_run _ now' _ _ res os H1 eq_refl Hsucc Hlen)
    as (fin & R1 & R2 & _ & _ & R5).
  eexists. split; [exact R1|]. split; [reflexivity|]. split; [reflexivity|].
  split.
  { unfold getReviewState. cbn [t_workspaceId] in R2. rewrite R2. reflexivity. }
  rewrite R5, Hem, <- app_assoc. reflexivity.
Qed.

Lemma review_emits_running_then_result_witness :
  startsFresh "ws-1" initial
  /\ gs_success Scenarios.twoChanges = true
  /\ length [Scenarios.addLine; Scenarios.addLine]
     = length (List.filter keepChange (default [] (gs_changes Scenarios.twoChanges)))
  /\ (fun e => rs_status (snd e)) <$>
       emitted (resumeDiffs 0 [Scenarios.addLine; Scenarios.addLine]
                  (resumeStatus 2 0 (Fulfilled (Some Scenarios.twoChanges))
                     (fst (startReview 1 CallReturns "ws-1" "/tmp/ws-1" initial))))
     = [running; success].
Proof.
  assert (H1 : startsFresh "ws-1" initial) by apply startsFresh_initial.
  assert (H2 : gs_success Scenarios.twoChanges = true) by reflexivity.
  assert (H3 : length [Scenarios.addLine; Scenarios.addLine]
               = length (List.filter keepChange
                           (default [] (gs_changes Scenarios.twoChanges))))
    by reflexivity.
  destruct (review_emits_running_then_result initial 1 2 "ws-1" "/tmp/ws-1"
              Scenarios.twoChanges [Scenarios.addLine; Scenarios.addLine] H1 H2 H3)
    as (_ & _ & final & _ & B & _ & _ & E).
  split; [exact H1|]. split; [exact H2|]. split; [exact H3|].
  change (length (tasks initial)) with 0%nat in E.
  rewrite E. simpl. rewrite B. reflexivity.
Defined.

(** *** After a failure *)

Lemma finish_inflight p t final s :
  inflight (finish p t final s) !! t_workspaceId t = None.
Proof. simpl. apply lookup_delete_eq. Qed.

(** A failing answer after the [await] runs the [catch] branch with some
    message. *)
Lemma resumeStatus_afterAwait now p t f s :
  tasks s !! p = Some t -> t_phase t = AwaitStatus -> afterAwait f = true ->
  exists msg,
    resumeStatus now p
      (match f with
       | Throws e | Rejects e => Rejected e
       | Reports m changes => Fulfilled (Some (mkGitStatusResponse false (Some m) changes))
       end) s
    = finish p t (failureState (t_startedAt t) now msg) s.
Proof.
  intros Hp Hph Hf. unfold resumeStatus. rewrite Hp, Hph.
  destruct f as [e|e|m changes]; [discriminate| |]; eexists; reflexivity.
Qed.

(** X9.  A review that failed after the [await] (the VCS-status promise
    rejected, or answered [success: false]) can be retried: the failure is
    recorded with status [error], the in-flight entry is gone, and the next
    [startReview] call for the workspace starts a new computation that
    publishes [running] again and calls [getGitStatus] once more. *)
Theorem failed_review_can_be_retried
    (s : Store) (now now' now2 : Z) (f : VcsFailure) (w path path2 : string) :
  startsFresh w s ->
  afterAwait f = true ->
  let s1 := fst (startReviewFailing now now' f w path s) in
  let r2 := startReview now2 CallReturns w path2 s1 in
  rs_status (getReviewState w s1) = error
  /\ inflight s1 !! w = None
  /\ snd r2 = RetPromise (S (length (tasks s)))
  /\ gitStatusCalls (fst r2) = gitStatusCalls s ++ [path; path2]
  /\ getReviewState w (fst r2) = runningState now2.
Proof.
  intros Hfresh Hf s1 r2.
  destruct (launch_returns_task now w path s) as (H1 & H2 & H3 & H4).
  destruct (resumeStatus_afterAwait now' _ _ f _ H1 eq_refl Hf) as (msg & Hres).
  assert (Hs1 : s1 = finish (length (tasks s)) (mkTask w path now AwaitStatus)
                       (failureState now now' msg)
                       (fst (launch now CallReturns w path s))).
  { subst s1. unfold startReviewFailing.
    destruct f as [e|e|m changes]; [discriminate| |];
      rewrite (startReview_fresh _ _ _ _ _ Hfresh); cbn [fst]; exact Hres. }
  assert (Hst : states s1 !! w = Some (failureState now now' msg)).
  { rewrite Hs1. apply (finish_states _ (mkTask w path now AwaitStatus)). }
  assert (Hin : inflight s1 !! w = None).
  { rewrite Hs1. apply (finish_inflight _ (mkTask w path now AwaitStatus)). }
  assert (Hfresh1 : startsFresh w s1).
  { split; [exact Hin|]. intros st E. rewrite Hst in E. inversion E.
    split; discriminate. }
  assert (Hlen : length (tasks s1) = S (length (tasks s))).
  { rewrite Hs1. simpl. rewrite length_replacePhase. exact H4. }
  assert (Hgit : gitStatusCalls s1 = gitStatusCalls s ++ [path]).
  { rewrite Hs1. exact H2. }
  split; [unfold getReviewState; rewrite Hst; reflexivity|].
  split; [exact Hin|].
  subst r2. rewrite (startReview_fresh _ _ _ _ _ Hfresh1).
  split; [rewrite launch_returns, Hlen; reflexivity|].
  split.
  { rewrite launch_gitStatusCalls, Hgit, <- app_assoc. reflexivity. }
  unfold getReviewState, launch. simpl. rewrite lookup_insert_eq. reflexivity.
Qed.

Lemma failed_review_can_be_retried_witness :
  startsFresh "ws-fail" initial
  /\ afterAwait (Reports "boom" None) = true
  /\ gitStatusCalls
       (fst (startReview 3 CallReturns "ws-fail" "/tmp/ws-fail"
               (fst (startReviewFailing 1 2 (Reports "boom" None)
                       "ws-fail" "/tmp/ws-fail" initial))))
     = ["/tmp/ws-fail"; "/tmp/ws-fail"].
Proof.
  assert (H1 : startsFresh "ws-fail" initial) by apply startsFresh_initial.
  assert (H2 : afterAwait (Reports "boom" None) = true) by reflexivity.
  destruct (failed_review_can_be_retried initial 1 2 3 (Reports "boom" None)
              "ws-fail" "/tmp/ws-fail" "/tmp/ws-fail" H1 H2) as (_ & _ & _ & D & _).
  split; [exact H1|]. split; [exact H2 | exact D].
Defined.

(** *** Where running computations come from *)

Lemma unfinished_origin s e q t' :
  tasks (step s e) !! q = Some t' ->
  unfinished t' = true ->
  (exists t, tasks s !! q = Some t /\ unfinished t = true
             /\ t_workspaceId t = t_workspaceId t')
  \/ (exists now call w path,
        e = EvStart now call w path /\ inflight s !! w = None
        /\ q = length (tasks s) /\ t_workspaceId t' = w
        /\ forall x, call <> CallThrows x).
Proof.
  intros Hq Hun.
  assert (Hsame : forall p ph t,
            tasks s !! p = Some t -> unfinished t = true ->
            replacePhase p ph (tasks s) !! q = Some t' ->
            exists t0, tasks s !! q = Some t0 /\ unfinished t0 = true
                       /\ t_workspaceId t0 = t_workspaceId t').
  { intros p ph t Hp Hup Hrq. destruct (decide (p = q)) as [->|Hne].
    - rewrite (lookup_replacePhase_eq _ _ _ _ Hp) in Hrq. inversion Hrq; subst t'.
      exists t. auto.
    - rewrite lookup_replacePhase_ne in Hrq by exact Hne. exists t'. auto. }
  destruct e as [now call w path|now p r|now p o|]; simpl in Hq.
  - unfold startReview in Hq.
    destruct (inflight s !! w) eqn:Hin; [left; exists t'; auto|].
    assert (Hl : tasks (fst (launch now call w path s)) !! q = Some t' ->
                 (exists t, tasks s !! q = Some t /\ unfinished t = true
                            /\ t_workspaceId t = t_workspaceId t')
                 \/ (exists now0 call0 w0 path0,
                       EvStart now call w path = EvStart now0 call0 w0 path0
                       /\ inflight s !! w0 = None /\ q = length (tasks s)
                       /\ t_workspaceId t' = w0
                       /\ forall x, call0 <> CallThrows x)).
    { intros Hl. unfold launch in Hl. destruct call as [|e|]; simpl in Hl.
      - destruct (lookup_snoc_task _ _ _ _ Hl) as [[H0 _]|[-> ->]].
        + left. exists t'. auto.
        + right. exists now, ApiMissing, w, path. repeat split; auto; discriminate.
      - destruct (decide (length (tasks s) = q)) as [<-|Hne].
        + rewrite (lookup_replacePhase_eq _ _ _ _ (snoc_lookup_last (tasks s) _)) in Hl.
          inversion Hl; subst t'. discriminate.
        + rewrite lookup_replacePhase_ne in Hl by exact Hne.
          destruct (lookup_snoc_task _ _ _ _ Hl) as [[H0 _]|[-> _]]; [|congruence].
          left. exists t'. auto.
      - destruct (lookup_snoc_task _ _ _ _ Hl) as [[H0 _]|[-> ->]].
        + left. exists t'. auto.
        + right. exists now, CallReturns, w, path. repeat split; auto; discriminate. }
    destruct (states s !! w) as [st|]; [|apply Hl; exact Hq].
    destruct (rs_status st); simpl in Hq;
      try (left; exists t'; auto; fail); apply Hl; exact Hq.
  - left. unfold resumeStatus in Hq.
    destruct (tasks s !! p) as [t|] eqn:Hp; [|exists t'; auto].
    destruct (t_phase t) eqn:Hph; try (exists t'; auto; fail).
    assert (Hup : unfinished t = true) by (unfold unfinished; rewrite Hph; reflexivity).
    destruct r as [res|e].
    + destruct (default false (gs_success <$> res)).
      * destruct (List.filter keepChange (default [] (res ≫= gs_changes)));
          simpl in Hq; apply (Hsame _ _ _ Hp Hup Hq).
      * simpl in Hq. apply (Hsame _ _ _ Hp Hup Hq).
    + simpl in Hq. apply (Hsame _ _ _ Hp Hup Hq).
  - left. unfold resumeDiff in Hq.
    destruct (tasks s !! p) as [t|] eqn:Hp; [|exists t'; auto].
    destruct (t_phase t) eqn:Hph; try (exists t'; auto; fail).
    assert (Hup : unfinished t = true) by (unfold unfinished; rewrite Hph; reflexivity).
    destruct rest; simpl in Hq; apply (Hsame _ _ _ Hp Hup Hq).
  - left. exists t'. auto.
Qed.

(** *** Invariants of the published state *)

Lemma launch_keeps_task now call w path s p t :
  tasks s !! p = Some t -> tasks (fst (launch now call w path s)) !! p = Some t.
Proof.
  intros Hp. pose proof (lookup_lt_Some _ _ _ Hp) as Hlt.
  unfold launch. destruct call; simpl;
    rewrite ?lookup_replacePhase_ne by lia;
    apply lookup_app_l_Some; exact Hp.
Qed.

Lemma runningHasTask_initial : runningHasTask initial.
Proof. intros w st H. simpl in H. rewrite lookup_empty in H. discriminate. Qed.

Lemma runningHasTask_launch now call w0 path s :
  runningHasTask s -> runningHasTask (fst (launch now call w0 path s)).
Proof.
  intros H w st. destruct (decide (w0 = w)) as [->|Hne].
  - unfold launch. destruct call as [|e|]; simpl; rewrite !lookup_insert_eq;
      intros E R; inversion E; subst st; try discriminate;
      exists (length (tasks s)), (mkTask w path now AwaitStatus);
      (split; [reflexivity|]); (split; [apply snoc_lookup_last|]); auto.
  - destruct (launch_other now call w0 path s w Hne) as [E1 E2].
    rewrite E1, E2. intros Hst R.
    destruct (H w st Hst R) as (p & t & Hp & Ht & Hw & Hu).
    exists p, t. split; [exact Hp|]. split; [|auto].
    apply launch_keeps_task. exact Ht.
Qed.

Lemma runningHasTask_finish q t0 final s :
  tasks s !! q = Some t0 -> rs_status final <> running ->
  runningHasTask s -> runningHasTask (finish q t0 final s).
Proof.
  intros Hq Hfin H w st. destruct (decide (t_workspaceId t0 = w)) as [<-|Hne].
  - rewrite finish_states. intros E R. inversion E; subst st. contradiction.
  - destruct (finish_other q t0 final s w Hne) as [E1 E2]. rewrite E1, E2.
    intros Hst R. destruct (H w st Hst R) as (p & t & Hp & Ht & Hw & Hu).
    exists p, t. split; [exact Hp|]. split; [|auto].
    simpl. rewrite lookup_replacePhase_ne; [exact Ht|].
    intros ->. congruence.
Qed.

Lemma runningHasTask_continueLoop now q t0 files remaining s :
  tasks s !! q = Some t0 ->
  runningHasTask s -> runningHasTask (continueLoop now q t0 files remaining s).
Proof.
  intros Hq H. destruct remaining as [|c rest]; simpl.
  - apply runningHasTask_finish; [exact Hq|discriminate|exact H].
  - intros w st Hst R. simpl in Hst.
    destruct (H w st Hst R) as (p & t & Hp & Ht & Hw & Hu).
    destruct (decide (q = p)) as [->|Hne].
    + exists p, (mkTask (t_workspaceId t) (t_workspacePath t) (t_startedAt t)
                       (AwaitDiff files c rest)).
      split; [exact Hp|]. split; [|auto].
      simpl. apply (lookup_replacePhase_eq _ _ _ _ Ht).
    + exists p, t. split; [exact Hp|]. split; [|auto].
      simpl. rewrite lookup_replacePhase_ne by exact Hne. exact Ht.
Qed.

Lemma runningHasTask_step s e : runningHasTask s -> runningHasTask (step s e).
Proof.
  intros H. destruct e as [now call w path|now p r|now p o|]; simpl.
  - unfold startReview. destruct (inflight s !! w); [exact H|].
    destruct (states s !! w) as [st|]; [|apply runningHasTask_launch; exact H].
    destruct (rs_status st); simpl; try exact H;
      apply runningHasTask_launch; exact H.
  - unfold resumeStatus. destruct (tasks s !! p) as [t|] eqn:Hp; [|exact H].
    destruct (t_phase t); try exact H.
    destruct r as [res|e].
    + destruct (default false (gs_success <$> res)).
      * apply runningHasTask_continueLoop; assumption.
      * apply runningHasTask_finish; [exact Hp|discriminate|exact H].
    + apply runningHasTask_finish; [exact Hp|discriminate|exact H].
  - unfold resumeDiff. destruct (tasks s !! p) as [t|] eqn:Hp; [|exact H].
    destruct (t_phase t); try exact H.
    apply runningHasTask_continueLoop; assumption.
  - intros w st E. simpl in E. rewrite lookup_empty in E. discriminate.
Qed.

Lemma runningHasTask_run evs s : runningHasTask s -> runningHasTask (run evs s).
Proof.
  revert s. induction evs as [|e evs IH]; intros s H; [exact H|].
  simpl. apply IH. apply runningHasTask_step. exact H.
Qed.

(** X10.  Whatever the history of calls, resumptions and resets: when the
    recorded state of a workspace is [running], the in-flight map holds a
    promise for it, and that promise is a computation of this workspace that
    has not finished.  So [startReview] never answers with a state that is
    still [running]: a state returned directly is a finished [success], and
    the call left the store as it was. *)
Theorem running_state_has_live_promise (evs : list Event) (w : string) :
  (rs_status (getReviewState w (run evs initial)) = running ->
   exists p t, inflight (run evs initial) !! w = Some p
               /\ tasks (run evs initial) !! p = Some t
               /\ t_workspaceId t = w /\ unfinished t = true)
  /\ (forall now call path st,
        snd (startReview now call w path (run evs initial)) = RetState st ->
        rs_status st = success
        /\ states (run evs initial) !! w = Some st
        /\ fst (startReview now call w path (run evs initial)) = run evs initial).
Proof.
  pose proof (runningHasTask_run evs initial runningHasTask_initial) as H.
  set (s := run evs initial) in *. split.
  - unfold getReviewState. destruct (states s !! w) as [st|] eqn:Hst.
    + simpl. intros R. apply (H w st Hst R).
    + simpl. discriminate.
  - intros now call path st. unfold startReview.
    destruct (inflight s !! w) eqn:Hin; [discriminate|].
    destruct (states s !! w) as [st0|] eqn:Hst.
    + destruct (rs_status st0) eqn:R.
      * rewrite launch_returns. discriminate.
      * destruct (H w st0 Hst R) as (p & t & Hp & _). congruence.
      * simpl. intros E. inversion E; subst st0. auto.
      * rewrite launch_returns. discriminate.
    + rewrite launch_returns. discriminate.
Qed.

(** *** While a computation runs *)

Lemma tracked_step s e : isReset e = false -> tracked s -> tracked (step s e).
Proof.
  intros Hr Htr. destruct e; simpl in *; try discriminate.
  - apply tracked_startReview; assumption.
  - apply tracked_resumeStatus; assumption.
  - apply tracked_resumeDiff; assumption.
Qed.

Lemma unfinished_phase t : unfinished t = false -> exists st, t_phase t = Finished st.
Proof. unfold unfinished. destruct (t_phase t); try discriminate. eauto. Qed.

Lemma runningWhileUnfinished_step s e :
  isReset e = false -> tracked s ->
  runningWhileUnfinished s -> runningWhileUnfinished (step s e).
Proof.
  intros Hr Htr H q t' Hq Hun'.
  destruct (unfinished_origin s e q t' Hq Hun')
    as [(t & Ht & Hun & Hw)|(now & call & w & path & -> & Hin & -> & Hw & Hcall)].
  - rewrite <- Hw. destruct (H q t Ht Hun) as (st & Hst & R).
    destruct (decide (eventWorkspace e s = Some (t_workspaceId t))) as [He|He].
    + exists st. split; [|exact R].
      destruct e as [now call w path|now p r|now p o|]; simpl in *; try discriminate.
      * inversion He; subst w. unfold startReview.
        rewrite (Htr q t Ht Hun). exact Hst.
      * unfold resumeStatus in *. destruct (tasks s !! p) as [t0|] eqn:Hp; [|exact Hst].
        simpl in He. inversion He as [He'].
        destruct (t_phase t0) eqn:Hph; try (rewrite He'; exact Hst).
        assert (Hu0 : unfinished t0 = true)
          by (unfold unfinished; rewrite Hph; reflexivity).
        assert (p = q) as ->.
        { pose proof (Htr p t0 Hp Hu0) as A. pose proof (Htr q t Ht Hun) as B.
          rewrite He' in A. congruence. }
        assert (t0 = t) as -> by congruence.
        destruct r as [res|e].
        -- destruct (default false (gs_success <$> res)).
           ++ destruct (List.filter keepChange (default [] (res ≫= gs_changes)));
                simpl in *; [|exact Hst].
              rewrite (lookup_replacePhase_eq _ _ _ _ Ht) in Hq.
              inversion Hq; subst t'. discriminate.
           ++ simpl in Hq. rewrite (lookup_replacePhase_eq _ _ _ _ Ht) in Hq.
              inversion Hq; subst t'. discriminate.
        -- simpl in Hq. rewrite (lookup_replacePhase_eq _ _ _ _ Ht) in Hq.
           inversion Hq; subst t'. discriminate.
      * unfold resumeDiff in *. destruct (tasks s !! p) as [t0|] eqn:Hp; [|exact Hst].
        simpl in He. inversion He as [He'].
        destruct (t_phase t0) eqn:Hph; try (rewrite He'; exact Hst).
        assert (Hu0 : unfinished t0 = true)
          by (unfold unfinished; rewrite Hph; reflexivity).
        assert (p = q) as ->.
        { pose proof (Htr p t0 Hp Hu0) as A. pose proof (Htr q t Ht Hun) as B.
          rewrite He' in A. congruence. }
        assert (t0 = t) as -> by congruence.
        destruct rest; simpl in *; [|exact Hst].
        rewrite (lookup_replacePhase_eq _ _ _ _ Ht) in Hq.
        inversion Hq; subst t'. discriminate.
    + destruct (step_other s e _ Hr He) as [E1 _]. rewrite E1. eauto.
  - rewrite Hw.
    assert (Hl : exists st, states (fst (launch now call w path s)) !! w = Some st
                            /\ rs_status st = running).
    { destruct call as [|x|]; [| destruct (Hcall x eq_refl) |];
        eexists; (split; [unfold launch; simpl; apply lookup_insert_eq|reflexivity]). }
    assert (Hold : tasks s !! length (tasks s) = Some t' -> False).
    { intros A. apply lookup_lt_Some in A. lia. }
    simpl in *. unfold startReview in *. rewrite Hin in *.
    destruct (states s !! w) as [st|]; [|exact Hl].
    destruct (rs_status st); simpl in *;
      try exact Hl; destruct (Hold Hq).
Qed.

Lemma runningWhileUnfinished_run evs s :
  resetFree evs = true -> tracked s -> runningWhileUnfinished s ->
  runningWhileUnfinished (run evs s).
Proof.
  revert s. induction evs as [|e evs IH]; intros s Hrf Htr H; [exact H|].
  simpl in Hrf. apply andb_prop in Hrf as [He Hrf].
  apply negb_true_iff in He.
  simpl. apply IH; [exact Hrf| |].
  - apply tracked_step; assumption.
  - apply runningWhileUnfinished_step; assumption.
Qed.

(** X11.  As long as [resetReviewState] is not called: while a review
    computation has not finished, the recorded state of its workspace is
    [running] and the in-flight map holds exactly this computation for the
    workspace.  Subscribers and [getReviewState] therefore never see an
    [idle], [success] or [error] state for a workspace whose review is still
    collecting diffs. *)
Theorem unfinished_review_shows_running
    (evs : list Event) (p : nat) (t : Task) :
  resetFree evs = true ->
  tasks (run evs initial) !! p = Some t ->
  unfinished t = true ->
  rs_status (getReviewState (t_workspaceId t) (run evs initial)) = running
  /\ inflight (run evs initial) !! t_workspaceId t = Some p.
Proof.
  intros Hrf Hp Hun. split.
  - assert (H : runningWhileUnfinished (run evs initial)).
    { apply runningWhileUnfinished_run; [exact Hrf|apply tracked_initial|].
      intros q t0 A. simpl in A. rewrite lookup_nil in A. discriminate. }
    destruct (H p t Hp Hun) as (st & Hst & R).
    unfold getReviewState. rewrite Hst. exact R.
  - apply (tracked_run evs initial Hrf tracked_initial p t Hp Hun).
Qed.

Lemma unfinished_review_shows_running_witness :
  rs_status
    (getReviewState "ws-1"
       (run [EvStart 1 CallReturns "ws-1" "/tmp/ws-1";
             EvStatus 2 0 (Fulfilled (Some Scenarios.twoChanges))]
            initial)) = running.
Proof.
  apply (unfinished_review_shows_running
           [EvStart 1 CallReturns "ws-1" "/tmp/ws-1";
            EvStatus 2 0 (Fulfilled (Some Scenarios.twoChanges))]
           0%nat
           (mkTask "ws-1" "/tmp/ws-1" 1
              (AwaitDiff [] (mkGitChange "src/index.ts" "M" 5 2)
                         [mkGitChange "README.md" "A" 10 0])));
    reflexivity.
Defined.

(** *** After a synchronous throw *)

Lemma stuckOn_noop w p s e :
  stuckOn w p s -> eventWorkspace e s = Some w -> step s e = s.
Proof.
  intros [Hin Hno] He.
  destruct e as [now call w0 path|now q r|now q o|]; simpl in *; try discriminate.
  - inversion He; subst w0. unfold startReview. rewrite Hin. reflexivity.
  - unfold resumeStatus. destruct (tasks s !! q) as [t|] eqn:Hq; [|reflexivity].
    simpl in He. inversion He as [Hw].
    destruct (unfinished_phase t (Hno q t Hq Hw)) as [st ->]. reflexivity.
  - unfold resumeDiff. destruct (tasks s !! q) as [t|] eqn:Hq; [|reflexivity].
    simpl in He. inversion He as [Hw].
    destruct (unfinished_phase t (Hno q t Hq Hw)) as [st ->]. reflexivity.
Qed.

Lemma stuckOn_step w p s e :
  isReset e = false -> stuckOn w p s ->
  stuckOn w p (step s e) /\ states (step s e) !! w = states s !! w.
Proof.
  intros Hr Hst.
  destruct (decide (eventWorkspace e s = Some w)) as [He|He].
  - rewrite (stuckOn_noop w p s e Hst He). auto.
  - destruct (step_other s e w Hr He) as [E1 E2].
    destruct Hst as [Hin Hno]. split; [|exact E1]. split; [congruence|].
    intros q t' Hq Hw. destruct (unfinished t') eqn:Hun; [|reflexivity].
    destruct (unfinished_origin s e q t' Hq Hun)
      as [(t & Ht & Hu & Hw')|(now & call & w0 & path & -> & _ & _ & Hw' & _)].
    + rewrite <- Hu. apply (Hno q t Ht). congruence.
    + simpl in He. congruence.
Qed.

Lemma finished_task_step s e p t :
  tasks s !! p = Some t -> unfinished t = false -> tasks (step s e) !! p = Some t.
Proof.
  intros Hp Hun.
  assert (Hrep : forall q t0 ph, tasks s !! q = Some t0 -> unfinished t0 = true ->
                                 replacePhase q ph (tasks s) !! p = Some t).
  { intros q t0 ph Hq Hu0. rewrite lookup_replacePhase_ne; [exact Hp|].
    intros ->. congruence. }
  destruct e as [now call w path|now q r|now q o|]; simpl.
  - unfold startReview. destruct (inflight s !! w); [exact Hp|].
    destruct (states s !! w) as [st|]; [|apply launch_keeps_task; exact Hp].
    destruct (rs_status st); simpl; try exact Hp; apply launch_keeps_task; exact Hp.
  - unfold resumeStatus. destruct (tasks s !! q) as [t0|] eqn:Hq; [|exact Hp].
    destruct (t_phase t0) eqn:Hph; try exact Hp.
    assert (Hu0 : unfinished t0 = true)
      by (unfold unfinished; rewrite Hph; reflexivity).
    destruct r as [res|e].
    + destruct (default false (gs_success <$> res)).
      * destruct (List.filter keepChange (default [] (res ≫= gs_changes)));
          simpl; apply (Hrep _ _ _ Hq Hu0).
      * simpl. apply (Hrep _ _ _ Hq Hu0).
    + simpl. apply (Hrep _ _ _ Hq Hu0).
  - unfold resumeDiff. destruct (tasks s !! q) as [t0|] eqn:Hq; [|exact Hp].
    destruct (t_phase t0) eqn:Hph; try exact Hp.
    assert (Hu0 : unfinished t0 = true)
      by (unfold unfinished; rewrite Hph; reflexivity).
    destruct rest; simpl; apply (Hrep _ _ _ Hq Hu0).
  - exact Hp.
Qed.

Lemma stuckOn_run w p t evs s :
  resetFree evs = true -> stuckOn w p s ->
  tasks s !! p = Some t -> unfinished t = false ->
  stuckOn w p (run evs s) /\ states (run evs s) !! w = states s !! w
  /\ tasks (run evs s) !! p = Some t.
Proof.
  revert s. induction evs as [|e evs IH]; intros s Hrf Hst Hp Hun; [auto|].
  simpl in Hrf. apply andb_prop in Hrf as [He Hrf]. apply negb_true_iff in He.
  destruct (stuckOn_step w p s e He Hst) as [Hst' Hs'].
  destruct (IH (step s e) Hrf Hst' (finished_task_step s e p t Hp Hun) Hun)
    as (A & B & C).
  simpl. split; [exact A|]. split; [congruence | exact C].
Qed.

(** X12.  A synchronous throw of [getGitStatus] leaves the workspace stuck:
    the [catch] and [finally] blocks run before [inflight.set], so the
    already settled promise is registered and nothing removes it.  From a
    reset-free history in which [startReview] gets past its early returns,
    after such a call and any further events short of [resetReviewState],
    every [startReview] call for the workspace returns that same promise,
    which resolves to the first failure, without calling [getGitStatus] and
    without changing the store; [getReviewState] keeps reporting that
    failure.  There is no retry short of a reset. *)
Theorem synchronous_throw_blocks_retry
    (evs mid : list Event) (now : Z) (e : Thrown) (w path : string)
    (now2 : Z) (call2 : CallOutcome) (path2 : string) :
  resetFree evs = true ->
  resetFree mid = true ->
  startsFresh w (run evs initial) ->
  let s := run evs initial in
  let s2 := run mid (fst (startReview now (CallThrows e) w path s)) in
  startReview now2 call2 w path2 s2 = (s2, RetPromise (length (tasks s)))
  /\ resolved (length (tasks s)) s2 = Some (failureState now now (errorMsg e))
  /\ getReviewState w s2 = failureState now now (errorMsg e).
Proof.
  intros Hrf Hmid Hfresh s s2.
  assert (Htr : tracked s) by (apply tracked_run; [exact Hrf|apply tracked_initial]).
  set (s1 := fst (launch now (CallThrows e) w path s)).
  set (t1 := mkTask w path now (Finished (failureState now now (errorMsg e)))).
  assert (Hs2 : s2 = run mid s1).
  { subst s2 s1. rewrite (startReview_fresh _ _ _ _ _ Hfresh). reflexivity. }
  assert (Ht1 : tasks s1 !! length (tasks s) = Some t1).
  { subst s1 t1. unfold launch. simpl.
    rewrite (lookup_replacePhase_eq _ _ _ _ (snoc_lookup_last (tasks s) _)).
    reflexivity. }
  assert (Hstuck : stuckOn w (length (tasks s)) s1).
  { split; [apply launch_inflight|].
    intros q t Hq Hw. destruct (decide (q = length (tasks s))) as [->|Hne].
    - rewrite Ht1 in Hq. inversion Hq. reflexivity.
    - subst s1. unfold launch in Hq. simpl in Hq.
      rewrite lookup_replacePhase_ne in Hq by congruence.
      destruct (lookup_snoc_task _ _ _ _ Hq) as [[H0 _]|[-> _]]; [|congruence].
      destruct (unfinished t) eqn:Hun; [|reflexivity].
      pose proof (Htr q t H0 Hun) as A. rewrite Hw in A.
      destruct Hfresh as [Hin _]. fold s in Hin. congruence. }
  destruct (stuckOn_run w _ t1 mid s1 Hmid Hstuck Ht1 eq_refl) as ([Hin _] & Hst & Ht).
  rewrite <- Hs2 in *.
  split; [apply startReview_inflight; exact Hin|].
  split.
  - unfold resolved. rewrite Ht. reflexivity.
  - unfold getReviewState. rewrite Hst.
    destruct (launch_throws now e w path s) as (_ & A & _). fold s1 in A.
    rewrite A. reflexivity.
Qed.

Lemma synchronous_throw_blocks_retry_witness :
  resetFree Scenarios.reviewedTwoFiles = true
  /\ resetFree [EvStart 7 CallReturns "ws-2" "/tmp/ws-2";
                EvStatus 8 1 (Fulfilled None)] = true
  /\ startsFresh "ws-2" (run Scenarios.reviewedTwoFiles initial)
  /\ snd (startReview 9 CallReturns "ws-2" "/tmp/ws-2"
            (run [EvStart 7 CallReturns "ws-2" "/tmp/ws-2";
                  EvStatus 8 1 (Fulfilled None)]
               (fst (startReview 6 (CallThrows (ThrownError "boom")) "ws-2" "/tmp/ws-2"
                       (run Scenarios.reviewedTwoFiles initial)))))
     = RetPromise 1.
Proof.
  assert (H1 : resetFree Scenarios.reviewedTwoFiles = true) by reflexivity.
  assert (H2 : resetFree [EvStart 7 CallReturns "ws-2" "/tmp/ws-2";
                          EvStatus 8 1 (Fulfilled None)] = true) by reflexivity.
  assert (H3 : startsFresh "ws-2" (run Scenarios.reviewedTwoFiles initial)).
  { split; [reflexivity|]. intros st E. vm_compute in E. discriminate. }
  destruct (synchronous_throw_blocks_retry Scenarios.reviewedTwoFiles
              [EvStart 7 CallReturns "ws-2" "/tmp/ws-2";
               EvStatus 8 1 (Fulfilled None)]
              6 (ThrownError "boom") "ws-2" "/tmp/ws-2"
              9 CallReturns "/tmp/ws-2" H1 H2 H3) as (A & _).
  split; [exact H1|]. split; [exact H2|]. split; [exact H3|].
  rewrite A. reflexivity.
Defined.

End ReviewRunnerMore.

(** ** workspaceProviderTabs.ts: what each operation does to a collection *)

Module ProviderTabsMore.
Import Json ProviderTabs ProviderTabsFacts ProviderTabsViews.

(** On a list of valid tabs with pairwise different (provider, isReview)
    pairs the dedupe pass changes nothing. *)
Lemma uniqueTabs_unchanged (valid : ProviderTab -> bool) (l : list ProviderTab) :
  forall seen,
    Forall (fun tab => valid tab = true) l ->
    NoDup (tabPair <$> l) ->
    (forall tab, tab ∈ l -> tabKey tab ∉ seen) ->
    uniqueTabs valid seen l = l.
Proof.
  induction l as [|x l IH]; intros seen Hv Hnd Hseen; simpl; [reflexivity|].
  apply Forall_cons in Hv as [Hx Hv]. rewrite Hx. simpl.
  rewrite bool_decide_eq_false_2 by (apply Hseen; apply list_elem_of_here).
  simpl in Hnd. apply NoDup_cons in Hnd as [Hnx Hnd].
  f_equal. apply IH; [exact Hv | exact Hnd |].
  intros tab Hin Hk. apply elem_of_union in Hk as [Hk|Hk].
  - apply elem_of_singleton in Hk. apply Hnx.
    apply list_elem_of_fmap. exists tab. split; [|exact Hin].
    symmetry. apply tabKey_pair. exact Hk.
  - apply (Hseen tab); [apply list_elem_of_further; exact Hin | exact Hk].
Qed.

Lemma cloneState_same st : cloneState st = st.
Proof.
  destruct st as [l a]. unfold cloneState. cbn [tabs activeId]. f_equal.
  induction l as [|[i p c r] l IH]; [reflexivity|].
  rewrite fmap_cons, IH. reflexivity.
Qed.

Section WithRegistry.
Variable registry : list string.

Lemma isValidProviderId_registry prov :
  isValidProviderId registry (Some (JStr prov)) = true <-> prov ∈ registry.
Proof. simpl. apply bool_decide_eq_true. Qed.

Lemma normalizeProvider_known prov fb :
  prov ∈ registry -> normalizeProvider registry (Some (JStr prov)) fb = prov.
Proof.
  intros H. unfold normalizeProvider.
  rewrite (proj2 (isValidProviderId_registry prov) H). reflexivity.
Qed.

Lemma normalizeProvider_registry v fb :
  "codex" ∈ registry -> normalizeProvider registry v fb ∈ registry.
Proof.
  intros Hc. unfold normalizeProvider.
  assert (Hfb : (if isValidProviderId registry (Some (JStr fb)) then fb else "codex")
                ∈ registry).
  { destruct (isValidProviderId registry (Some (JStr fb))) eqn:E; [|exact Hc].
    apply isValidProviderId_registry. exact E. }
  destruct v as [[|b|z| |a|items|fields]|]; try exact Hfb.
  destruct (isValidProviderId registry (Some (JStr a))) eqn:E; [|exact Hfb].
  apply isValidProviderId_registry. exact E.
Qed.

(** Known providers are left alone by the normalisation pass of
    [updateWorkspaceState]. *)
Lemma normalize_same fb (l : list ProviderTab) :
  Forall (soundTab registry) l ->
  (fun tab => mkTab (id tab)
                (normalizeProvider registry (Some (JStr (provider tab))) fb)
                (createdAt tab) (isReview tab)) <$> l = l.
Proof.
  intros Hs. induction Hs as [|[i p c r] l [Hp _] Hl IH]; [reflexivity|].
  rewrite fmap_cons, IH. cbn [id provider createdAt isReview] in *.
  rewrite (normalizeProvider_known p fb Hp). reflexivity.
Qed.

(** The normalisation and dedupe pass of [updateWorkspaceState] is the
    identity on a sound draft without duplicate pairs. *)
Lemma revalidate_unchanged fb (l : list ProviderTab) :
  Forall (soundTab registry) l ->
  NoDup (tabPair <$> l) ->
  uniqueTabs (fun tab => isValidProviderId registry (Some (JStr (provider tab)))) ∅
    ((fun tab => mkTab (id tab)
                   (normalizeProvider registry (Some (JStr (provider tab))) fb)
                   (createdAt tab) (isReview tab)) <$> l) = l.
Proof.
  intros Hs Hnd. rewrite (normalize_same fb l Hs).
  apply uniqueTabs_unchanged; [|exact Hnd|].
  - eapply Forall_impl; [exact Hs|]. intros tab [Hp _].
    apply isValidProviderId_registry. exact Hp.
  - intros tab _ H. apply elem_of_empty in H. exact H.
Qed.

(** *** Soundness of everything held in memory *)

Hypothesis codex_known : "codex" ∈ registry.
Hypothesis ids_nonempty : "" ∉ registry.

Lemma known_nonempty prov : prov ∈ registry -> prov <> "".
Proof. intros H ->. exact (ids_nonempty H). Qed.

Lemma soundTab_ordinaryTab prov now :
  prov ∈ registry -> soundTab registry (ordinaryTab prov now).
Proof.
  intros H. split; [exact H|]. split; [apply known_nonempty; exact H|].
  discriminate.
Qed.

Lemma soundTab_reviewTab prov now :
  prov ∈ registry -> soundTab registry (reviewTab prov now).
Proof.
  intros H. split; [exact H|]. split; [|reflexivity].
  simpl. intros E. apply (f_equal String.length) in E.
  rewrite length_append_string in E. simpl in E. lia.
Qed.

Lemma loadItem_sound now item tab :
  loadItem registry now item = Some tab -> soundTab registry tab.
Proof.
  unfold loadItem.
  set (prov := normalizeProvider registry (get "provider" (Some item)) "codex").
  generalize (get "id" (Some item)) (get "createdAt" (Some item)). intros idv cv.
  destruct (negb (isValidProviderId registry (Some (JStr prov)))) eqn:E; [discriminate|].
  apply negb_false_iff, isValidProviderId_registry in E.
  intros H. inversion H; subst tab. clear H.
  split; [exact E|]. split; [|discriminate]. cbn [id].
  destruct idv as [[|b|z| |a|items|fields]|];
    try (apply known_nonempty; exact E).
  destruct (String.eqb (trim a) "") eqn:T; [apply known_nonempty; exact E|].
  apply String.eqb_neq. exact T.
Qed.

Lemma omap_loadItem_sound now items :
  Forall (soundTab registry) (omap (loadItem registry now) items).
Proof.
  induction items as [|item items IH]; simpl; [constructor|].
  destruct (loadItem registry now item) eqn:E; [|exact IH].
  constructor; [apply (loadItem_sound _ _ _ E) | exact IH].
Qed.

Lemma loadFromStorage_sound now w s st :
  loadFromStorage registry now w s = Some st -> sound registry st.
Proof.
  unfold loadFromStorage.
  destruct (negb (storageAvailable s)); [discriminate|].
  destruct (ls_throws (storage s)); [discriminate|].
  destruct (ls_tabs (storage s) !! w) as [[parsed|]|]; try discriminate.
  destruct (negb (truthy (Some parsed) && isObject (Some parsed))); [discriminate|].
  set (loaded := match get "tabs" (Some parsed) with
                 | Some (JArr items) => omap (loadItem registry now) items
                 | _ => []
                 end).
  assert (Hl : Forall (soundTab registry) loaded).
  { unfold loaded. destruct (get "tabs" (Some parsed)) as [[|b|z| |a|items|fields]|];
      try constructor. apply omap_loadItem_sound. }
  pose proof (uniqueTabs_Forall (soundTab registry) (fun _ => true) loaded ∅ Hl) as Hu.
  destruct (uniqueTabs (fun _ => true) ∅ loaded) as [|first rest]; [discriminate|].
  intros H. inversion H. exact Hu.
Qed.

Lemma sound_default now fb :
  sound registry
    (mkState [ordinaryTab (normalizeProvider registry (Some (JStr fb)) "codex") now]
             (Some (normalizeProvider registry (Some (JStr fb)) "codex"))).
Proof.
  constructor; [|constructor]. apply soundTab_ordinaryTab.
  apply normalizeProvider_registry. exact codex_known.
Qed.

Lemma storeSound_setState w st s :
  storeSound registry s -> sound registry st -> storeSound registry (setState w st s).
Proof.
  intros Hs Hst w' st' H. simpl in H.
  destruct (decide (w = w')) as [<-|Hne].
  - rewrite lookup_insert_eq in H. inversion H; subst. exact Hst.
  - rewrite lookup_insert_ne in H by exact Hne. apply (Hs _ _ H).
Qed.

Lemma storeSound_saveToStorage w st s :
  storeSound registry s -> storeSound registry (saveToStorage w st s).
Proof. intros Hs w' st' H. rewrite saveToStorage_states in H. apply (Hs _ _ H). Qed.

Lemma createDefaultState_sound now w fb s :
  storeSound registry s ->
  sound registry (fst (createDefaultState registry now w fb s))
  /\ storeSound registry (snd (createDefaultState registry now w fb s)).
Proof.
  intros Hs. unfold createDefaultState. cbn [fst snd].
  split; [apply sound_default|].
  apply storeSound_saveToStorage, storeSound_setState; [exact Hs|apply sound_default].
Qed.

Lemma ensureWorkspaceState_sound now w fb s :
  storeSound registry s ->
  sound registry (fst (ensureWorkspaceState registry now w fb s))
  /\ storeSound registry (snd (ensureWorkspaceState registry now w fb s)).
Proof.
  intros Hs. unfold ensureWorkspaceState.
  destruct (workspaceStates s !! w) as [st|] eqn:E.
  - simpl. split; [apply (Hs _ _ E) | exact Hs].
  - destruct (loadFromStorage registry now w s) as [st|] eqn:L.
    + pose proof (loadFromStorage_sound _ _ _ _ L) as Hst. simpl.
      split; [exact Hst | apply storeSound_setState; assumption].
    + destruct (createDefaultState_sound now w fb s Hs) as (H1 & H2).
      destruct (createDefaultState registry now w fb s) as [st s1]. simpl in *.
      split; [exact H1 | apply storeSound_setState; assumption].
Qed.

Lemma updateWorkspaceState_sound now w fb mutate s :
  storeSound registry s ->
  (forall st, sound registry st -> sound registry (mutate st)) ->
  storeSound registry (updateWorkspaceState registry now w fb mutate s).
Proof.
  intros Hs Hm. unfold updateWorkspaceState.
  destruct (ensureWorkspaceState_sound now w fb s Hs) as (Hc & Hs1).
  destruct (ensureWorkspaceState registry now w fb s) as [current s1].
  cbn [fst snd] in Hc, Hs1. rewrite cloneState_same.
  pose proof (Hm current Hc) as Hd. unfold sound in Hd.
  cbv zeta. rewrite (normalize_same fb _ Hd).
  pose proof (uniqueTabs_Forall (soundTab registry)
                (fun tab => isValidProviderId registry (Some (JStr (provider tab))))
                (tabs (mutate current)) ∅ Hd) as Hu.
  destruct (uniqueTabs _ ∅ (tabs (mutate current))) as [|first rest].
  - destruct (createDefaultState_sound now w fb s1 Hs1) as (_ & H2).
    destruct (createDefaultState registry now w fb s1) as [st s2]. exact H2.
  - intros w' st' H. unfold emit in H. cbn [workspaceStates] in H.
    rewrite saveToStorage_states in H.
    revert H. apply storeSound_setState; [exact Hs1 | exact Hu].
Qed.

Lemma keptTabs_Forall (P : ProviderTab -> Prop) tabId l :
  Forall P l -> Forall P (keptTabs tabId l).
Proof.
  intros H. apply Forall_forall. intros tab Hin.
  apply list_elem_of_In, filter_In in Hin as [Hin _].
  rewrite Forall_forall in H. apply H. apply list_elem_of_In. exact Hin.
Qed.

Lemma closeTab_sound now w tabId fb s :
  storeSound registry s -> storeSound registry (closeTab registry now w tabId fb s).
Proof.
  intros Hs. unfold closeTab.
  destruct (ensureWorkspaceState_sound now w fb s Hs) as (_ & Hs1).
  destruct (ensureWorkspaceState registry now w fb s) as [st s1]. simpl in Hs1.
  destruct (length (tabs st) <=? 1)%nat; [exact Hs1|].
  destruct (findIndex _ (tabs st)); [|exact Hs1].
  apply updateWorkspaceState_sound; [exact Hs1|].
  intros d Hd. unfold sound in *.
  destruct (bool_decide (activeId d = Some tabId)); cbn [tabs];
    apply (keptTabs_Forall _ tabId); exact Hd.
Qed.

Lemma perform_sound s c :
  storeSound registry s -> storeSound registry (perform registry s c).
Proof.
  intros Hs. unfold perform. destruct (c_action c) as [prov|prov|tabId|tabId|].
  - unfold addTab.
    destruct (negb (isValidProviderId registry (Some (JStr prov)))) eqn:E; [exact Hs|].
    apply negb_false_iff, isValidProviderId_registry in E.
    apply updateWorkspaceState_sound; [exact Hs|].
    intros d Hd. unfold sound in *.
    destruct (existsb _ (tabs d)).
    + destruct (List.find _ (tabs d)); exact Hd.
    + cbn [tabs]. apply Forall_app. split; [exact Hd|].
      constructor; [|constructor]. apply (soundTab_ordinaryTab prov (c_now c) E).
  - unfold addReviewTab.
    destruct (negb (isValidProviderId registry (Some (JStr prov)))) eqn:E; [exact Hs|].
    apply negb_false_iff, isValidProviderId_registry in E. cbn [snd].
    apply updateWorkspaceState_sound; [exact Hs|].
    intros d Hd. unfold sound in *.
    destruct (existsb _ (tabs d)).
    + destruct (List.find _ (tabs d)); exact Hd.
    + cbn [tabs]. apply Forall_app. split; [exact Hd|].
      constructor; [|constructor]. apply (soundTab_reviewTab prov (c_now c) E).
  - unfold setActive. apply updateWorkspaceState_sound; [exact Hs|].
    intros d Hd. destruct (existsb _ (tabs d)); exact Hd.
  - apply closeTab_sound. exact Hs.
  - unfold closeReviewTab.
    destruct (ensureWorkspaceState_sound (c_now c) (c_workspaceId c) (c_fallback c) s Hs)
      as (_ & Hs1).
    destruct (ensureWorkspaceState registry (c_now c) (c_workspaceId c) (c_fallback c) s)
      as [st s1]. simpl in Hs1.
    destruct (List.find reviewFlag (tabs st)); [|exact Hs1].
    apply closeTab_sound. exact Hs1.
Qed.

Lemma performAll_sound calls s :
  storeSound registry s -> storeSound registry (performAll registry calls s).
Proof.
  revert s. induction calls as [|c calls IH]; intros s Hs; [exact Hs|].
  simpl. apply IH. apply perform_sound. exact Hs.
Qed.

Lemma storeSound_initial available ls : storeSound registry (initial available ls).
Proof. intros w st H. simpl in H. rewrite lookup_empty in H. discriminate. Qed.

(** X13.  With a registry that knows "codex" and has no empty id: whatever
    durable storage contains and whatever sequence of registry calls is
    performed, every tab of every collection in memory, and of the collection
    read for any workspace, has a provider of the registry and a non-empty
    id, and every review tab has the id [<provider>-review].  Unknown
    providers found in storage or passed by callers never reach the UI. *)
Theorem tabs_keep_registry_providers
    (available : bool) (ls : LocalStorage) (calls : list Call)
    (now : Z) (w fb : string) :
  let s := performAll registry calls (initial available ls) in
  Forall (soundTab registry) (tabs (fst (getSnapshot registry now w fb s)))
  /\ (forall w' st tab, workspaceStates s !! w' = Some st -> tab ∈ tabs st ->
        provider tab ∈ registry /\ id tab <> ""
        /\ (reviewFlag tab = true -> id tab = provider tab +:+ "-review")).
Proof.
  intros s.
  assert (Hs : storeSound registry s) by (apply performAll_sound, storeSound_initial).
  split.
  - unfold getSnapshot. destruct (String.eqb w ""); [constructor|].
    apply (ensureWorkspaceState_sound now w fb s Hs).
  - intros w' st tab Hst Hin. pose proof (Hs w' st Hst) as H.
    unfold sound in H. rewrite Forall_forall in H. apply (H tab Hin).
Qed.

End WithRegistry.

Lemma tabs_keep_registry_providers_witness :
  ("codex" ∈ Scenarios.registry)
  /\ ("" ∉ Scenarios.registry)
  /\ Forall (soundTab Scenarios.registry)
       (tabs (fst (getSnapshot Scenarios.registry 9 "ws" "codex"
                     (performAll Scenarios.registry
                        [mkCall "ws" 6 "codex" (openProviderTab "claude");
                         mkCall "ws" 7 "codex" (openReviewTab "claude")]
                        Scenarios.nextSession)))).
Proof.
  assert (H1 : "codex" ∈ Scenarios.registry) by apply list_elem_of_here.
  assert (H2 : "" ∉ Scenarios.registry)
    by (intros H; apply list_elem_of_In in H; simpl in H; intuition discriminate).
  split; [exact H1|]. split; [exact H2|].
  apply (tabs_keep_registry_providers Scenarios.registry H1 H2 true
           (storage Scenarios.withReviewTab)
           [mkCall "ws" 6 "codex" (openProviderTab "claude");
            mkCall "ws" 7 "codex" (openReviewTab "claude")] 9 "ws" "codex").
Defined.

(** *** What a call leaves in memory *)

Lemma existsb_find {A} (f : A -> bool) (l : list A) :
  existsb f l = match List.find f l with Some _ => true | None => false end.
Proof.
  induction l as [|x l IH]; simpl; [reflexivity|].
  destruct (f x); [reflexivity | exact IH].
Qed.


Lemma member_id (a : string) (l : list ProviderTab) :
  a ∈ id <$> l <-> existsb (fun tab => String.eqb (id tab) a) l = true.
Proof.
  rewrite existsb_exists. split.
  - intros H. apply list_elem_of_fmap in H as (tab & -> & Hin).
    exists tab. split; [apply list_elem_of_In; exact Hin | apply String.eqb_refl].
  - intros (tab & Hin & E). apply String.eqb_eq in E. subst a.
    apply list_elem_of_fmap. exists tab. split; [reflexivity|].
    apply list_elem_of_In. exact Hin.
Qed.


Section Operations.
Variable registry : list string.
Hypothesis codex_known : "codex" ∈ registry.
Hypothesis ids_nonempty : "" ∉ registry.

(** A sound draft without duplicate pairs goes into memory as it is. *)
Lemma updateWorkspaceState_result now w fb mutate s st s1 :
  ensureWorkspaceState registry now w fb s = (st, s1) ->
  tabs (mutate st) <> [] ->
  sound registry (mutate st) ->
  NoDup (tabPair <$> tabs (mutate st)) ->
  exists st',
    workspaceStates (updateWorkspaceState registry now w fb mutate s) !! w = Some st'
    /\ tabs st' = tabs (mutate st)
    /\ (forall a, activeId (mutate st) = Some a -> a ∈ id <$> tabs (mutate st) ->
                  activeId st' = Some a).
Proof.
  intros He Hne Hs Hnd. unfold updateWorkspaceState. rewrite He.
  rewrite cloneState_same. cbv zeta.
  rewrite (revalidate_unchanged registry fb _ Hs Hnd).
  unfold sound in Hs.
  destruct (tabs (mutate st)) as [|first rest] eqn:Et; [contradiction|].
  eexists. split.
  { unfold emit. cbn [workspaceStates]. rewrite saveToStorage_states.
    cbn [setState workspaceStates]. apply lookup_insert_eq. }
  split; [reflexivity|]. intros a Ha Hin. cbn [activeId]. rewrite Ha.
  assert (Hna : a <> "").
  { apply list_elem_of_fmap in Hin as (tab & -> & Hin).
    rewrite Forall_forall in Hs. apply (Hs tab Hin). }
  rewrite (proj2 (String.eqb_neq a "") Hna).
  rewrite (proj1 (member_id a _) Hin). reflexivity.
Qed.

Lemma ensured now w fb s :
  storeOk s -> storeSound registry s ->
  wellFormed (fst (ensureWorkspaceState registry now w fb s))
  /\ sound registry (fst (ensureWorkspaceState registry now w fb s)).
Proof.
  intros Hok Hs. split.
  - apply (ensureWorkspaceState_ok registry now w fb s Hok).
  - apply (ensureWorkspaceState_sound registry codex_known ids_nonempty now w fb s Hs).
Qed.

(** X14.  [addTab] with a known provider, on a registry whose collections
    are well formed and sound: if the workspace already has an ordinary tab
    of that provider, the tabs stay as they are and that tab becomes active;
    otherwise a new ordinary tab with the provider as id is appended after
    the existing tabs and becomes active.  No tab is removed or reordered. *)
Theorem addTab_opens_or_focuses
    (now : Z) (w prov fb : string) (s : Store) :
  storeOk s -> storeSound registry s ->
  prov ∈ registry ->
  let st := fst (ensureWorkspaceState registry now w fb s) in
  exists st',
    workspaceStates (addTab registry now w prov fb s) !! w = Some st'
    /\ match List.find (fun tab => String.eqb (provider tab) prov
                                   && negb (reviewFlag tab)) (tabs st) with
       | Some existing => tabs st' = tabs st /\ activeId st' = Some (id existing)
       | None => tabs st' = tabs st ++ [ordinaryTab prov now]
                 /\ activeId st' = Some prov
       end.
Proof.
  intros Hok Hs Hprov st. subst st.
  destruct (ensured now w fb s Hok Hs) as [Hwf Hsd].
  destruct (ensureWorkspaceState registry now w fb s) as [st s1] eqn:He.
  cbn [fst] in *.
  destruct Hwf as (Hne & Hnd & _).
  unfold addTab. rewrite (proj2 (isValidProviderId_registry registry prov) Hprov).
  cbn [negb].
  set (isIt := fun tab : ProviderTab =>
                 String.eqb (provider tab) prov && negb (reviewFlag tab)).
  match goal with
  | |- context [updateWorkspaceState _ _ _ _ ?m _] => set (mutate := m)
  end.
  pose proof (existsb_find isIt (tabs st)) as Hex.
  destruct (List.find isIt (tabs st)) as [existing|] eqn:Hf.
  - assert (Hm : mutate st = mkState (tabs st) (Some (id existing))).
    { unfold mutate. cbv beta zeta. fold isIt. rewrite Hex, ?Hf. reflexivity. }
    destruct (updateWorkspaceState_result now w fb mutate s st s1 He) as (st' & H1 & H2 & H3);
      rewrite ?Hm; cbn [tabs]; try assumption.
    exists st'. split; [exact H1|]. rewrite Hm in H2, H3. cbn [tabs activeId] in H2, H3.
    split; [exact H2|]. apply H3; [reflexivity|].
    apply list_elem_of_fmap. exists existing. split; [reflexivity|].
    apply list_elem_of_In. apply (find_some _ _ Hf).
  - assert (Hm : mutate st = mkState (tabs st ++ [ordinaryTab prov now]) (Some prov)).
    { unfold mutate. cbv beta zeta. fold isIt. rewrite Hex, ?Hf. reflexivity. }
    destruct (updateWorkspaceState_result now w fb mutate s st s1 He) as (st' & H1 & H2 & H3);
      rewrite ?Hm; cbn [tabs].
    + intros E. apply app_eq_nil in E as [_ E]. discriminate.
    + unfold sound. cbn [tabs]. apply Forall_app. split; [exact Hsd|].
      constructor; [|constructor].
      apply (soundTab_ordinaryTab registry ids_nonempty prov now Hprov).
    + rewrite fmap_app. apply NoDup_app. split; [exact Hnd|]. split.
      * intros pr Hin Hin'. apply list_elem_of_fmap in Hin as (tab & -> & Hin).
        apply list_elem_of_In in Hin.
        pose proof (find_none _ _ Hf tab Hin) as Hno. unfold isIt in Hno.
        simpl in Hin'. apply list_elem_of_singleton in Hin'.
        unfold tabPair in Hin'. simpl in Hin'. inversion Hin' as [[Hp Hr]].
        rewrite Hp, Hr, String.eqb_refl in Hno. discriminate.
      * simpl. apply NoDup_singleton.
    + exists st'. split; [exact H1|]. rewrite Hm in H2, H3. cbn [tabs activeId] in H2, H3.
      split; [exact H2|]. apply H3; [reflexivity|].
      rewrite fmap_app. apply elem_of_app. right. simpl. apply list_elem_of_here.
Qed.

(** The tab shown as active after [addReviewTab], when the review tab is
    the only tab with its id. *)
Lemma activeTab_review prov now st st' :
  sound registry st ->
  activeId st' = Some (prov +:+ "-review") ->
  (tabs st' = tabs st \/ tabs st' = tabs st ++ [reviewTab prov now]) ->
  (exists tab, tab ∈ tabs st' /\ id tab = prov +:+ "-review") ->
  Forall (fun tab => reviewFlag tab = false -> id tab <> prov +:+ "-review")
         (tabs st) ->
  exists tab, activeTab st' = Some tab /\ id tab = prov +:+ "-review"
              /\ provider tab = prov /\ reviewFlag tab = true.
Proof.
  intros Hsd Hact Htabs (tab0 & Hin0 & Hid0) Hord. unfold activeTab. rewrite Hact.
  destruct (List.find (fun tab => bool_decide (Some (id tab) = Some (prov +:+ "-review")))
                      (tabs st')) as [tab|] eqn:Hf.
  - destruct (find_some _ _ Hf) as [Hin Hid].
    apply bool_decide_eq_true in Hid.
    assert (Hid' : id tab = prov +:+ "-review") by congruence.
    exists tab. split; [reflexivity|]. split; [exact Hid'|].
    apply list_elem_of_In in Hin.
    assert (Hcases : tab ∈ tabs st \/ tab = reviewTab prov now).
    { destruct Htabs as [E|E]; rewrite E in Hin; [left; exact Hin|].
      apply elem_of_app in Hin as [Hin|Hin]; [left; exact Hin|].
      right. apply list_elem_of_singleton in Hin. exact Hin. }
    destruct Hcases as [Hst| ->]; [|split; reflexivity].
    rewrite Forall_forall in Hord. unfold sound in Hsd. rewrite Forall_forall in Hsd.
    destruct (reviewFlag tab) eqn:Hr.
    + split; [|reflexivity].
      destruct (Hsd tab Hst) as (_ & _ & Hrev). rewrite (Hrev Hr) in Hid'.
      apply append_inj_suffix in Hid' as [Hp _]; [exact Hp | reflexivity].
    + destruct (Hord tab Hst Hr Hid').
  - apply list_elem_of_In in Hin0.
    pose proof (find_none _ _ Hf tab0 Hin0) as Hno. cbv beta in Hno.
    rewrite Hid0 in Hno. rewrite bool_decide_eq_true_2 in Hno by reflexivity.
    discriminate.
Qed.

(** X15.  [addReviewTab] with a known provider returns the id
    [<provider>-review] and makes it the [activeId].  Afterwards the
    collection holds the review tab of that provider under that id: either
    the one the workspace already had (the tabs stay as they are) or a new
    one appended after the existing tabs.  The tab the hook shows as active,
    the first one with the active id, is that review tab when no ordinary
    tab of the workspace has the id [<provider>-review]; an ordinary tab can
    have it after a restart, which turns a persisted review tab into an
    ordinary tab under its old id. *)
Theorem addReviewTab_opens_or_focuses
    (now : Z) (w prov fb : string) (s : Store) :
  storeOk s -> storeSound registry s ->
  prov ∈ registry ->
  let st := fst (ensureWorkspaceState registry now w fb s) in
  let r := addReviewTab registry now w prov fb s in
  fst r = prov +:+ "-review"
  /\ exists st',
       workspaceStates (snd r) !! w = Some st'
       /\ activeId st' = Some (fst r)
       /\ tabs st' =
          (if existsb (fun tab => reviewFlag tab && String.eqb (provider tab) prov)
                      (tabs st)
           then tabs st else tabs st ++ [reviewTab prov now])
       /\ (exists tab, tab ∈ tabs st' /\ id tab = fst r
                       /\ provider tab = prov /\ reviewFlag tab = true)
       /\ (Forall (fun tab => reviewFlag tab = false -> id tab <> prov +:+ "-review")
                  (tabs st) ->
           exists tab, activeTab st' = Some tab /\ id tab = fst r
                       /\ provider tab = prov /\ reviewFlag tab = true).
Proof.
  intros Hok Hs Hprov st r. subst st.
  destruct (ensured now w fb s Hok Hs) as [Hwf Hsd].
  destruct (ensureWorkspaceState registry now w fb s) as [st s1] eqn:He.
  cbn [fst] in *.
  destruct Hwf as (Hne & Hnd & _).
  assert (Hshown : forall st',
            activeId st' = Some (prov +:+ "-review") ->
            (tabs st' = tabs st \/ tabs st' = tabs st ++ [reviewTab prov now]) ->
            (exists tab, tab ∈ tabs st' /\ id tab = prov +:+ "-review") ->
            Forall (fun tab => reviewFlag tab = false -> id tab <> prov +:+ "-review")
                   (tabs st) ->
            exists tab, activeTab st' = Some tab /\ id tab = prov +:+ "-review"
                        /\ provider tab = prov /\ reviewFlag tab = true).
  { intros st' Hact Htabs Hhas Hord.
    apply (activeTab_review prov now st st'); assumption. }
  subst r. unfold addReviewTab.
  rewrite (proj2 (isValidProviderId_registry registry prov) Hprov).
  cbn [negb fst snd]. split; [reflexivity|].
  set (isIt := fun tab : ProviderTab =>
                 reviewFlag tab && String.eqb (provider tab) prov).
  match goal with
  | |- context [updateWorkspaceState _ _ _ _ ?m _] => set (mutate := m)
  end.
  pose proof (existsb_find isIt (tabs st)) as Hex.
  destruct (List.find isIt (tabs st)) as [existing|] eqn:Hf; rewrite Hex.
  - assert (Hm : mutate st = mkState (tabs st) (Some (id existing))).
    { unfold mutate. cbv beta zeta. fold isIt. rewrite Hex, ?Hf. reflexivity. }
    destruct (find_some _ _ Hf) as [Hin Hit]. unfold isIt in Hit.
    apply andb_prop in Hit as [Hrev Hp]. apply String.eqb_eq in Hp.
    apply list_elem_of_In in Hin.
    assert (Hid : id existing = prov +:+ "-review").
    { unfold sound in Hsd. rewrite Forall_forall in Hsd.
      destruct (Hsd existing Hin) as (_ & _ & Hr). rewrite (Hr Hrev), Hp. reflexivity. }
    destruct (updateWorkspaceState_result now w fb mutate s st s1 He) as (st' & H1 & H2 & H3);
      rewrite ?Hm; cbn [tabs]; try assumption.
    exists st'. split; [exact H1|]. rewrite Hm in H2, H3. cbn [tabs activeId] in H2, H3.
    assert (Hact : activeId st' = Some (prov +:+ "-review")).
    { rewrite <- Hid. apply H3; [reflexivity|].
      apply list_elem_of_fmap. exists existing. auto. }
    assert (Hhas : exists tab, tab ∈ tabs st' /\ id tab = prov +:+ "-review"
                               /\ provider tab = prov /\ reviewFlag tab = true)
      by (exists existing; rewrite H2; auto).
    split; [exact Hact|]. split; [exact H2|]. split; [exact Hhas|].
    apply Hshown; [exact Hact | left; exact H2 |].
    destruct Hhas as (tab & Hin' & Hi & _). exists tab. auto.
  - assert (Hm : mutate st
                 = mkState (tabs st ++ [reviewTab prov now]) (Some (prov +:+ "-review"))).
    { unfold mutate. cbv beta zeta. fold isIt. rewrite Hex, ?Hf. reflexivity. }
    destruct (updateWorkspaceState_result now w fb mutate s st s1 He) as (st' & H1 & H2 & H3);
      rewrite ?Hm; cbn [tabs].
    + intros E. apply app_eq_nil in E as [_ E]. discriminate.
    + unfold sound. cbn [tabs]. apply Forall_app. split; [exact Hsd|].
      constructor; [|constructor].
      apply (soundTab_reviewTab registry prov now Hprov).
    + rewrite fmap_app. apply NoDup_app. split; [exact Hnd|]. split.
      * intros pr Hin Hin'. apply list_elem_of_fmap in Hin as (tab & -> & Hin).
        apply list_elem_of_In in Hin.
        pose proof (find_none _ _ Hf tab Hin) as Hno. unfold isIt in Hno.
        simpl in Hin'. apply list_elem_of_singleton in Hin'.
        unfold tabPair in Hin'. simpl in Hin'. inversion Hin' as [[Hp Hr]].
        rewrite Hp, Hr, String.eqb_refl in Hno. discriminate.
      * simpl. apply NoDup_singleton.
    + exists st'. split; [exact H1|]. rewrite Hm in H2, H3. cbn [tabs activeId] in H2, H3.
      assert (Hlast : reviewTab prov now ∈ tabs st ++ [reviewTab prov now])
        by (apply elem_of_app; right; apply list_elem_of_here).
      assert (Hact : activeId st' = Some (prov +:+ "-review")).
      { apply H3; [reflexivity|].
        apply list_elem_of_fmap. exists (reviewTab prov now). auto. }
      split; [exact Hact|]. split; [exact H2|].
      split; [exists (reviewTab prov now); rewrite H2; auto|].
      apply Hshown; [exact Hact | right; exact H2 |].
      exists (reviewTab prov now). rewrite H2. auto.
Qed.






(** X17.  [setActive] never changes the tabs of a sound collection: a known
    id becomes the active one, an unknown id leaves the active tab as it
    was. *)
Theorem setActive_selects_known_tab
    (now : Z) (w tabId fb : string) (s : Store) :
  storeOk s -> storeSound registry s ->
  let st := fst (ensureWorkspaceState registry now w fb s) in
  exists st',
    workspaceStates (setActive registry now w tabId fb s) !! w = Some st'
    /\ tabs st' = tabs st
    /\ activeId st' =
       (if existsb (fun tab => String.eqb (id tab) tabId) (tabs st)
        then Some tabId else activeId st).
Proof.
  intros Hok Hs st. subst st.
  destruct (ensured now w fb s Hok Hs) as [Hwf Hsd].
  destruct (ensureWorkspaceState registry now w fb s) as [st s1] eqn:He.
  cbn [fst] in *.
  destruct Hwf as (Hne & Hnd & (act & Hact & Hactive)).
  unfold setActive.
  match goal with
  | |- context [updateWorkspaceState _ _ _ _ ?m _] => set (mutate := m)
  end.
  assert (Hm : mutate st =
               mkState (tabs st)
                 (if existsb (fun tab => String.eqb (id tab) tabId) (tabs st)
                  then Some tabId else activeId st)).
  { unfold mutate. cbv beta.
    destruct (existsb (fun tab => String.eqb (id tab) tabId) (tabs st));
      [reflexivity | destruct st; reflexivity]. }
  destruct (updateWorkspaceState_result now w fb mutate s st s1 He) as (st' & H1 & H2 & H3);
    rewrite ?Hm; cbn [tabs]; try assumption.
  exists st'. split; [exact H1|]. rewrite Hm in H2, H3. cbn [tabs activeId] in H2, H3.
  split; [exact H2|].
  destruct (existsb (fun tab => String.eqb (id tab) tabId) (tabs st)) eqn:Ex.
  - apply H3; [reflexivity|]. apply member_id. exact Ex.
  - rewrite Hactive. apply H3; [exact Hactive|].
    apply list_elem_of_fmap. exists act. auto.
Qed.

(** *** Persistence *)

Lemma saveToStorage_working w st s :
  storageAvailable s = true -> ls_throws (storage s) = false ->
  saveToStorage w st s
  = mkStore (storageAvailable s) (workspaceStates s)
      (mkLocalStorage (ls_throws (storage s)) (ls_status (storage s))
         (ls_pending (storage s))
         (<[w := Some (encodeState st)]> (ls_tabs (storage s)))
         (ls_writes (storage s) ++ [TABS_KEY w]))
      (emitted s).
Proof. intros Ha Ht. unfold saveToStorage. rewrite Ha, Ht. reflexivity. Qed.

Lemma saveToStorage_broken w st s :
  storageAvailable s = false \/ ls_throws (storage s) = true ->
  saveToStorage w st s = s.
Proof.
  intros [H|H]; unfold saveToStorage; rewrite H; [reflexivity|].
  destruct (negb (storageAvailable s)); reflexivity.
Qed.

Lemma saveToStorage_flags w st s :
  storageAvailable (saveToStorage w st s) = storageAvailable s
  /\ ls_throws (storage (saveToStorage w st s)) = ls_throws (storage s)
  /\ emitted (saveToStorage w st s) = emitted s.
Proof.
  unfold saveToStorage. destruct (negb (storageAvailable s)); [auto|].
  destruct (ls_throws (storage s)) eqn:E; auto.
Qed.

Lemma ensureWorkspaceState_flags now w fb s :
  storageAvailable (snd (ensureWorkspaceState registry now w fb s)) = storageAvailable s
  /\ ls_throws (storage (snd (ensureWorkspaceState registry now w fb s)))
     = ls_throws (storage s)
  /\ emitted (snd (ensureWorkspaceState registry now w fb s)) = emitted s.
Proof.
  unfold ensureWorkspaceState.
  destruct (workspaceStates s !! w); [auto|].
  destruct (loadFromStorage registry now w s); [auto|].
  unfold createDefaultState. cbn [snd setState storageAvailable storage emitted].
  apply (saveToStorage_flags w _ (setState w _ s)).
Qed.

Lemma ensureWorkspaceState_broken now w fb s :
  storageAvailable s = false \/ ls_throws (storage s) = true ->
  storage (snd (ensureWorkspaceState registry now w fb s)) = storage s.
Proof.
  intros H. unfold ensureWorkspaceState.
  destruct (workspaceStates s !! w); [reflexivity|].
  destruct (loadFromStorage registry now w s); [reflexivity|].
  unfold createDefaultState. cbn [snd setState storage].
  rewrite saveToStorage_broken by exact H. reflexivity.
Qed.

(** With a working storage, what an update leaves in memory is what it
    leaves in the storage entry of the workspace. *)
Lemma updateWorkspaceState_stored now w fb mutate s :
  storageAvailable s = true -> ls_throws (storage s) = false ->
  exists st',
    workspaceStates (updateWorkspaceState registry now w fb mutate s) !! w = Some st'
    /\ ls_tabs (storage (updateWorkspaceState registry now w fb mutate s)) !! w
       = Some (Some (encodeState st'))
    /\ ls_throws (storage (updateWorkspaceState registry now w fb mutate s)) = false.
Proof.
  intros Ha Hth. unfold updateWorkspaceState.
  destruct (ensureWorkspaceState_flags now w fb s) as (Fa & Ft & _).
  destruct (ensureWorkspaceState registry now w fb s) as [current s1].
  cbn [fst snd] in *. cbv zeta.
  destruct (uniqueTabs _ ∅ _) as [|first rest].
  - unfold createDefaultState. set (st := mkState _ _). exists st.
    rewrite (saveToStorage_working w st (setState w st s1))
      by (cbn [setState storageAvailable storage]; congruence).
    cbn. rewrite !lookup_insert_eq. split; [reflexivity|]. split; [reflexivity|].
    congruence.
  - set (st := mkState _ _). exists st.
    rewrite (saveToStorage_working w st (setState w st s1))
      by (cbn [setState storageAvailable storage]; congruence).
    cbn. rewrite !lookup_insert_eq. split; [reflexivity|]. split; [reflexivity|].
    congruence.
Qed.

(** X18.  Every [updateWorkspaceState] (so every effective [addTab],
    [addReviewTab], [setActive] and [closeTab]) leaves a collection for the
    workspace in memory and notifies the workspace's listeners once.  With a
    working storage the entry of the workspace then holds exactly that
    collection; with storage unavailable or throwing the registry keeps
    working in memory and the storage is left as it was. *)
Theorem update_writes_through
    (now : Z) (w fb : string)
    (mutate : WorkspaceProviderTabsState -> WorkspaceProviderTabsState) (s : Store) :
  let s' := updateWorkspaceState registry now w fb mutate s in
  emitted s' = emitted s ++ [w]
  /\ (storageAvailable s = true /\ ls_throws (storage s) = false ->
      exists st', workspaceStates s' !! w = Some st'
                  /\ ls_tabs (storage s') !! w = Some (Some (encodeState st')))
  /\ (storageAvailable s = false \/ ls_throws (storage s) = true ->
      is_Some (workspaceStates s' !! w) /\ storage s' = storage s).
Proof.
  intros s'. subst s'. unfold updateWorkspaceState.
  destruct (ensureWorkspaceState_flags now w fb s) as (Fa & Ft & Fe).
  pose proof (ensureWorkspaceState_broken now w fb s) as Fb.
  destruct (ensureWorkspaceState registry now w fb s) as [current s1].
  cbn [fst snd] in *. cbv zeta.
  destruct (uniqueTabs _ ∅ _) as [|first rest].
  - unfold createDefaultState.
    set (st := mkState _ _). split; [|split].
    + unfold emit. cbn [emitted].
      destruct (saveToStorage_flags w st (setState w st s1)) as (_ & _ & E).
      rewrite E. cbn [setState emitted]. rewrite Fe. reflexivity.
    + intros [Ha Hth]. exists st.
      rewrite (saveToStorage_working w st (setState w st s1))
        by (cbn [setState storageAvailable storage]; congruence).
      cbn. rewrite !lookup_insert_eq. auto.
    + intros Hb. assert (Hb1 : storageAvailable s1 = false \/ ls_throws (storage s1) = true)
        by (rewrite Fa, Ft; exact Hb).
      rewrite (saveToStorage_broken w st (setState w st s1)) by exact Hb1.
      cbn. rewrite lookup_insert_eq. split; [eauto | apply Fb; exact Hb].
  - set (st := mkState _ _). split; [|split].
    + unfold emit. cbn [emitted].
      destruct (saveToStorage_flags w st (setState w st s1)) as (_ & _ & E).
      rewrite E. cbn [setState emitted]. rewrite Fe. reflexivity.
    + intros [Ha Hth]. exists st.
      rewrite (saveToStorage_working w st (setState w st s1))
        by (cbn [setState storageAvailable storage]; congruence).
      cbn. rewrite !lookup_insert_eq. auto.
    + intros Hb. assert (Hb1 : storageAvailable s1 = false \/ ls_throws (storage s1) = true)
        by (rewrite Fa, Ft; exact Hb).
      rewrite (saveToStorage_broken w st (setState w st s1)) by exact Hb1.
      cbn. rewrite lookup_insert_eq. split; [eauto | apply Fb; exact Hb].
Qed.

Lemma loadItem_encodeTab now tab :
  trim (id tab) = id tab -> id tab <> "" ->
  provider tab ∈ registry -> isReview tab = None ->
  loadItem registry now (encodeTab tab) = Some tab.
Proof.
  destruct tab as [i p c r]. cbn [id provider isReview]. intros Ht Hi Hp ->.
  unfold loadItem, encodeTab. cbn [id provider createdAt isReview app].
  change (get "provider" (Some (JObj [("id", JStr i); ("provider", JStr p);
                                      ("createdAt", JNum c)])))
    with (Some (JStr p)).
  change (get "id" (Some (JObj [("id", JStr i); ("provider", JStr p);
                                ("createdAt", JNum c)])))
    with (Some (JStr i)).
  change (get "createdAt" (Some (JObj [("id", JStr i); ("provider", JStr p);
                                       ("createdAt", JNum c)])))
    with (Some (JNum c)).
  rewrite (normalizeProvider_known registry p "codex" Hp).
  rewrite (proj2 (isValidProviderId_registry registry p) Hp). cbn [negb].
  rewrite Ht. rewrite (proj2 (String.eqb_neq i "") Hi). reflexivity.
Qed.

(** X19.  A collection of ordinary tabs survives a restart: when its ids are
    trimmed and not empty, its providers are known and it is well formed,
    what [saveToStorage] writes is read back by [loadFromStorage] as the same
    collection, with the same tabs in the same order, the same creation
    times and the same active tab. *)
Theorem ordinary_collection_survives_restart
    (now : Z) (w : string) (st : WorkspaceProviderTabsState) (s : Store) :
  storageAvailable s = true ->
  ls_throws (storage s) = false ->
  persistable registry st ->
  loadFromStorage registry now w (saveToStorage w st s) = Some st
  /\ loadFromStorage registry now w
       (initial true (storage (saveToStorage w st s))) = Some st.
Proof.
  intros Ha Hth (Htabs & Hne & Hnd & (act & Hact & Hactive)).
  assert (Hload : forall s0, storageAvailable s0 = true ->
            storage s0 = storage (saveToStorage w st s) ->
            loadFromStorage registry now w s0 = Some st).
  { intros s0 Ha0 Hs0. unfold loadFromStorage. rewrite Ha0, Hs0.
    rewrite (saveToStorage_working w st s Ha Hth). cbn [storage ls_throws ls_tabs negb].
    rewrite Hth, lookup_insert_eq.
    change (truthy (Some (encodeState st)) && isObject (Some (encodeState st)))
      with true. cbn [negb].
    change (get "tabs" (Some (encodeState st)))
      with (Some (JArr (encodeTab <$> tabs st))).
    change (get "activeId" (Some (encodeState st)))
      with (Some (match activeId st with Some a => JStr a | None => JNull end)).
    assert (Hom : omap (loadItem registry now) (encodeTab <$> tabs st) = tabs st).
    { clear Hne Hnd Hact. induction Htabs as [|tab l (H1 & H2 & H3 & H4) Hl IH];
        [reflexivity|].
      rewrite fmap_cons. cbn [omap list_omap].
      rewrite (loadItem_encodeTab now tab H1 H2 H3 H4).
      fold (omap (loadItem registry now) (encodeTab <$> l)). rewrite IH. reflexivity. }
    cbv beta iota zeta. rewrite Hom.
    rewrite (uniqueTabs_unchanged (fun _ => true) (tabs st) ∅).
    - destruct st as [l a]. cbn [tabs activeId] in *.
      destruct l as [|first rest]; [contradiction|].
      rewrite Hactive.
      rewrite (proj1 (member_id (id act) (first :: rest)))
        by (apply list_elem_of_fmap; exists act; auto).
      reflexivity.
    - apply Forall_forall. reflexivity.
    - exact Hnd.
    - intros tab _ H. apply elem_of_empty in H. exact H. }
  split.
  - apply Hload; [|reflexivity].
    destruct (saveToStorage_flags w st s) as (E & _). rewrite E. exact Ha.
  - apply Hload; reflexivity.
Qed.

End Operations.

(** *** The operations on the scenario registry *)

Lemma scenario_registry :
  ("codex" ∈ Scenarios.registry) /\ ("" ∉ Scenarios.registry).
Proof.
  split; [apply list_elem_of_here|].
  intros H. apply list_elem_of_In in H. simpl in H. intuition discriminate.
Qed.

Lemma claude_known : "claude" ∈ Scenarios.registry.
Proof. apply list_elem_of_further, list_elem_of_here. Qed.

Lemma twoTabs_ok :
  storeOk Scenarios.twoTabs /\ storeSound Scenarios.registry Scenarios.twoTabs.
Proof.
  destruct scenario_registry as [Hc He]. split.
  - exact (perform_ok Scenarios.registry _
             (mkCall "ws-auto" 2 "codex" (openProviderTab "claude"))
             (perform_ok Scenarios.registry _
                (mkCall "ws-auto" 1 "codex" (openProviderTab "codex"))
                (storeOk_initial true emptyStorage))).
  - exact (perform_sound Scenarios.registry Hc He _
             (mkCall "ws-auto" 2 "codex" (openProviderTab "claude"))
             (perform_sound Scenarios.registry Hc He _
                (mkCall "ws-auto" 1 "codex" (openProviderTab "codex"))
                (storeSound_initial Scenarios.registry true emptyStorage))).
Qed.

Lemma addTab_opens_or_focuses_witness :
  storeOk Scenarios.twoTabs
  /\ storeSound Scenarios.registry Scenarios.twoTabs
  /\ ("claude" ∈ Scenarios.registry)
  /\ exists st',
       workspaceStates (addTab Scenarios.registry 3 "ws-auto" "claude" "codex"
                          Scenarios.twoTabs) !! "ws-auto" = Some st'
       /\ id <$> tabs st' = ["codex"; "claude"]
       /\ activeId st' = Some "claude".
Proof.
  destruct scenario_registry as [Hc He]. destruct twoTabs_ok as [Hok Hs].
  split; [exact Hok|]. split; [exact Hs|]. split; [exact claude_known|].
  destruct (addTab_opens_or_focuses Scenarios.registry Hc He 3 "ws-auto" "claude" "codex"
              Scenarios.twoTabs Hok Hs claude_known) as ([l a] & H1 & H2).
  exists (mkState l a). split; [exact H1|].
  vm_compute in H2. destruct H2 as [-> ->]. split; reflexivity.
Defined.

Lemma addReviewTab_opens_or_focuses_witness :
  storeOk Scenarios.twoTabs
  /\ storeSound Scenarios.registry Scenarios.twoTabs
  /\ ("claude" ∈ Scenarios.registry)
  /\ fst (addReviewTab Scenarios.registry 3 "ws-auto" "claude" "codex" Scenarios.twoTabs)
     = "claude-review"
  /\ exists st',
       workspaceStates
         (snd (addReviewTab Scenarios.registry 3 "ws-auto" "claude" "codex"
                 Scenarios.twoTabs)) !! "ws-auto" = Some st'
       /\ activeId st' = Some "claude-review"
       /\ exists tab, activeTab st' = Some tab /\ provider tab = "claude"
                      /\ reviewFlag tab = true.
Proof.
  destruct scenario_registry as [Hc He]. destruct twoTabs_ok as [Hok Hs].
  split; [exact Hok|]. split; [exact Hs|]. split; [exact claude_known|].
  destruct (addReviewTab_opens_or_focuses Scenarios.registry Hc He 3 "ws-auto" "claude"
              "codex" Scenarios.twoTabs Hok Hs claude_known)
    as (R & st' & H1 & H2 & _ & _ & H5).
  split; [exact R|]. exists st'. split; [exact H1|].
  split; [rewrite H2, R; reflexivity|].
  destruct H5 as (tab & Ht & _ & Hp & Hr).
  - vm_compute. apply Forall_cons. split; [intros _ H; discriminate H|].
    apply Forall_cons. split; [intros _ H; discriminate H | constructor].
  - exists tab. auto.
Defined.

(** After a restart the former review tab is an ordinary tab with the id
    [claude-review]; a new review then gets a second tab with that id, and
    the tab shown as active is the ordinary one. *)
Lemma review_tab_behind_rehydrated_tab :
  let r := addReviewTab Scenarios.registry 9 "ws" "claude" "codex"
             Scenarios.nextSession in
  fst r = "claude-review"
  /\ (tabs <$> workspaceStates (snd r) !! "ws")
     = Some [mkTab "codex" "codex" 5 None;
             mkTab "claude-review" "claude" 5 None;
             mkTab "claude-review" "claude" 9 (Some true)]
  /\ (activeTab <$> workspaceStates (snd r) !! "ws")
     = Some (Some (mkTab "claude-review" "claude" 5 None)).
Proof. vm_compute. repeat split; reflexivity. Qed.


Lemma setActive_selects_known_tab_witness :
  storeOk Scenarios.twoTabs
  /\ storeSound Scenarios.registry Scenarios.twoTabs
  /\ exists st',
       workspaceStates (setActive Scenarios.registry 3 "ws-auto" "codex" "codex"
                          Scenarios.twoTabs) !! "ws-auto" = Some st'
       /\ activeId st' = Some "codex".
Proof.
  destruct scenario_registry as [Hc He]. destruct twoTabs_ok as [Hok Hs].
  split; [exact Hok|]. split; [exact Hs|].
  destruct (setActive_selects_known_tab Scenarios.registry Hc He 3 "ws-auto" "codex"
              "codex" Scenarios.twoTabs Hok Hs) as (st' & H1 & _ & H3).
  exists st'. split; [exact H1 | exact H3].
Defined.

Lemma ordinary_collection_survives_restart_witness :
  storageAvailable (initial true emptyStorage) = true
  /\ ls_throws (storage (initial true emptyStorage)) = false
  /\ persistable Scenarios.registry
       (mkState [ordinaryTab "codex" 1; ordinaryTab "claude" 2] (Some "claude"))
  /\ loadFromStorage Scenarios.registry 9 "ws"
       (saveToStorage "ws"
          (mkState [ordinaryTab "codex" 1; ordinaryTab "claude" 2] (Some "claude"))
          (initial true emptyStorage))
     = Some (mkState [ordinaryTab "codex" 1; ordinaryTab "claude" 2] (Some "claude")).
Proof.
  assert (H1 : storageAvailable (initial true emptyStorage) = true) by reflexivity.
  assert (H2 : ls_throws (storage (initial true emptyStorage)) = false) by reflexivity.
  assert (H3 : persistable Scenarios.registry
                 (mkState [ordinaryTab "codex" 1; ordinaryTab "claude" 2]
                          (Some "claude"))).
  { split.
    - apply Forall_cons. split.
      { split; [reflexivity|]. split; [discriminate|].
        split; [apply list_elem_of_here | reflexivity]. }
      apply Forall_cons. split; [|constructor].
      split; [reflexivity|]. split; [discriminate|].
      split; [apply claude_known | reflexivity].
    - split; [discriminate|]. split.
      + apply NoDup_cons_2; [|apply NoDup_singleton].
        intros H. apply list_elem_of_singleton in H. discriminate.
      + exists (ordinaryTab "claude" 2). split; [|reflexivity].
        apply list_elem_of_further, list_elem_of_here. }
  split; [exact H1|]. split; [exact H2|]. split; [exact H3|].
  apply (ordinary_collection_survives_restart Scenarios.registry 9 "ws" _ _ H1 H2 H3).
Defined.

End ProviderTabsMore.

(** ** KanbanBoard.tsx: what the board shows and when it starts reviews *)

Module KanbanBoardMore.
Import KanbanBoard KanbanBoardRun KanbanStoreFacts KanbanBoardFacts.

Lemma lookupOrTodo_insert (m : gmap string KanbanStatus) w (st : KanbanStatus) :
  lookupOrTodo (<[w := st]> m) w = st.
Proof. unfold lookupOrTodo. rewrite lookup_insert_eq. reflexivity. Qed.

Lemma flushed_idle b : pending b = None -> flushed b = statusMap b.
Proof. intros H. unfold flushed. rewrite H. reflexivity. Qed.

Lemma runsInside_idle b : runsInside b = true -> pending b = None.
Proof.
  unfold runsInside. destruct (hd false (onTheSpot b)); [|discriminate].
  destruct (pending b); [discriminate | reflexivity].
Qed.

(** *** The board and the store *)

Lemma lookupOrTodo_ext (m m' : gmap string KanbanStatus) w :
  m !! w = m' !! w -> lookupOrTodo m w = lookupOrTodo m' w.
Proof. intros H. unfold lookupOrTodo. rewrite H. reflexivity. Qed.

Lemma lookupOrTodo_insert_ne (m : gmap string KanbanStatus) w w' (st : KanbanStatus) :
  w' <> w -> lookupOrTodo (<[w' := st]> m) w = lookupOrTodo m w.
Proof. intros H. apply lookupOrTodo_ext. apply lookup_insert_ne. exact H. Qed.

(** What the render after [setStatusMap] leaves in the store: the updater
    has run once, on the state and the store the render would have arrived
    at without it. *)
Lemma render_stores b :
  store (render b)
  = snd (fold_left runQueued (default [] (pending b)) (statusMap b, store b))
  /\ flushed b
     = fst (fold_left runQueued (default [] (pending b)) (statusMap b, store b)).
Proof.
  unfold render, flushed. destruct (pending b) as [q|]; cbn [default from_option id].
  - rewrite flush_fst. destruct (fold_left runQueued q _) as [m st]. auto.
  - auto.
Qed.

Lemma render_setStatusMap_store u b :
  store (render (snd (setStatusMap u b)))
  = snd (runUpdate u (flushed b) (store (render b))).
Proof.
  destruct (render_stores b) as [Hs Hf]. rewrite Hs, Hf.
  destruct (render_stores (snd (setStatusMap u b))) as [Hs' _]. rewrite Hs'. clear.
  unfold setStatusMap.
  destruct (hd false (onTheSpot b)); cbn [andb].
  - destruct (pending b) as [q|] eqn:Ep.
    + cbn [snd pending statusMap store default from_option id]. rewrite fold_left_app.
      cbn [fold_left]. rewrite runQueued_spec. reflexivity.
    + cbn [default from_option id fold_left fst snd].
      destruct (runUpdate u (statusMap b) (store b)) as [[c next] st].
      destruct c; reflexivity.
  - destruct (pending b) as [q|] eqn:Ep.
    + cbn [snd pending statusMap store default from_option id]. rewrite fold_left_app.
      cbn [fold_left]. rewrite runQueued_spec. reflexivity.
    + cbn [snd pending statusMap store default from_option id app fold_left fst].
      rewrite runQueued_spec. reflexivity.
Qed.

Lemma coherent_render b : coherent b -> coherent (render b).
Proof.
  intros [Hq Hc]. split; [intros w; apply render_noPromotion|].
  intros w. rewrite shown_flushed, flushed_render, <- shown_flushed.
  rewrite (render_status w b (Hq w)). apply Hc.
Qed.

Lemma coherent_hydrate react s : coherent (hydrate react s).
Proof.
  unfold hydrate, KanbanStore.getAll.
  pose proof (getStatus_read s) as H.
  destruct (KanbanStore.read s) as [m s1] eqn:E. cbn [snd] in H.
  split; [intros w; constructor|].
  intros w. rewrite shown_flushed. unfold statusOf. cbn [store]. rewrite H.
  unfold KanbanStore.getStatus. rewrite E. reflexivity.
Qed.

Lemma coherent_frame b b' :
  pending b' = pending b -> statusMap b' = statusMap b -> store b' = store b ->
  coherent b -> coherent b'.
Proof.
  intros Hp Hm Hs [Hq Hc]. split.
  - intros w. unfold noPromotion. rewrite Hp. apply Hq.
  - intros w. rewrite shown_flushed.
    transitivity (statusOf w b); [|unfold statusOf; rewrite Hs; reflexivity].
    rewrite <- (Hc w), shown_flushed. unfold flushed. rewrite Hp, Hm. reflexivity.
Qed.

Lemma coherent_read w' b :
  coherent b -> coherent (withStore (snd (KanbanStore.getStatus w' (store b))) b).
Proof.
  intros [Hq Hc]. split; [exact Hq|].
  intros w. rewrite statusOf_hydrated, <- (Hc w), !shown_flushed. reflexivity.
Qed.

Lemma coherent_markDone ws b : coherent b -> coherent (markDone ws b).
Proof.
  intros [Hq Hc]. split; [intros w; apply markDone_noPromotion, Hq|].
  intros w. rewrite shown_flushed.
  rewrite (lookupOrTodo_ext _ (if bool_decide (wellFormedWs ws /\ ws_id ws = w)
                               then <[w := Done]> (flushed b) else flushed b) w).
  2: { rewrite markDone_flushed. destruct (bool_decide _); [|reflexivity].
       rewrite lookup_insert_eq. reflexivity. }
  destruct (bool_decide (wellFormedWs ws /\ ws_id ws = w)) eqn:E.
  - apply bool_decide_eq_true in E as [Hwf <-].
    rewrite lookupOrTodo_insert, (markDone_status ws b Hwf). reflexivity.
  - apply bool_decide_eq_false in E.
    destruct (guard_cases ws) as [H|H].
    + rewrite (markDone_skip ws b H), <- (Hc w), shown_flushed. reflexivity.
    + rewrite markDone_status_ne by (intros Heq; apply E; auto).
      rewrite <- (Hc w), shown_flushed. reflexivity.
Qed.

Lemma coherent_settle ws b : coherent b -> coherent (settle ws b).
Proof.
  intros H. rewrite settle_unfold. cbv zeta.
  destruct (bool_decide _); [apply coherent_markDone|]; apply coherent_read; exact H.
Qed.

Lemma coherent_onIdleTimer ws b : coherent b -> coherent (onIdleTimer ws b).
Proof.
  intros H. apply (coherent_frame (settle ws b)); try reflexivity.
  apply coherent_settle. exact H.
Qed.

Lemma coherent_fold (f : Board -> Workspace * Z -> Board) (due : list (Workspace * Z)) :
  (forall b t, coherent b -> coherent (f b t)) ->
  forall b, coherent b -> coherent (fold_left f due b).
Proof.
  intros Hf. induction due as [|t due IH]; intros b H; [exact H|].
  cbn [fold_left]. apply IH, Hf, H.
Qed.

Lemma coherent_advance dt b : coherent b -> coherent (advance dt b).
Proof.
  intros H. rewrite advance_unfold. cbv zeta.
  apply coherent_fold; [intros; apply coherent_onIdleTimer; assumption|].
  apply coherent_fold; [intros; apply coherent_settle; assumption|].
  apply (coherent_frame b); try reflexivity. exact H.
Qed.

Lemma coherent_drop w target b :
  coherent b ->
  coherent (snd (setStatusMap (DropUpdate w target)
                   (withStore (KanbanStore.setStatus w target (store b)) b))).
Proof.
  intros [Hq Hc].
  set (b0 := withStore (KanbanStore.setStatus w target (store b)) b).
  destruct (setStatusMap_spec (DropUpdate w target) b0)
    as (_ & Hs & Hf & Hp & _).
  cbv zeta in *. split.
  - intros w'. apply (noPromotion_queue w' b0 _ _ Hp); [discriminate | apply Hq].
  - intros w'. rewrite shown_flushed, Hf. unfold statusOf. rewrite Hs.
    assert (Hst : (if runsInside b0
                   then snd (runUpdate (DropUpdate w target) (statusMap b0) (store b0))
                   else store b0) = KanbanStore.setStatus w target (store b))
      by (destruct (runsInside b0); reflexivity).
    rewrite Hst. cbn [nextState].
    destruct (decide (w = w')) as [<-|Hne].
    + rewrite lookupOrTodo_insert, getStatus_setStatus. reflexivity.
    + rewrite (lookupOrTodo_insert_ne _ _ _ _ Hne), (getStatus_setStatus_ne _ _ _ _ Hne).
      change (flushed b0) with (flushed b).
      rewrite <- shown_flushed. apply Hc.
Qed.

(** A derived-status report and the render that follows it. *)
Lemma coherent_promote ws busy b :
  coherent b -> coherent (render (onDerivedStatus ws busy b)).
Proof.
  intros H. unfold onDerivedStatus.
  destruct busy; cbn [negb]; [|apply coherent_render; exact H].
  destruct (coherent_render b H) as [_ Hc].
  split; [intros w; apply render_noPromotion|].
  intros w. unfold statusOf. rewrite render_setStatusMap_store.
  rewrite shown_flushed, flushed_render.
  destruct (setStatusMap_spec (PromoteUpdate (ws_id ws)) b) as (_ & _ & Hf & _).
  cbv zeta in Hf. rewrite Hf.
  pose proof (Hc w) as Hw. rewrite shown_flushed, flushed_render in Hw.
  unfold statusOf in Hw. cbn [nextState runUpdate].
  destruct (bool_decide (flushed b !! ws_id ws = Some InProgress)); cbn [snd];
    [exact Hw|].
  destruct (decide (ws_id ws = w)) as [<-|Hne].
  - rewrite lookupOrTodo_insert, getStatus_setStatus. reflexivity.
  - rewrite (lookupOrTodo_insert_ne _ _ _ _ Hne), (getStatus_setStatus_ne _ _ _ _ Hne).
    exact Hw.
Qed.

Lemma coherent_step b e :
  (forall ws busy, e <> DerivedStatus ws busy) -> coherent b -> coherent (stepBoard b e).
Proof.
  intros He H.
  destruct e as [ws busy|ws busy|dt|ws busy|ws ev ca busy|wss target wid| |];
    cbn [stepBoard].
  - destruct (He ws busy eq_refl).
  - unfold onActivity. destruct busy; apply (coherent_frame b); try reflexivity; exact H.
  - apply coherent_advance. exact H.
  - unfold onPtyExit. destruct busy; [exact H | apply coherent_settle; exact H].
  - unfold onPollResult. destruct (ev && negb ca); [|exact H].
    destruct busy; [exact H | apply coherent_markDone; exact H].
  - unfold handleDrop.
    destruct target; try (apply coherent_drop; exact H).
    destruct (List.find _ wss); [apply coherent_markDone | apply coherent_drop]; exact H.
  - apply coherent_render. exact H.
  - apply (coherent_frame b); try reflexivity. exact H.
Qed.

Lemma coherent_run n :
  forall evs b, (length evs <= n)%nat -> promptly evs = true ->
                coherent b -> coherent (runBoard evs b).
Proof.
  induction n as [|n IH]; intros evs b Hlen Hp H.
  { destruct evs; [exact H | simpl in Hlen; lia]. }
  destruct evs as [|e evs]; [exact H|].
  cbn [length] in Hlen.
  destruct e as [ws busy|ws busy|dt|ws busy|ws ev ca busy|wss target wid| |].
  1: { cbn [promptly] in Hp.
       destruct evs as [|e' evs]; [discriminate|].
       destruct e'; try discriminate.
       cbn [runBoard fold_left stepBoard]. cbn [length] in Hlen.
       apply IH; [lia | exact Hp | apply coherent_promote; exact H]. }
  all: cbn [promptly] in Hp; cbn [runBoard fold_left];
    (apply IH; [lia | exact Hp | apply coherent_step; [discriminate | exact H]]).
Qed.

(** X20.  As long as only the board writes the statuses and every
    derived-status report is followed by a render before the next callback
    runs: after hydration and any sequence of board callbacks (derived
    status, activity, timers coming due, terminal exits, poll results,
    drops), renders and runs of the effect, the status a column shows for a
    workspace at the next render is the status the store holds for it, and
    that render writes nothing to the store.  Without the render in between
    the two can part: the updater of the derived-status callback writes to
    the store when it runs, which may be after [markDone] has written. *)
Theorem board_shows_stored_status
    (react : list bool) (s : KanbanStore.Store) (evs : list BoardEvent) (w : string) :
  promptly evs = true ->
  let b := runBoard evs (hydrate react s) in
  shown w b = statusOf w b /\ statusOf w (render b) = statusOf w b.
Proof.
  intros Hp b.
  assert (Hc : coherent b).
  { apply (coherent_run (length evs)); [lia | exact Hp | apply coherent_hydrate]. }
  destruct Hc as [Hq Hc]. split; [apply Hc | apply render_status, Hq].
Qed.

Lemma board_shows_stored_status_witness :
  promptly [DerivedStatus Scenarios.ws1 true; Show;
            PollResult Scenarios.ws1 true false false] = true
  /\ shown "ws-1"
       (runBoard [DerivedStatus Scenarios.ws1 true; Show;
                  PollResult Scenarios.ws1 true false false]
                 (hydrate [] (KanbanStore.initial emptyStorage)))
     = Done
  /\ statusOf "ws-1"
       (runBoard [DerivedStatus Scenarios.ws1 true; Show;
                  PollResult Scenarios.ws1 true false false]
                 (hydrate [] (KanbanStore.initial emptyStorage)))
     = Done.
Proof.
  assert (H : promptly [DerivedStatus Scenarios.ws1 true; Show;
                        PollResult Scenarios.ws1 true false false] = true)
    by reflexivity.
  destruct (board_shows_stored_status [] (KanbanStore.initial emptyStorage) _ "ws-1" H)
    as [A _].
  split; [exact H|]. split; [|rewrite <- A]; vm_compute; reflexivity.
Defined.

(** The same callbacks without the render in between, when React queues
    both updaters: the render runs the derived-status updater after
    [markDone] has stored [done], so the board shows [done] while the store
    says [in-progress]. *)
Lemma late_promotion_overrides_done :
  shown "ws-1"
    (runBoard [DerivedStatus Scenarios.ws1 true;
               PollResult Scenarios.ws1 true false false; Show]
              (hydrate [] (KanbanStore.initial emptyStorage)))
  = Done
  /\ statusOf "ws-1"
       (runBoard [DerivedStatus Scenarios.ws1 true;
                  PollResult Scenarios.ws1 true false false; Show]
                 (hydrate [] (KanbanStore.initial emptyStorage)))
     = InProgress.
Proof. vm_compute. split; reflexivity. Qed.

(** After [markDone] the next call of [setStatusMap] cannot both run its
    updater inside the call and find the workspace not done. *)
Lemma markDone_again ws b :
  wellFormedWs ws ->
  runsInside (markDone ws b)
  && negb (bool_decide (lookupOrTodo (statusMap (markDone ws b)) (ws_id ws) = Done))
  = false.
Proof.
  intros Hwf. unfold markDone, autoStartReviewIfDone. rewrite (guard_false ws Hwf).
  unfold setStatusMap, runsInside.
  destruct (hd false (onTheSpot b)); cbn [andb].
  - destruct (pending b) as [q|].
    + cbn. rewrite andb_false_r. reflexivity.
    + cbn [runUpdate].
      destruct (bool_decide (lookupOrTodo (statusMap b) (ws_id ws) = Done)) eqn:E.
      * cbn. rewrite E. apply andb_false_r.
      * cbn. rewrite andb_false_r. reflexivity.
  - cbn. rewrite andb_false_r. reflexivity.
Qed.

(** X21.  [markDone] of a workspace with an id and a path stores [done], and
    the board shows [done] at its next render.  The review starter is called
    exactly when React runs the updater inside the call of [setStatusMap] and
    the state does not show [done] yet; when React queues the updater, the
    starter is not called, neither then nor at the render that runs the
    updater.  A second [markDone] right after the first never calls it. *)
Theorem markDone_starts_review_once (ws : Workspace) (b : Board) :
  wellFormedWs ws ->
  statusOf (ws_id ws) (markDone ws b) = Done
  /\ shown (ws_id ws) (markDone ws b) = Done
  /\ reviewStarts (markDone ws b)
     = (if runsInside b
           && negb (bool_decide (lookupOrTodo (statusMap b) (ws_id ws) = Done))
        then reviewStarts b ++ [(ws_id ws, ws_path ws)]
        else reviewStarts b)
  /\ reviewStarts (render (markDone ws b)) = reviewStarts (markDone ws b)
  /\ reviewStarts (markDone ws (markDone ws b)) = reviewStarts (markDone ws b).
Proof.
  intros Hwf.
  destruct (markDone_spec ws b Hwf) as (_ & _ & _ & Hr & _).
  split; [apply markDone_status; exact Hwf|]. split; [|split; [exact Hr|split]].
  - rewrite shown_flushed. apply lookupOrTodo_done.
    rewrite markDone_flushed. rewrite bool_decide_eq_true_2 by auto. reflexivity.
  - apply render_spec.
  - destruct (markDone_spec ws (markDone ws b) Hwf) as (_ & _ & _ & Hr' & _).
    rewrite Hr', (markDone_again ws b Hwf). reflexivity.
Qed.

Lemma markDone_starts_review_once_witness :
  wellFormedWs Scenarios.ws1
  /\ reviewStarts (markDone Scenarios.ws1 Scenarios.inProgressBoard)
     = [("ws-1", "/tmp/ws-1")]
  /\ reviewStarts (render (markDone Scenarios.ws1 Scenarios.inProgressBoardQueueing))
     = [].
Proof.
  assert (H : wellFormedWs Scenarios.ws1) by (split; discriminate).
  split; [exact H|].
  destruct (markDone_starts_review_once Scenarios.ws1 Scenarios.inProgressBoard H)
    as (_ & _ & A & _).
  destruct (markDone_starts_review_once Scenarios.ws1 Scenarios.inProgressBoardQueueing H)
    as (_ & _ & A' & B' & _).
  split; [rewrite A; reflexivity | rewrite B', A'; reflexivity].
Defined.

(** X22.  The two settle paths act on in-progress workspaces only, the
    polls on any.  When the stored status of a workspace is not
    [in-progress], neither its grace timer coming due nor its terminal
    exiting changes its status or calls the review starter.  A poll that
    finds evidence while the workspace is not busy stores [done] whatever
    the status was, [todo] included, and the board shows [done] at its next
    render; it calls the review starter with the id and path when React runs
    the updater inside the call and the board does not show [done] yet, and
    does not call it when React queues the updater. *)
Theorem settle_needs_in_progress (ws : Workspace) (b : Board) :
  wellFormedWs ws ->
  (statusOf (ws_id ws) b <> InProgress ->
     statusOf (ws_id ws) (onIdleTimer ws b) = statusOf (ws_id ws) b
     /\ reviewStarts (onIdleTimer ws b) = reviewStarts b
     /\ forall busy,
          statusOf (ws_id ws) (onPtyExit ws busy b) = statusOf (ws_id ws) b
          /\ reviewStarts (onPtyExit ws busy b) = reviewStarts b)
  /\ statusOf (ws_id ws) (onPollResult ws true false false b) = Done
  /\ shown (ws_id ws) (onPollResult ws true false false b) = Done
  /\ (runsInside b = true -> shown (ws_id ws) b <> Done ->
      reviewStarts (onPollResult ws true false false b)
      = reviewStarts b ++ [(ws_id ws, ws_path ws)])
  /\ (runsInside b = false ->
      reviewStarts (onPollResult ws true false false b) = reviewStarts b).
Proof.
  intros Hwf. split; [|split; [|split; [|split]]].
  - intros Hne.
    assert (Hs : statusOf (ws_id ws) (settle ws b) = statusOf (ws_id ws) b
                 /\ reviewStarts (settle ws b) = reviewStarts b).
    { rewrite (settle_rests ws b Hne).
      split; [apply statusOf_hydrated | reflexivity]. }
    split; [exact (proj1 Hs)|]. split; [exact (proj2 Hs)|].
    intros [|]; [split; reflexivity | exact Hs].
  - apply markDone_status. exact Hwf.
  - unfold onPollResult. cbn [andb negb]. rewrite shown_flushed.
    apply lookupOrTodo_done. rewrite markDone_flushed.
    rewrite bool_decide_eq_true_2 by auto. reflexivity.
  - intros Hin Hsh. unfold onPollResult. cbn [andb negb].
    destruct (markDone_spec ws b Hwf) as (_ & _ & _ & Hr & _). rewrite Hr, Hin.
    rewrite shown_flushed, (flushed_idle b (runsInside_idle b Hin)) in Hsh.
    rewrite (bool_decide_eq_false_2 _ Hsh). reflexivity.
  - intros Hq. unfold onPollResult. cbn [andb negb].
    destruct (markDone_spec ws b Hwf) as (_ & _ & _ & Hr & _). rewrite Hr, Hq.
    reflexivity.
Qed.

Lemma settle_needs_in_progress_witness :
  wellFormedWs Scenarios.ws1
  /\ reviewStarts
       (onPollResult Scenarios.ws1 true false false
          (hydrate [true] (KanbanStore.initial emptyStorage)))
     = [("ws-1", "/tmp/ws-1")]
  /\ reviewStarts
       (onIdleTimer Scenarios.ws1 (hydrate [true] (KanbanStore.initial emptyStorage)))
     = [].
Proof.
  assert (H : wellFormedWs Scenarios.ws1) by (split; discriminate).
  split; [exact H|].
  destruct (settle_needs_in_progress Scenarios.ws1
              (hydrate [true] (KanbanStore.initial emptyStorage)) H)
    as (A & _ & _ & B & _).
  split.
  - rewrite B; [reflexivity | reflexivity | vm_compute; discriminate].
  - destruct A as (_ & A & _); [vm_compute; discriminate|]. rewrite A. reflexivity.
Defined.

(** X23.  [handleDrop]: a drop on a column other than [done] stores and
    shows the target status and never calls the review starter; so does a
    drop on [done] of a card whose workspace is not in the project's list.
    A drop on [done] of a listed workspace that lacks an id or a path does
    nothing at all: the card stays where it was. *)
Theorem handleDrop_cases
    (workspaces : list Workspace) (target : KanbanStatus) (workspaceId : string)
    (b : Board) :
  let found := List.find (fun w => String.eqb (ws_id w) workspaceId) workspaces in
  let b' := handleDrop workspaces target workspaceId b in
  (target <> Done \/ found = None ->
     statusOf workspaceId b' = target /\ shown workspaceId b' = target
     /\ reviewStarts b' = reviewStarts b)
  /\ (forall ws, target = Done -> found = Some ws ->
        ws_id ws = "" \/ ws_path ws = "" -> b' = b)
  /\ (forall ws, target = Done -> found = Some ws -> wellFormedWs ws ->
        b' = markDone ws b /\ statusOf workspaceId b' = Done).
Proof.
  intros found b'. subst found b'. unfold handleDrop.
  split; [|split].
  - intros H.
    assert (Hset : forall b0,
              b0 = snd (setStatusMap (DropUpdate workspaceId target)
                          (withStore (KanbanStore.setStatus workspaceId target (store b))
                                     b)) ->
              statusOf workspaceId b0 = target /\ shown workspaceId b0 = target
              /\ reviewStarts b0 = reviewStarts b).
    { intros b0 ->.
      destruct (setStatusMap_spec (DropUpdate workspaceId target)
                  (withStore (KanbanStore.setStatus workspaceId target (store b)) b))
        as (_ & Hs & Hf & _ & _ & _ & _ & Hr & _).
      cbv zeta in *. split; [|split].
      - unfold statusOf. rewrite Hs.
        destruct (runsInside _); cbn [runUpdate snd withStore store];
          apply getStatus_setStatus.
      - rewrite shown_flushed, Hf. apply lookupOrTodo_insert.
      - rewrite Hr. reflexivity. }
    apply Hset. destruct H as [H|H].
    + destruct target; try reflexivity. contradiction.
    + rewrite H. destruct target; reflexivity.
  - intros ws -> Hf Hbad. rewrite Hf. apply markDone_skip.
    destruct Hbad as [-> | ->]; [reflexivity|].
    rewrite String.eqb_refl, orb_true_r. reflexivity.
  - intros ws -> Hf Hwf. rewrite Hf. split; [reflexivity|].
    apply find_some in Hf as [_ E]. apply String.eqb_eq in E. subst workspaceId.
    apply markDone_status. exact Hwf.
Qed.

End KanbanBoardMore.

(** ** useReviewAutoStart: the sticky flag *)

Module ReviewAutoStartMore.
Import ReviewAutoStart.

Lemma renders_from (statuses : list KanbanStatus) :
  forall h,
    (previousStatus h = Some Done -> reviewStarted h = true) ->
    reviewStarted (renders statuses h)
    = reviewStarted h || existsb (fun st => bool_decide (st = Done)) statuses
    /\ previousStatus (renders statuses h)
       = match last statuses with Some st => Some st | None => previousStatus h end.
Proof.
  induction statuses as [|st sts IH]; intros h Hinv.
  - simpl. rewrite orb_false_r. auto.
  - assert (Hinv' : previousStatus (render st h) = Some Done ->
                    reviewStarted (render st h) = true).
    { unfold render. destruct (bool_decide (previousStatus h = Some st)) eqn:E;
        [exact Hinv|]. cbn [previousStatus reviewStarted].
      intros H. inversion H; subst st.
      apply bool_decide_eq_false in E.
      rewrite bool_decide_eq_true_2 by reflexivity.
      rewrite (bool_decide_eq_false_2 _ E). reflexivity. }
    destruct (IH (render st h) Hinv') as [H1 H2].
    change (renders (st :: sts) h) with (renders sts (render st h)).
    rewrite H1, H2. split.
    + cbn [existsb]. rewrite orb_assoc. f_equal.
      unfold render. destruct (bool_decide (previousStatus h = Some st)) eqn:E.
      * apply bool_decide_eq_true in E.
        destruct (bool_decide (st = Done)) eqn:D; [|rewrite orb_false_r; reflexivity].
        apply bool_decide_eq_true in D. subst st.
        rewrite (Hinv E). reflexivity.
      * cbn [reviewStarted]. destruct (bool_decide (st = Done)) eqn:D; cbn [andb].
        -- apply bool_decide_eq_true in D. subst st.
           apply bool_decide_eq_false in E.
           rewrite (bool_decide_eq_false_2 _ E). cbn [negb].
           rewrite orb_true_r. reflexivity.
        -- rewrite orb_false_r. reflexivity.
    + rewrite last_cons. destruct (last sts); [reflexivity|].
      unfold render.
      destruct (bool_decide (previousStatus h = Some st)) eqn:E; [|reflexivity].
      apply bool_decide_eq_true in E. exact E.
Qed.

(** X24.  [reviewStarted] of [useReviewAutoStart] is sticky: after any
    sequence of renders it is [true] exactly when some render saw the status
    [done], and it is never reset, also not when the status has moved away
    from [done]; [shouldShowReview] follows the status of the current render
    alone. *)
Theorem reviewStarted_never_resets (statuses : list KanbanStatus) :
  reviewStarted (renders statuses initialHook)
  = existsb (fun st => bool_decide (st = Done)) statuses
  /\ previousStatus (renders statuses initialHook) = last statuses
  /\ (forall more, reviewStarted (renders statuses initialHook) = true ->
                   reviewStarted (renders (statuses ++ more) initialHook) = true).
Proof.
  destruct (renders_from statuses initialHook) as [H1 H2]; [discriminate|].
  split; [exact H1|]. split.
  - rewrite H2. destruct (last statuses); reflexivity.
  - intros more H. destruct (renders_from (statuses ++ more) initialHook) as [H3 _];
      [discriminate|].
    rewrite H3. rewrite H1 in H. cbn [reviewStarted initialHook orb] in *.
    rewrite existsb_app, H. reflexivity.
Qed.

End ReviewAutoStartMore.

(** ** useReviewAgent: starts, the duplicate guard and the auto-start timer *)

Module ReviewAgentHookMore.
Import Json ReviewAgentHook.

Lemma tabId_fallback registry now w prov s :
  (if String.eqb (fst (ProviderTabs.addReviewTab registry now w prov prov s)) ""
   then prov +:+ "-review"
   else fst (ProviderTabs.addReviewTab registry now w prov prov s))
  = prov +:+ "-review".
Proof.
  unfold ProviderTabs.addReviewTab.
  destruct (negb (ProviderTabs.isValidProviderId registry (Some (JStr prov))));
    cbn [fst]; [reflexivity|].
  destruct prov; reflexivity.
Qed.

Section Hook.
Variable registry : list string.
Variable cfg : Config.

(** What one call of [startReview] does to the instance and the reports. *)
Lemma startReview_effect now w :
  (reported (startReview registry cfg now w) = reported w
   /\ startedRef (startReview registry cfg now w) = startedRef w
   /\ timer (startReview registry cfg now w) = timer w
   /\ autoStartChecked (startReview registry cfg now w) = autoStartChecked w
   /\ (reviewEnabled cfg = false \/ canStartReview cfg w = false
       \/ workspaceId cfg ∈ startedRef w))
  \/ (reviewEnabled cfg = true /\ canStartReview cfg w = true
      /\ (workspaceId cfg ∉ startedRef w)
      /\ reported (startReview registry cfg now w)
         = reported w ++ [mkInReview (reviewTabId cfg) now]
      /\ startedRef (startReview registry cfg now w)
         = {[workspaceId cfg]} ∪ startedRef w
      /\ timer (startReview registry cfg now w) = timer w
      /\ autoStartChecked (startReview registry cfg now w) = autoStartChecked w
      /\ toasts (startReview registry cfg now w) = toasts w ++ [ReviewStartedToast]).
Proof.
  unfold startReview.
  destruct (reviewEnabled cfg) eqn:En; cbn [negb];
    [|left; repeat (split; [reflexivity|]); auto].
  destruct (canStartReview cfg w) eqn:G; cbn [negb];
    [|left; repeat (split; [reflexivity|]); auto].
  destruct (bool_decide (workspaceId cfg ∈ startedRef w)) eqn:S.
  { apply bool_decide_eq_true in S. left. repeat (split; [reflexivity|]). auto. }
  apply bool_decide_eq_false in S. right.
  split; [reflexivity|]. split; [reflexivity|]. split; [exact S|].
  pose proof (tabId_fallback registry now (workspaceId cfg) (reviewProvider cfg)
                (tabsOf (withInstance ({[workspaceId cfg]} ∪ startedRef w)
                           (autoStartChecked w) (timer w) w))) as Hid.
  destruct (ProviderTabs.addReviewTab registry now (workspaceId cfg)
              (reviewProvider cfg) (reviewProvider cfg) _) as [rid t].
  cbn [fst] in Hid. rewrite Hid.
  unfold setPendingReviewPrompt, report, withTabs, withInstance, toast, withPrompts.
  cbn [ls]. destruct (ls_throws (ProviderTabs.storage t)); cbn;
    repeat (split; [reflexivity|]); reflexivity.
Qed.

Lemma autoStartEffect_keeps w :
  reported (autoStartEffect cfg w) = reported w
  /\ startedRef (autoStartEffect cfg w) = startedRef w
  /\ toasts (autoStartEffect cfg w) = toasts w
  /\ tabStates (autoStartEffect cfg w) = tabStates w.
Proof.
  unfold autoStartEffect.
  destruct (negb (autoStart cfg) || autoStartChecked w); [auto|].
  destruct (KanbanStore.isReviewPending _ _) as [pending k].
  destruct (pending && reviewEnabled cfg && canStartReview cfg _); cbn; auto.
Qed.

Lemma onceSince_startReview base now w :
  onceSince cfg base w -> onceSince cfg base (startReview registry cfg now w).
Proof.
  intros H. destruct (startReview_effect now w)
    as [(R & S & _)|(_ & _ & Hn & R & S & _)].
  - unfold onceSince. rewrite R, S. exact H.
  - destruct H as [[Hb _]|(r & _ & _ & Hin)]; [|contradiction].
    right. exists (mkInReview (reviewTabId cfg) now). rewrite R, S, Hb.
    split; [reflexivity|]. split; [reflexivity|].
    apply elem_of_union. left. apply elem_of_singleton. reflexivity.
Qed.

Lemma onceSince_step base w e :
  sameInstance e = true -> onceSince cfg base w -> onceSince cfg base (stepHook registry cfg w e).
Proof.
  intros He H. destruct e as [| |now|now|]; try discriminate; cbn [stepHook].
  - destruct (autoStartEffect_keeps
                (withInstance (startedRef w) (autoStartChecked w) false w))
      as (R & S & _).
    unfold onceSince. rewrite R, S. exact H.
  - destruct (timer w); [|exact H]. apply onceSince_startReview. exact H.
  - apply onceSince_startReview. exact H.
Qed.

(** X25.  One mounted instance of the hook reports at most one review:
    after the mount and any sequence of explicit [startReview] calls,
    effect re-runs and timer expiries, [onReviewStateChange] has been called
    at most once more than before the mount, and that call carried the tab
    id [<provider>-review]. *)
Theorem one_review_per_mount (w0 : World) (evs : list HookEvent) :
  forallb sameInstance evs = true ->
  exists extra,
    reported (runHook registry cfg evs (stepHook registry cfg w0 Mount))
    = reported w0 ++ extra
    /\ (length extra <= 1)%nat
    /\ Forall (fun r => ir_tabId r = (reviewTabId cfg)) extra.
Proof.
  intros Hev.
  assert (H0 : onceSince cfg (reported w0) (stepHook registry cfg w0 Mount)).
  { left. cbn [stepHook].
    destruct (autoStartEffect_keeps (withInstance ∅ false false w0)) as (R & S & _).
    rewrite R, S. split; [reflexivity|]. apply not_elem_of_empty. }
  assert (H : onceSince cfg (reported w0)
                (runHook registry cfg evs (stepHook registry cfg w0 Mount))).
  { revert H0. generalize (stepHook registry cfg w0 Mount).
    generalize (reported w0). clear w0. intros base.
    induction evs as [|e evs IH]; intros w H; [exact H|].
    cbn [forallb] in Hev. apply andb_prop in Hev as [He Hev].
    cbn. apply (IH Hev). apply onceSince_step; assumption. }
  destruct H as [[R _]|(r & R & Hr & _)].
  - exists []. rewrite R, app_nil_r. split; [reflexivity|]. split; [cbn; lia|constructor].
  - exists [r]. split; [exact R|]. split; [cbn; lia|]. constructor; [exact Hr|constructor].
Qed.

(** *** The auto-start effect *)

Lemma kanbanOf_withKanban k w : kanbanOf (withKanban k w) = k.
Proof. destruct k. reflexivity. Qed.

Lemma kanbanOf_withInstance a b c w : kanbanOf (withInstance a b c w) = kanbanOf w.
Proof. reflexivity. Qed.

Lemma isReviewPending_snd w s :
  snd (KanbanStore.isReviewPending w s) = snd (KanbanStore.readReviewPending s).
Proof.
  unfold KanbanStore.isReviewPending.
  destruct (KanbanStore.readReviewPending s). reflexivity.
Qed.

Lemma isReviewPending_again w s :
  fst (KanbanStore.isReviewPending w (snd (KanbanStore.isReviewPending w s)))
  = fst (KanbanStore.isReviewPending w s).
Proof.
  rewrite isReviewPending_snd, !KanbanStoreFacts.isReviewPending_reads.
  rewrite (KanbanStoreMore.readReviewPending_cached _ _
             (KanbanStoreMore.readReviewPending_cache s)).
  reflexivity.
Qed.

Lemma isReviewPending_storage w s :
  KanbanStore.storage (snd (KanbanStore.isReviewPending w s)) = KanbanStore.storage s.
Proof.
  rewrite isReviewPending_snd. unfold KanbanStore.readReviewPending.
  destruct (KanbanStore.reviewPendingCache s); reflexivity.
Qed.

Lemma isReviewPending_cleared w s :
  fst (KanbanStore.isReviewPending w (KanbanStore.clearReviewPending w s)) = false.
Proof.
  rewrite KanbanStoreFacts.isReviewPending_reads. unfold KanbanStore.clearReviewPending.
  rewrite (KanbanStoreMore.readReviewPending_cached _ _
             (KanbanStoreMore.setReviewPending_cache w false s)).
  cbn [fst]. rewrite lookup_delete_eq. reflexivity.
Qed.

Lemma canStartReview_withKanban k w :
  ls_throws (KanbanStore.storage k) = ls_throws (ls w) ->
  ls_tabs (KanbanStore.storage k) = ls_tabs (ls w) ->
  canStartReview cfg (withKanban k w) = canStartReview cfg w.
Proof.
  intros H1 H2. unfold canStartReview.
  apply ReviewAgentFacts.canStartReview_ext; assumption.
Qed.

Lemma autoStartEffect_quiet w :
  timer w = false -> pendingFlag cfg w = false ->
  quiet cfg (reported w) (autoStartEffect cfg w).
Proof.
  intros Ht Hp. unfold autoStartEffect.
  destruct (negb (autoStart cfg) || autoStartChecked w); [split; auto|].
  set (w1 := withInstance (startedRef w) true (timer w) w).
  assert (Hp1 : fst (KanbanStore.isReviewPending (workspaceId cfg) (kanbanOf w1)) = false)
    by exact Hp.
  pose proof (isReviewPending_again (workspaceId cfg) (kanbanOf w1)) as Hag.
  destruct (KanbanStore.isReviewPending (workspaceId cfg) (kanbanOf w1)) as [pending k].
  cbn [fst snd] in *. subst pending. cbn [andb].
  split; [exact Ht|]. split; [|reflexivity].
  unfold pendingFlag. rewrite kanbanOf_withKanban, Hag. reflexivity.
Qed.

Lemma autoStartEffect_arms w :
  autoStart cfg = true -> autoStartChecked w = false ->
  reviewEnabled cfg = true -> pendingFlag cfg w = true ->
  canStartReview cfg w = true ->
  timer (autoStartEffect cfg w) = true
  /\ pendingFlag cfg (autoStartEffect cfg w) = false
  /\ reported (autoStartEffect cfg w) = reported w
  /\ startedRef (autoStartEffect cfg w) = startedRef w
  /\ canStartReview cfg (autoStartEffect cfg w) = true.
Proof.
  intros Ha Hc He Hp Hg. unfold autoStartEffect. rewrite Ha, Hc, He. cbn [negb orb].
  set (w1 := withInstance (startedRef w) true (timer w) w).
  assert (Hp1 : fst (KanbanStore.isReviewPending (workspaceId cfg) (kanbanOf w1)) = true)
    by exact Hp.
  pose proof (isReviewPending_storage (workspaceId cfg) (kanbanOf w1)) as Hst.
  destruct (KanbanStore.isReviewPending (workspaceId cfg) (kanbanOf w1)) as [pending k].
  cbn [fst snd] in *. subst pending.
  assert (Hg2 : canStartReview cfg (withKanban k w1) = true).
  { rewrite canStartReview_withKanban; [exact Hg | rewrite Hst; reflexivity ..]. }
  rewrite Hg2. cbn [andb].
  split; [reflexivity|]. split; [|split; [reflexivity|split; [reflexivity|]]].
  - unfold pendingFlag. rewrite kanbanOf_withInstance, !kanbanOf_withKanban.
    apply isReviewPending_cleared.
  - destruct (ReviewAgentFacts.setReviewPending_storage (workspaceId cfg) false k)
      as [T1 T2].
    transitivity (canStartReview cfg (withKanban k w1)); [|exact Hg2].
    unfold canStartReview. apply ReviewAgentFacts.canStartReview_ext.
    + cbn [withInstance ls withKanban]. rewrite kanbanOf_withKanban. exact T1.
    + cbn [withInstance ls withKanban]. rewrite kanbanOf_withKanban. exact T2.
Qed.

Lemma quiet_step base w e :
  automatic e = true -> quiet cfg base w -> quiet cfg base (stepHook registry cfg w e).
Proof.
  intros He (Ht & Hp & Hr). destruct e as [| |now|now|]; try discriminate; cbn [stepHook].
  - rewrite <- Hr. apply (autoStartEffect_quiet (withInstance ∅ false false w));
      [reflexivity | exact Hp].
  - rewrite <- Hr.
    apply (autoStartEffect_quiet
             (withInstance (startedRef w) (autoStartChecked w) false w));
      [reflexivity | exact Hp].
  - rewrite Ht. split; auto.
  - split; [reflexivity|]. split; [exact Hp | exact Hr].
Qed.

Lemma quiet_run base evs :
  forall w, forallb automatic evs = true -> quiet cfg base w ->
            quiet cfg base (runHook registry cfg evs w).
Proof.
  induction evs as [|e evs IH]; intros w Hev H; [exact H|].
  cbn [forallb] in Hev. apply andb_prop in Hev as [He Hev].
  cbn. apply (IH _ Hev). apply quiet_step; assumption.
Qed.

(** X26.  The auto-start of a pending review can be lost.  With
    [autoStart], review enabled, the pending-review flag of the workspace up
    and the gate open, the mount clears the flag at once and arms the 500 ms
    timer; if the timer expires undisturbed, the review is reported with the
    tab id [<provider>-review].  But if a dependency of the effect changes,
    or the component unmounts, before the timer expires, the timer is
    cancelled while the flag stays cleared: whatever follows short of an
    explicit [startReview] call (re-runs, expiries, unmounts, new mounts),
    no review is reported and the flag stays down. *)
Theorem cancelled_autostart_loses_pending_review
    (w0 : World) (cancel : HookEvent) (evs : list HookEvent) (now : Z) :
  autoStart cfg = true ->
  reviewEnabled cfg = true ->
  pendingFlag cfg w0 = true ->
  canStartReview cfg w0 = true ->
  cancel = Rerun \/ cancel = Unmount ->
  forallb automatic evs = true ->
  let w1 := stepHook registry cfg w0 Mount in
  timer w1 = true
  /\ pendingFlag cfg w1 = false
  /\ reported w1 = reported w0
  /\ reported (stepHook registry cfg w1 (TimerFires now))
     = reported w0 ++ [mkInReview (reviewTabId cfg) now]
  /\ (let w2 := runHook registry cfg evs (stepHook registry cfg w1 cancel) in
      reported w2 = reported w0 /\ pendingFlag cfg w2 = false /\ timer w2 = false).
Proof.
  intros Ha He Hp Hg Hcancel Hev w1.
  destruct (autoStartEffect_arms (withInstance ∅ false false w0) Ha eq_refl He Hp Hg)
    as (T & P & R & S & G).
  change (autoStartEffect cfg (withInstance ∅ false false w0)) with w1 in *.
  cbn [withInstance reported startedRef] in R, S.
  split; [exact T|]. split; [exact P|]. split; [exact R|]. split.
  - cbn [stepHook]. rewrite T.
    set (w1' := withInstance (startedRef w1) (autoStartChecked w1) false w1).
    destruct (startReview_effect now w1')
      as [(_ & _ & _ & _ & [H|[H|H]])|(_ & _ & _ & R' & _)].
    + congruence.
    + assert (canStartReview cfg w1' = true) by exact G. congruence.
    + exfalso. subst w1'. cbn [withInstance startedRef] in H.
      rewrite S in H. apply not_elem_of_empty in H. exact H.
    + rewrite R'. subst w1'. cbn [withInstance reported]. rewrite R. reflexivity.
  - assert (Hq : quiet cfg (reported w0) (stepHook registry cfg w1 cancel)).
    { destruct Hcancel as [-> | ->]; cbn [stepHook].
      - rewrite <- R.
        apply (autoStartEffect_quiet
                 (withInstance (startedRef w1) (autoStartChecked w1) false w1));
          [reflexivity | exact P].
      - split; [reflexivity|]. split; [exact P | exact R]. }
    destruct (quiet_run (reported w0) evs _ Hev Hq) as (A & B & C). auto.
Qed.

(** X27.  When the project's review provider is not a provider of the
    registry, a [startReview] call that passes the gate still reports a
    review in the tab [<provider>-review], stores the prompt and shows
    'Review started', although [addReviewTab] refused the provider: the tab
    registry and the tab entries of the storage are exactly as before, so no
    tab with the reported id exists. *)
Theorem unknown_provider_reports_missing_tab (now : Z) (w : World) :
  reviewEnabled cfg = true ->
  canStartReview cfg w = true ->
  workspaceId cfg ∉ startedRef w ->
  reviewProvider cfg ∉ registry ->
  let w' := startReview registry cfg now w in
  tabStates w' = tabStates w
  /\ ls w' = ls w
  /\ tabEmits w' = tabEmits w
  /\ reported w' = reported w ++ [mkInReview (reviewTabId cfg) now]
  /\ toasts w' = toasts w ++ [ReviewStartedToast]
  /\ (ls_throws (ls w) = false ->
      getPendingReviewPrompt (workspaceId cfg) w' = Some REVIEW_PROMPT).
Proof.
  intros He Hg Hs Hp w'. subst w'. unfold startReview.
  rewrite He, Hg. cbn [negb].
  rewrite (bool_decide_eq_false_2 _ Hs).
  unfold ProviderTabs.addReviewTab.
  assert (Hv : ProviderTabs.isValidProviderId registry
                 (Some (JStr (reviewProvider cfg))) = false).
  { simpl. apply bool_decide_eq_false_2. exact Hp. }
  rewrite Hv. cbn [negb]. cbv zeta.
  unfold setPendingReviewPrompt, getPendingReviewPrompt, report, withTabs, withInstance,
    toast, withPrompts, tabsOf.
  cbn [ls ProviderTabs.storage String.eqb].
  destruct (ls_throws (ls w)) eqn:T; cbn;
    rewrite ?T; repeat (split; [reflexivity|]).
  - discriminate.
  - intros _. apply lookup_insert_eq.
Qed.

End Hook.

Lemma one_review_per_mount_witness :
  forallb sameInstance [Click 1; Rerun; Click 2; TimerFires 3] = true
  /\ exists extra,
       reported (runHook Scenarios.registry HookScenarios.claudeReview
                   [Click 1; Rerun; Click 2; TimerFires 3]
                   (stepHook Scenarios.registry HookScenarios.claudeReview
                      HookScenarios.pendingWorld Mount))
       = reported HookScenarios.pendingWorld ++ extra
       /\ (length extra <= 1)%nat.
Proof.
  assert (H : forallb sameInstance [Click 1; Rerun; Click 2; TimerFires 3] = true)
    by reflexivity.
  split; [exact H|].
  destruct (one_review_per_mount Scenarios.registry HookScenarios.claudeReview
              HookScenarios.pendingWorld _ H) as (extra & A & B & _).
  exists extra. split; [exact A | exact B].
Defined.

Lemma cancelled_autostart_loses_pending_review_witness :
  autoStart HookScenarios.claudeReview = true
  /\ reviewEnabled HookScenarios.claudeReview = true
  /\ pendingFlag HookScenarios.claudeReview HookScenarios.pendingWorld = true
  /\ canStartReview HookScenarios.claudeReview HookScenarios.pendingWorld = true
  /\ forallb automatic [TimerFires 5; Unmount; Mount; TimerFires 9] = true
  /\ reported
       (runHook Scenarios.registry HookScenarios.claudeReview
          [TimerFires 5; Unmount; Mount; TimerFires 9]
          (stepHook Scenarios.registry HookScenarios.claudeReview
             (stepHook Scenarios.registry HookScenarios.claudeReview
                HookScenarios.pendingWorld Mount) Rerun))
     = [].
Proof.
  assert (H1 : autoStart HookScenarios.claudeReview = true) by reflexivity.
  assert (H2 : reviewEnabled HookScenarios.claudeReview = true) by reflexivity.
  assert (H3 : pendingFlag HookScenarios.claudeReview HookScenarios.pendingWorld = true)
    by (vm_compute; reflexivity).
  assert (H4 : canStartReview HookScenarios.claudeReview HookScenarios.pendingWorld = true)
    by (vm_compute; reflexivity).
  assert (H5 : forallb automatic [TimerFires 5; Unmount; Mount; TimerFires 9] = true)
    by reflexivity.
  destruct (cancelled_autostart_loses_pending_review Scenarios.registry
              HookScenarios.claudeReview HookScenarios.pendingWorld Rerun
              [TimerFires 5; Unmount; Mount; TimerFires 9] 4
              H1 H2 H3 H4 (or_introl eq_refl) H5) as (_ & _ & _ & _ & A & _).
  repeat (split; [assumption|]). exact A.
Defined.

Lemma unknown_provider_reports_missing_tab_witness :
  reviewEnabled HookScenarios.unknownReview = true
  /\ canStartReview HookScenarios.unknownReview HookScenarios.freshWorld = true
  /\ ("ws" ∉ startedRef HookScenarios.freshWorld)
  /\ ("gpt-review-bot" ∉ Scenarios.registry)
  /\ reported (startReview Scenarios.registry HookScenarios.unknownReview 7
                 HookScenarios.freshWorld)
     = [mkInReview "gpt-review-bot-review" 7]
  /\ tabStates (startReview Scenarios.registry HookScenarios.unknownReview 7
                  HookScenarios.freshWorld) = ∅.
Proof.
  assert (H1 : reviewEnabled HookScenarios.unknownReview = true) by reflexivity.
  assert (H2 : canStartReview HookScenarios.unknownReview HookScenarios.freshWorld = true)
    by reflexivity.
  assert (H3 : workspaceId HookScenarios.unknownReview
               ∉ startedRef HookScenarios.freshWorld) by apply not_elem_of_empty.
  assert (H4 : reviewProvider HookScenarios.unknownReview ∉ Scenarios.registry).
  { intros H. apply list_elem_of_In in H. simpl in H. intuition discriminate. }
  destruct (unknown_provider_reports_missing_tab Scenarios.registry
              HookScenarios.unknownReview 7 HookScenarios.freshWorld H1 H2 H3 H4)
    as (A & _ & _ & B & _).
  split; [exact H1|]. split; [exact H2|]. split; [exact H3|]. split; [exact H4|].
  split; [exact B | exact A].
Defined.

End ReviewAgentHookMore.

(** ** The gate and the tab registry meet in the storage *)

Module ReviewGateMore.
Import Json ProviderTabs ProviderTabsMore.

(** X28.  With a working storage, right after any update of the tab
    registry for a workspace the gate [canStartReview] of that workspace
    answers from what the registry holds in memory: it is open exactly when
    review is enabled and at most one tab of the collection is not a review
    tab.  Review tabs never count, so opening the review tab does not close
    the gate. *)
Theorem gate_counts_registry_tabs
    (registry : list string) (enabled : bool) (now : Z) (w fb : string)
    (mutate : WorkspaceProviderTabsState -> WorkspaceProviderTabsState) (s : Store) :
  storageAvailable s = true ->
  ls_throws (storage s) = false ->
  let s' := updateWorkspaceState registry now w fb mutate s in
  exists st',
    workspaceStates s' !! w = Some st'
    /\ ReviewAgent.canStartReview enabled w (storage s')
       = enabled
         && (length (List.filter (fun tab => negb (reviewFlag tab)) (tabs st')) <=? 1)%nat.
Proof.
  intros Ha Hth s'.
  destruct (updateWorkspaceState_stored registry now w fb mutate s Ha Hth)
    as (st' & H1 & H2 & H3).
  exists st'. split; [exact H1|].
  apply ReviewAgentFacts.canStartReview_counts; assumption.
Qed.

Lemma gate_counts_registry_tabs_witness :
  storageAvailable Scenarios.twoTabs = true
  /\ ls_throws (storage Scenarios.twoTabs) = false
  /\ ReviewAgent.canStartReview true "ws-auto"
       (storage (snd (addReviewTab Scenarios.registry 3 "ws-auto" "claude" "claude"
                        Scenarios.twoTabs)))
     = false.
Proof.
  assert (H1 : storageAvailable Scenarios.twoTabs = true) by reflexivity.
  assert (H2 : ls_throws (storage Scenarios.twoTabs) = false) by reflexivity.
  split; [exact H1|]. split; [exact H2|].
  destruct (gate_counts_registry_tabs Scenarios.registry true 3 "ws-auto" "claude"
              (fun draft =>
                 let isIt tab := reviewFlag tab && String.eqb (provider tab) "claude" in
                 if existsb isIt (tabs draft) then
                   match List.find isIt (tabs draft) with
                   | Some existing => mkState (tabs draft) (Some (id existing))
                   | None => draft
                   end
                 else
                   let tab := mkTab ("claude" +:+ "-review") "claude" 3 (Some true) in
                   mkState (tabs draft ++ [tab]) (Some (id tab)))
              Scenarios.twoTabs H1 H2) as ([l a] & A & B).
  change (updateWorkspaceState Scenarios.registry 3 "ws-auto" "claude" _ Scenarios.twoTabs)
    with (snd (addReviewTab Scenarios.registry 3 "ws-auto" "claude" "claude"
                 Scenarios.twoTabs)) in A, B.
  rewrite B. vm_compute in A. inversion A. reflexivity.
Defined.

End ReviewGateMore.
